(** * wordAIGame: audience participation core

    A shallow embedding of the vote manager ([danmaku_listener.py]), the gift
    processor ([gift_system.py]), the leaderboard ([leaderboard.py]), the
    option parser of the storyteller ([ai_storyteller.py]) and the combat
    counters of the player ([player.py]), with the properties the
    specification states about them.

    Conventions of the embedding:
    - a Python [str] is its sequence of Unicode code points, [list N];
    - a Python [dict] whose iteration order is observable is an
      insertion-ordered association list ([odict]); the per-option ballot
      dictionaries, which are only probed, updated and counted, are [gmap]s;
    - Python numbers that hold money or scores are exact rationals [Q]
      (binary rounding of [float] is outside the model); Python [int]s are [Z];
    - clock readings ([time.time()], [datetime.now()]) are inputs;
    - callbacks are opaque: a call of a callback is recorded in a trace. *)

From Stdlib Require Import QArith Qround Lqa.
From stdpp Require Import gmap list strings pretty sorting.

Set Default Proof Using "Type".
Local Open Scope Z_scope.

(** ** Python strings *)

Abbreviation str := (list N).

Module PyStr.

(** Code points of an ASCII literal. *)
Definition lit (s : string) : str :=
  Ascii.N_of_ascii <$> String.list_ascii_of_string s.

(** [str(n)] for a natural number. *)
Definition of_nat (n : nat) : str := lit (pretty n).

(** [ch.isspace()]: the code points [str.strip()] removes. *)
Definition isspace (c : N) : bool :=
  ((9 <=? c) && (c <=? 13) || (28 <=? c) && (c <=? 32)
   || (c =? 133) || (c =? 160) || (c =? 5760)
   || (8192 <=? c) && (c <=? 8202)
   || (c =? 8232) || (c =? 8233) || (c =? 8239) || (c =? 8287)
   || (c =? 12288))%N.

Fixpoint lstrip (s : str) : str :=
  match s with
  | c :: s' => if isspace c then lstrip s' else s
  | [] => []
  end.

Definition rstrip (s : str) : str := reverse (lstrip (reverse s)).

(** [s.strip()] *)
Definition strip (s : str) : str := rstrip (lstrip s).

(** [s.startswith(p)] *)
Fixpoint startswith (s p : str) {struct p} : bool :=
  match p with
  | [] => true
  | a :: p' =>
      match s with
      | [] => false
      | b :: s' => bool_decide (a = b) && startswith s' p'
      end
  end.

End PyStr.

(** ** Insertion-ordered dictionaries *)

Module ODict.
Section odict.
Context {V : Type}.

Definition keys (d : list (str * V)) : list str := d.*1.
Definition values (d : list (str * V)) : list V := d.*2.

(** [d.get(k)] *)
Fixpoint get (k : str) (d : list (str * V)) : option V :=
  match d with
  | [] => None
  | (k', v) :: d' => if decide (k = k') then Some v else get k d'
  end.

(** [d[k] = v]: an existing key keeps its place, a new key goes last. *)
Fixpoint set (k : str) (v : V) (d : list (str * V)) : list (str * V) :=
  match d with
  | [] => [(k, v)]
  | (k', v') :: d' =>
      if decide (k = k') then (k', v) :: d' else (k', v') :: set k v d'
  end.

(** [f(d[k])] for an [f] that mutates the stored object in place. *)
Fixpoint alter (f : V → V) (k : str) (d : list (str * V)) : list (str * V) :=
  match d with
  | [] => []
  | (k', v) :: d' =>
      if decide (k = k') then (k', f v) :: d' else (k', v) :: alter f k d'
  end.

End odict.
End ODict.

(** ** Exceptions *)

Inductive exn : Type :=
  | KeyError (k : str)
  | TypeError.

Inductive result (A : Type) : Type :=
  | Ok (a : A)
  | Raise (e : exn).
Arguments Ok {A} a.
Arguments Raise {A} e.

(** ** The vote manager ([danmaku_listener.py], class [VoteManager]) *)

Module Vote.

Record DanmakuMessage : Type := {
  platform : str;
  user_id : str;
  username : str;
  content : str;
}.

(** An opaque callable, known by its identity. *)
Definition Callback : Type := nat.

(** [{option_key: count}], the second argument of the callback. *)
Abbreviation counts_t := (list (str * nat)).

Record VoteManager : Type := {
  vote_duration : Z;
  votes : list (str * gmap str str);      (* {option: {user_id: username}} *)
  option_patterns : list (str * list str); (* {option_key: [patterns]} *)
  voting_active : bool;
  vote_start_time : option Q;
  vote_callback : option Callback;
}.

(** The manager together with what it acts on: the timer threads that are
    still asleep and the calls of callbacks made so far (latest last). *)
Record World : Type := {
  mgr : VoteManager;
  timers : nat;
  fired : list (Callback * str * counts_t);
}.

Definition init (duration : Z) : VoteManager :=
  {| vote_duration := duration; votes := []; option_patterns := [];
     voting_active := false; vote_start_time := None;
     vote_callback := None |}.

Definition xuan : N := 36873%N.   (* U+9009, "select" *)
Definition ze : N := 25321%N.     (* U+62E9, second character of "choose" *)
Definition hao : N := 21495%N.    (* U+53F7, "number" *)

(** The patterns of one option: [key], [xuan key], [xuan ze key], [key hao]. *)
Definition patterns_of (key : str) : list str :=
  [key; xuan :: key; xuan :: ze :: key; key ++ [hao]].

(** [{str(i+1): {} for i in range(n)}] *)
Definition fresh_votes (n : nat) : list (str * gmap str str) :=
  foldl (λ d i, ODict.set (PyStr.of_nat (i + 1)) ∅ d) [] (seq 0 n).

(** The loop filling [option_patterns]. *)
Definition fresh_patterns (n : nat) : list (str * list str) :=
  foldl (λ d i, let key := PyStr.of_nat (i + 1) in
                ODict.set key (patterns_of key) d) [] (seq 0 n).

Definition start_vote (options : list str) (callback : option Callback)
    (now : Q) (w : World) : World * Z :=
  let m := mgr w in
  ({| mgr := {| vote_duration := vote_duration m;
                votes := fresh_votes (length options);
                option_patterns := fresh_patterns (length options);
                voting_active := true;
                vote_start_time := Some now;
                vote_callback := callback |};
      timers := S (timers w);
      fired := fired w |},
   vote_duration m).

(** [content == pattern or content.startswith(pattern)] *)
Definition matches (content pattern : str) : bool :=
  bool_decide (content = pattern) || PyStr.startswith content pattern.

(** [for k in self.votes: if uid in self.votes[k]: del self.votes[k][uid]] *)
Definition remove_voter (uid : str) (vs : list (str * gmap str str))
    : list (str * gmap str str) :=
  (λ kv, (kv.1, if decide (is_Some (kv.2 !! uid)) then delete uid kv.2 else kv.2))
    <$> vs.

(** The body run when a pattern of [key] matches and the voter has no ballot
    under [key]. *)
Definition record_ballot (key uid uname : str) (vs : list (str * gmap str str))
    : list (str * gmap str str) :=
  ODict.alter (λ b, <[uid := uname]> b) key (remove_voter uid vs).

(** The inner loop over the patterns of one option; [Some vs'] when the
    function returned from inside the loop. *)
Fixpoint scan_patterns (vs : list (str * gmap str str)) (uid uname content : str)
    (key : str) (patterns : list str) : result (option (list (str * gmap str str))) :=
  match patterns with
  | [] => Ok None
  | p :: ps =>
      if matches content p then
        match ODict.get key vs with
        | None => Raise (KeyError key)
        | Some b =>
            if decide (is_Some (b !! uid))
            then scan_patterns vs uid uname content key ps
            else Ok (Some (record_ballot key uid uname vs))
        end
      else scan_patterns vs uid uname content key ps
  end.

(** The outer loop over [option_patterns.items()]. *)
Fixpoint scan_options (vs : list (str * gmap str str)) (uid uname content : str)
    (opts : list (str * list str))
    : result (option (str * list (str * gmap str str))) :=
  match opts with
  | [] => Ok None
  | (key, patterns) :: rest =>
      match scan_patterns vs uid uname content key patterns with
      | Raise e => Raise e
      | Ok (Some vs') => Ok (Some (key, vs'))
      | Ok None => scan_options vs uid uname content rest
      end
  end.

Definition set_votes (m : VoteManager) (vs : list (str * gmap str str)) : VoteManager :=
  {| vote_duration := vote_duration m; votes := vs;
     option_patterns := option_patterns m; voting_active := voting_active m;
     vote_start_time := vote_start_time m; vote_callback := vote_callback m |}.

Definition process_danmaku (msg : DanmakuMessage) (m : VoteManager)
    : result (VoteManager * option str) :=
  if negb (voting_active m) then Ok (m, None)
  else
    match scan_options (votes m) (user_id msg) (username msg)
            (PyStr.strip (content msg)) (option_patterns m) with
    | Raise e => Raise e
    | Ok (Some (key, vs')) => Ok (set_votes m vs', Some key)
    | Ok None => Ok (m, None)
    end.

(** [{k: len(v) for k, v in self.votes.items()}] *)
Definition get_vote_counts (m : VoteManager) : counts_t :=
  (λ kv, (kv.1, size kv.2)) <$> votes m.

(** [counts[k]], for [k] one of the keys of [counts]. *)
Definition count_of (counts : counts_t) (k : str) : nat :=
  default 0%nat (ODict.get k counts).

(** [max(best, *l, key=f)]: the first of the greatest elements. *)
Fixpoint max_from (f : str → nat) (best : str) (l : list str) : str :=
  match l with
  | [] => best
  | k :: l' => max_from f (if (f best <? f k)%nat then k else best) l'
  end.

Definition winner_of (counts : counts_t) : str :=
  match ODict.keys counts with
  | k :: l => max_from (count_of counts) k l
  | [] => PyStr.lit "1"
  end.

Definition close (m : VoteManager) : VoteManager :=
  {| vote_duration := vote_duration m; votes := votes m;
     option_patterns := option_patterns m; voting_active := false;
     vote_start_time := vote_start_time m; vote_callback := vote_callback m |}.

Definition end_vote (w : World) : World * (str * counts_t) :=
  let m := close (mgr w) in
  let counts := get_vote_counts m in
  let winner := winner_of counts in
  ({| mgr := m; timers := timers w;
      fired := match vote_callback m with
               | Some cb => fired w ++ [(cb, winner, counts)]
               | None => fired w
               end |},
   (winner, counts)).

(** A sleeping timer thread wakes up: the rest of [_vote_timer]. *)
Definition vote_timer (w : World) : World :=
  let w' := {| mgr := mgr w; timers := pred (timers w); fired := fired w |} in
  if voting_active (mgr w) then (end_vote w').1 else w'.

Definition is_voting (m : VoteManager) : bool := voting_active m.

(** Calls made on a manager, in the order they take effect. *)
Inductive call : Type :=
  | StartVote (options : list str) (callback : option Callback) (now : Q)
  | Danmaku (msg : DanmakuMessage)
  | EndVote
  | TimerExpiry.

Definition step (w : World) (c : call) : result World :=
  match c with
  | StartVote options callback now => Ok (start_vote options callback now w).1
  | Danmaku msg =>
      match process_danmaku msg (mgr w) with
      | Ok (m', _) => Ok {| mgr := m'; timers := timers w; fired := fired w |}
      | Raise e => Raise e
      end
  | EndVote => Ok (end_vote w).1
  | TimerExpiry =>
      match timers w with
      | O => Ok w            (* no thread is asleep: nothing happens *)
      | S _ => Ok (vote_timer w)
      end
  end.

Fixpoint run (w : World) (cs : list call) : result World :=
  match cs with
  | [] => Ok w
  | c :: cs' =>
      match step w c with
      | Ok w' => run w' cs'
      | Raise e => Raise e
      end
  end.

Definition world0 (duration : Z) : World :=
  {| mgr := init duration; timers := 0; fired := [] |}.

End Vote.

(** ** [sorted(..., key=..., reverse=True)] *)

Module PySort.

(** [x < y] on exact rationals. *)
Definition qlt (x y : Q) : bool := (Qnum x * QDen y <? Qnum y * QDen x)%Z.

(** How many elements satisfy [p]. *)
Fixpoint count {A} (p : A → bool) (l : list A) : nat :=
  match l with
  | [] => 0
  | x :: l' => (if p x then 1 else 0) + count p l'
  end.

Section sort.
Context {A : Type} (key : A → Q).

(** Puts [x] in front of the first element whose key is not greater. *)
Fixpoint insert_desc (x : A) (l : list A) : list A :=
  match l with
  | [] => [x]
  | y :: l' => if qlt (key x) (key y) then y :: insert_desc x l' else x :: y :: l'
  end.

(** Python's sort is stable, also with [reverse=True]: elements of equal key
    keep the order they have in the argument. *)
Definition sorted_desc (l : list A) : list A := foldr insert_desc [] l.

(** No element is followed by one of greater key. *)
Definition descending (l : list A) : Prop :=
  StronglySorted (λ x y, (key y <= key x)%Q) l.

(** [value >= key e] *)
Definition reaches (value : Q) (e : A) : bool := negb (qlt value (key e)).

End sort.
End PySort.

(** ** The gift processor ([gift_system.py]) *)

Module Gift.

Record GiftMessage : Type := {
  platform : str;
  user_id : str;
  username : str;
  gift_name : str;
  gift_count : Z;
  gift_value : Q;
}.

(** The values found in the [effects] dictionaries. *)
Inductive effect_value : Type :=
  | VInt (n : Z)
  | VBool (b : bool).

Definition truthy (v : effect_value) : bool :=
  match v with
  | VInt n => negb (n =? 0)
  | VBool b => b
  end.

Record GiftEffect : Type := {
  name : str;
  min_value : Q;
  effects : list (str * effect_value);
  description : str;
}.

Definition GIFT_EFFECTS : list (str * GiftEffect) :=
  [ (PyStr.lit "cultivation_small",
     {| name := [28789; 27668; 27880; 20837]%N; min_value := 1 # 10;
        effects := [(PyStr.lit "cultivation", VInt 5)];
        description := [33719; 24471; 53; 28857; 20462; 20026]%N |});
    (PyStr.lit "cultivation_medium",
     {| name := [28789; 30707; 39304; 36192]%N; min_value := 1;
        effects := [(PyStr.lit "cultivation", VInt 20)];
        description := [33719; 24471; 50; 48; 28857; 20462; 20026]%N |});
    (PyStr.lit "cultivation_large",
     {| name := [20185; 26230; 28748; 39030]%N; min_value := 10;
        effects := [(PyStr.lit "cultivation", VInt 100)];
        description := [33719; 24471; 49; 48; 48; 28857; 20462; 20026]%N |});
    (PyStr.lit "hp_boost",
     {| name := [29983; 21629; 31069; 31119]%N; min_value := 5;
        effects := [(PyStr.lit "max_hp", VInt 50); (PyStr.lit "hp", VInt 50)];
        description := [26368; 22823; 29983; 21629; 20540; 43; 53; 48; 65292;
                        24674; 22797; 53; 48; 29983; 21629]%N |});
    (PyStr.lit "mp_boost",
     {| name := [28789; 21147; 28748; 27880]%N; min_value := 5;
        effects := [(PyStr.lit "max_mp", VInt 30); (PyStr.lit "mp", VInt 30)];
        description := [26368; 22823; 28789; 21147; 43; 51; 48; 65292; 24674;
                        22797; 51; 48; 28789; 21147]%N |});
    (PyStr.lit "attribute_boost",
     {| name := [22825; 36171; 35273; 37266]%N; min_value := 20;
        effects := [(PyStr.lit "random_attribute", VInt 2)];
        description := [38543; 26426; 23646; 24615; 43; 50]%N |});
    (PyStr.lit "rename",
     {| name := [36176; 21517; 26435]%N; min_value := 50;
        effects := [(PyStr.lit "can_rename", VBool true)];
        description := [21487; 20197; 20026; 20027; 35282; 25913; 21517]%N |});
    (PyStr.lit "breakthrough_chance",
     {| name := [22825; 36947; 30519; 39038]%N; min_value := 100;
        effects := [(PyStr.lit "breakthrough_boost", VInt 30)];
        description := [31361; 30772; 25104; 21151; 29575; 43; 51; 48; 37]%N |});
    (PyStr.lit "resurrection",
     {| name := [22797; 27963; 31192; 27861]%N; min_value := 200;
        effects := [(PyStr.lit "resurrection", VBool true)];
        description := [27515; 20129; 26102; 21487; 22797; 27963; 19968; 27425]%N |})
  ].

Record GiftRecord : Type := {
  r_user_id : str;
  r_username : str;
  r_platform : str;
  r_gift_name : str;
  r_gift_count : Z;
  r_gift_value : Q;
  effect_applied : str;
  timestamp : Z;
}.

Record DonorStats : Type := {
  d_user_id : str;
  d_username : str;
  d_platform : str;
  total_value : Q;
  total_gifts : Z;
  last_gift_time : option Z;   (* [None] for the initial empty string *)
  contribution_rank : Z;
}.

(** One entry of [pending_effects]. *)
Record PendingEffect : Type := {
  pe_effect : GiftEffect;
  pe_donor : str;
  pe_value : Q;
}.

Definition Callback : Type := nat.

Record GiftProcessor : Type := {
  records : list GiftRecord;
  donor_stats : list (str * DonorStats);
  pending_effects : list PendingEffect;
  pending_rename : option (str * str);     (* donor, user_id *)
  effect_callbacks : list Callback;
  (* what the processor acts on *)
  save_file : option (list GiftRecord * list (str * DonorStats));
  called : list (Callback * GiftEffect * GiftMessage);
}.

(** [_determine_effect] *)
Definition determine_effect (value : Q) : option GiftEffect :=
  let sorted_effects := PySort.sorted_desc min_value (ODict.values GIFT_EFFECTS) in
  find (λ effect, negb (PySort.qlt value (min_value effect))) sorted_effects.

Definition set_rank (rank : Z) (d : DonorStats) : DonorStats :=
  {| d_user_id := d_user_id d; d_username := d_username d;
     d_platform := d_platform d; total_value := total_value d;
     total_gifts := total_gifts d; last_gift_time := last_gift_time d;
     contribution_rank := rank |}.

(** [_update_rankings]: the donors are objects shared between the dictionary
    and the sorted list; a donor is known by its key. *)
Definition update_rankings (donors : list (str * DonorStats))
    : list (str * DonorStats) :=
  let sorted_donors := PySort.sorted_desc (λ kd, total_value kd.2) donors in
  foldl (λ ds ikd, ODict.alter (set_rank (Z.of_nat ikd.1 + 1)) ikd.2.1 ds)
        donors (imap (λ i kd, (i, kd)) sorted_donors).

(** [f"{platform}_{user_id}"] *)
Definition donor_key (platform user_id : str) : str :=
  platform ++ PyStr.lit "_" ++ user_id.

(** [_update_donor_stats] *)
Definition update_donor_stats (gift : GiftMessage) (value : Q) (now : Z)
    (donors : list (str * DonorStats)) : list (str * DonorStats) :=
  let key := donor_key (platform gift) (user_id gift) in
  let donors1 :=
    match ODict.get key donors with
    | Some _ => donors
    | None =>
        ODict.set key
          {| d_user_id := user_id gift; d_username := username gift;
             d_platform := platform gift; total_value := 0;
             total_gifts := 0; last_gift_time := None;
             contribution_rank := 0 |} donors
    end in
  let donors2 :=
    ODict.alter
      (λ stats,
         {| d_user_id := d_user_id stats; d_username := username gift;
            d_platform := d_platform stats;
            total_value := total_value stats + value;
            total_gifts := total_gifts stats + gift_count gift;
            last_gift_time := Some now;
            contribution_rank := contribution_rank stats |})
      key donors1 in
  update_rankings donors2.

(** [self.records[-1000:]] *)
Definition last_n {A} (n : nat) (l : list A) : list A := drop (length l - n) l.

(** [process_gift]; [now] is the clock read for the donor statistics and
    [now'] the one read for the gift record. *)
Definition process_gift (gift : GiftMessage) (now now' : Z) (p : GiftProcessor)
    : GiftProcessor * option GiftEffect :=
  let total_value := (gift_value gift * inject_Z (gift_count gift))%Q in
  let donors := update_donor_stats gift total_value now (donor_stats p) in
  match determine_effect total_value with
  | Some effect =>
      let record :=
        {| r_user_id := user_id gift; r_username := username gift;
           r_platform := platform gift; r_gift_name := gift_name gift;
           r_gift_count := gift_count gift; r_gift_value := total_value;
           effect_applied := name effect; timestamp := now' |} in
      let records' := records p ++ [record] in
      ({| records := records';
          donor_stats := donors;
          pending_effects :=
            pending_effects p
            ++ [{| pe_effect := effect; pe_donor := username gift;
                   pe_value := total_value |}];
          pending_rename :=
            match ODict.get (PyStr.lit "can_rename") (effects effect) with
            | Some v => if truthy v then Some (username gift, user_id gift)
                        else pending_rename p
            | None => pending_rename p
            end;
          effect_callbacks := effect_callbacks p;
          save_file := Some (last_n 1000 records', donors);
          called := called p ++ ((λ cb, (cb, effect, gift)) <$> effect_callbacks p) |},
       Some effect)
  | None =>
      ({| records := records p; donor_stats := donors;
          pending_effects := pending_effects p;
          pending_rename := pending_rename p;
          effect_callbacks := effect_callbacks p;
          save_file := save_file p; called := called p |},
       None)
  end.

Definition new_processor : GiftProcessor :=
  {| records := []; donor_stats := []; pending_effects := [];
     pending_rename := None; effect_callbacks := []; save_file := None;
     called := [] |}.

End Gift.

(** ** The leaderboard ([leaderboard.py]) *)

Module Board.

#[local] Set Warnings "-register-all".

(** What [json.dump] writes and [json.load] reads back. An object lists its
    members in the order of the dictionary; both directions keep that order.
    The text in the file stands for this value. *)
Inductive json : Type :=
  | JNull
  | JBool (b : bool)
  | JNum (q : Q)
  | JStr (s : str)
  | JArr (l : list json)
  | JObj (members : list (str * json)).

Inductive LeaderboardType : Type :=
  | CONTRIBUTION
  | VOTE_PARTICIPATION
  | LUCKY
  | GAME_PROGRESS.

(** [board_type.value] *)
Definition value (t : LeaderboardType) : str :=
  match t with
  | CONTRIBUTION => PyStr.lit "contribution"
  | VOTE_PARTICIPATION => PyStr.lit "vote"
  | LUCKY => PyStr.lit "lucky"
  | GAME_PROGRESS => PyStr.lit "progress"
  end.

Record LeaderboardEntry : Type := {
  user_id : str;
  username : str;
  platform : str;
  score : Q;
  extra_data : list (str * json);
  last_update : str;
}.

(** A [GameStats] object is the dictionary of its fields: the constructor
    stores what it is given, whatever its type. *)
Definition GameStats_fields : list str :=
  PyStr.lit <$>
    ["character_name"; "character_realm"; "character_cultivation";
     "total_choices"; "total_stories"; "breakthroughs"; "deaths";
     "total_votes"; "winning_votes"; "total_viewers"; "peak_viewers";
     "total_gifts_value"; "total_gifts_count"; "start_time"; "last_update";
     "play_time_seconds"].

(** [GameStats()], built at the time [now]. *)
Definition GameStats_new (now : str) : list (str * json) :=
  [ (PyStr.lit "character_name", JStr []);
    (PyStr.lit "character_realm", JStr [20961; 20154]%N);
    (PyStr.lit "character_cultivation", JNum 0);
    (PyStr.lit "total_choices", JNum 0);
    (PyStr.lit "total_stories", JNum 0);
    (PyStr.lit "breakthroughs", JNum 0);
    (PyStr.lit "deaths", JNum 0);
    (PyStr.lit "total_votes", JNum 0);
    (PyStr.lit "winning_votes", JNum 0);
    (PyStr.lit "total_viewers", JNum 0);
    (PyStr.lit "peak_viewers", JNum 0);
    (PyStr.lit "total_gifts_value", JNum 0);
    (PyStr.lit "total_gifts_count", JNum 0);
    (PyStr.lit "start_time", JStr now);
    (PyStr.lit "last_update", JStr now);
    (PyStr.lit "play_time_seconds", JNum 0) ].

(** [GameStats] applied to the keywords [kw]: [None] stands for the
    [TypeError] of an unknown name. *)
Definition GameStats_of (now : str) (kw : list (str * json))
    : option (list (str * json)) :=
  if forallb (λ k, bool_decide (k ∈ GameStats_fields)) (ODict.keys kw)
  then Some (foldl (λ gs kv, ODict.set kv.1 kv.2 gs) (GameStats_new now) kw)
  else None.

Record Leaderboard : Type := {
  boards : list (str * list (str * LeaderboardEntry));
  game_stats : list (str * json);
  history : list json;
  (* the content of the file [save_file], if the file exists *)
  file : option json;
}.

(** [asdict(entry)] *)
Definition asdict (e : LeaderboardEntry) : json :=
  JObj [ (PyStr.lit "user_id", JStr (user_id e));
         (PyStr.lit "username", JStr (username e));
         (PyStr.lit "platform", JStr (platform e));
         (PyStr.lit "score", JNum (score e));
         (PyStr.lit "extra_data", JObj (extra_data e));
         (PyStr.lit "last_update", JStr (last_update e)) ].

Definition LeaderboardEntry_fields : list str :=
  PyStr.lit <$>
    ["user_id"; "username"; "platform"; "score"; "extra_data"; "last_update"].

(** [LeaderboardEntry] applied to the keywords [v], built at the time [now]:
    [None] stands for the [TypeError] of a value that is no object, of an
    unknown name or of a missing required field. The fields are typed here;
    Python would store a value of another type as it is. *)
Definition LeaderboardEntry_of (now : str) (v : json) : option LeaderboardEntry :=
  match v with
  | JObj kw =>
      if forallb (λ k, bool_decide (k ∈ LeaderboardEntry_fields)) (ODict.keys kw)
      then
        match ODict.get (PyStr.lit "user_id") kw,
              ODict.get (PyStr.lit "username") kw,
              ODict.get (PyStr.lit "platform") kw,
              ODict.get (PyStr.lit "score") kw with
        | Some (JStr u), Some (JStr n), Some (JStr p), Some (JNum s) =>
            match
              match ODict.get (PyStr.lit "extra_data") kw with
              | None => Some []
              | Some (JObj x) => Some x
              | Some _ => None
              end,
              match ODict.get (PyStr.lit "last_update") kw with
              | None => Some now
              | Some (JStr t) => Some t
              | Some _ => None
              end
            with
            | Some x, Some t =>
                Some {| user_id := u; username := n; platform := p; score := s;
                        extra_data := x; last_update := t |}
            | _, _ => None
            end
        | _, _, _, _ => None
        end
      else None
  | _ => None
  end.

(** [self.history[-100:]] and the like *)
Definition last_n {A} (n : nat) (l : list A) : list A := drop (length l - n) l.

(** The value [_save] hands to [json.dump]. *)
Definition save_data (lb : Leaderboard) : json :=
  JObj [ (PyStr.lit "boards",
          JObj ((λ kv, (kv.1, JObj ((λ kkvv, (kkvv.1, asdict kkvv.2)) <$> kv.2)))
                  <$> boards lb));
         (PyStr.lit "game_stats", JObj (game_stats lb));
         (PyStr.lit "history", JArr (last_n 100 (history lb))) ].

(** [_save]; the file system is taken to work. *)
Definition save (lb : Leaderboard) : Leaderboard :=
  {| boards := boards lb; game_stats := game_stats lb; history := history lb;
     file := Some (save_data lb) |}.

(** [{k: LeaderboardEntry(v) for k, v in entries.items()}], [v] passed as keywords *)
Fixpoint load_entries (now : str) (entries : list (str * json))
    : option (list (str * LeaderboardEntry)) :=
  match entries with
  | [] => Some []
  | (k, v) :: rest =>
      match LeaderboardEntry_of now v with
      | Some e =>
          match load_entries now rest with
          | Some d => Some ((k, e) :: d)
          | None => None
          end
      | None => None
      end
  end.

(** The loop over [data.get("boards", {}).items()]; the flag tells whether it
    ran to its end or was left by an exception. *)
Fixpoint load_boards (now : str) (items : list (str * json))
    (bs : list (str * list (str * LeaderboardEntry)))
    : list (str * list (str * LeaderboardEntry)) * bool :=
  match items with
  | [] => (bs, true)
  | (board_type, entries) :: rest =>
      match ODict.get board_type bs with
      | Some _ =>
          match entries with
          | JObj es =>
              match load_entries now es with
              | Some d => load_boards now rest (ODict.set board_type d bs)
              | None => (bs, false)
              end
          | _ => (bs, false)
          end
      | None => load_boards now rest bs
      end
  end.

(** [_load]: every exception ends the loading and leaves what was loaded
    before it. A history that is no array, which Python would store as it
    is, leaves the history as it was. *)
Definition load (now : str) (lb : Leaderboard) : Leaderboard :=
  match file lb with
  | None => lb
  | Some (JObj data) =>
      match
        match ODict.get (PyStr.lit "boards") data with
        | None => Some []
        | Some (JObj items) => Some items
        | Some _ => None
        end
      with
      | None => lb
      | Some items =>
          let (bs, ok) := load_boards now items (boards lb) in
          let lb1 := {| boards := bs; game_stats := game_stats lb;
                        history := history lb; file := file lb |} in
          if ok then
            match
              match ODict.get (PyStr.lit "game_stats") data with
              | None => Some (game_stats lb)
              | Some (JObj kw) => GameStats_of now kw
              | Some _ => None
              end
            with
            | None => lb1
            | Some gs =>
                {| boards := bs; game_stats := gs;
                   history := match ODict.get (PyStr.lit "history") data with
                              | None => []
                              | Some (JArr h) => h
                              | Some _ => history lb
                              end;
                   file := file lb |}
            end
          else lb1
      end
  | Some _ => lb
  end.

(** [Leaderboard(save_file)], over the file content [f], at the time [now]. *)
Definition new_leaderboard (f : option json) (now : str) : Leaderboard :=
  load now
    {| boards := [ (value CONTRIBUTION, []); (value VOTE_PARTICIPATION, []);
                   (value LUCKY, []) ];
       game_stats := GameStats_new now; history := []; file := f |}.

(** [l[:limit]] *)
Definition slice_to {A} (limit : Z) (l : list A) : list A :=
  if (0 <=? limit)%Z then take (Z.to_nat limit) l
  else take (length l - Z.to_nat (- limit)) l.

(** [get_leaderboard] *)
Definition get_leaderboard (board_type : LeaderboardType) (limit : Z)
    (lb : Leaderboard) : list LeaderboardEntry :=
  let board := default [] (ODict.get (value board_type) (boards lb)) in
  let sorted_entries := PySort.sorted_desc score (ODict.values board) in
  slice_to limit sorted_entries.

(** A call that ended, or was left by an exception, in the given state. *)
Inductive outcome : Type :=
  | Done (lb : Leaderboard)
  | Raised (e : exn) (lb : Leaderboard).

(** [x + 1] for a stored value [x]. *)
Definition plus_one (x : json) : option json :=
  match x with
  | JNum q => Some (JNum (q + 1))
  | JBool b => Some (JNum ((if b then 1 else 0) + 1))
  | _ => None
  end.

Definition set_board (kind : str) (board : list (str * LeaderboardEntry))
    (lb : Leaderboard) : Leaderboard :=
  {| boards := ODict.set kind board (boards lb); game_stats := game_stats lb;
     history := history lb; file := file lb |}.

(** [f"{platform}_{user_id}"] *)
Definition entry_key (platform user_id : str) : str :=
  platform ++ PyStr.lit "_" ++ user_id.

(** [_update_lucky_board], at the time [now]. *)
Definition update_lucky_board (user_id username platform now : str)
    (lb : Leaderboard) : outcome :=
  match ODict.get (value LUCKY) (boards lb) with
  | None => Raised (KeyError (value LUCKY)) lb
  | Some board =>
      let key := entry_key platform user_id in
      let entry :=
        match ODict.get key board with
        | Some e => e
        | None => {| user_id := user_id; username := username;
                     platform := platform; score := 0; extra_data := [];
                     last_update := now |}
        end in
      let entry' :=
        {| user_id := Board.user_id entry; username := username;
           platform := Board.platform entry; score := score entry + 1;
           extra_data := extra_data entry; last_update := now |} in
      Done (set_board (value LUCKY) (ODict.set key entry' board) lb)
  end.

(** [update_vote_participation], at the time [now]. *)
Definition update_vote_participation
    (user_id username platform voted_option winning_option now : str)
    (lb : Leaderboard) : outcome :=
  match ODict.get (value VOTE_PARTICIPATION) (boards lb) with
  | None => Raised (KeyError (value VOTE_PARTICIPATION)) lb
  | Some board =>
      let key := entry_key platform user_id in
      let entry :=
        match ODict.get key board with
        | Some e => e
        | None => {| user_id := user_id; username := username;
                     platform := platform; score := 0;
                     extra_data := [ (PyStr.lit "total_votes", JNum 0);
                                     (PyStr.lit "correct_votes", JNum 0) ];
                     last_update := now |}
        end in
      let store e := set_board (value VOTE_PARTICIPATION) (ODict.set key e board) lb in
      match plus_one (default (JNum 0)
                        (ODict.get (PyStr.lit "total_votes") (extra_data entry))) with
      | None => Raised TypeError (store entry)
      | Some tv =>
          let entry1 :=
            {| user_id := Board.user_id entry; username := username;
               platform := Board.platform entry; score := score entry + 1;
               extra_data := ODict.set (PyStr.lit "total_votes") tv (extra_data entry);
               last_update := now |} in
          if decide (voted_option = winning_option) then
            let entry2 :=
              {| user_id := Board.user_id entry1; username := Board.username entry1;
                 platform := Board.platform entry1; score := score entry1 + 2;
                 extra_data := extra_data entry1;
                 last_update := last_update entry1 |} in
            match plus_one (default (JNum 0)
                              (ODict.get (PyStr.lit "correct_votes")
                                         (extra_data entry2))) with
            | None => Raised TypeError (store entry2)
            | Some cv =>
                let entry3 :=
                  {| user_id := Board.user_id entry2;
                     username := Board.username entry2;
                     platform := Board.platform entry2; score := score entry2;
                     extra_data := ODict.set (PyStr.lit "correct_votes") cv
                                             (extra_data entry2);
                     last_update := last_update entry2 |} in
                match update_lucky_board user_id username platform now
                        (store entry3) with
                | Done lb' => Done (save lb')
                | Raised e lb' => Raised e lb'
                end
            end
          else Done (save (store entry1))
      end
  end.

End Board.

(** ** The option parser of the storyteller ([ai_storyteller.py]) *)

Module Story.

(** The regular expressions of [_parse_story_response]; they are run by the
    [re] module, which is no part of this repository. *)
Inductive pattern : Type :=
  | option_pattern      (* [选项N] text, up to the next tag or the end *)
  | option_pattern2     (* a line "N." or "N、" followed by text *)
  | options_tail        (* from the first [选项N] on *)
  | cultivation_tag
  | hp_tag
  | mp_tag
  | item_tag
  | breakthrough_tag.

(** [response.split('\n')] *)
Fixpoint split_lines (s : str) : list str :=
  match s with
  | [] => [[]]
  | c :: s' =>
      if (c =? 10)%N then [] :: split_lines s'
      else match split_lines s' with
           | line :: rest => (c :: line) :: rest
           | [] => [[c]]
           end
  end.

Definition default_options : list str :=
  [ [32487; 32493; 25506; 32034]%N;
    [21407; 22320; 20462; 28860]%N;
    [23547; 25214; 26426; 32536]%N ].

Section parse.

(** [re.findall(p, s, re.DOTALL)] for a pattern of one group. *)
Variable findall : pattern → str → list str.
(** [re.match(p, s)], as the text of its group 1. *)
Variable match_group1 : pattern → str → option str.
(** [re.sub(p, '', s)] *)
Variable sub_empty : pattern → str → str.

(** The options the tag pattern yields, stripped, without the blank ones. *)
Definition tagged_options (response : str) : list str :=
  omap (λ opt, if decide (PyStr.strip opt = []) then None
               else Some (PyStr.strip opt))
       (findall option_pattern response).

(** The options the numbered lines yield. *)
Definition numbered_options (response : str) : list str :=
  omap (λ line, PyStr.strip <$> match_group1 option_pattern2 (PyStr.strip line))
       (split_lines response).

Definition parse_story_response (response : str) : str * list str :=
  let options := tagged_options response in
  let options :=
    match options with
    | [] => numbered_options response
    | _ :: _ => options
    end in
  let story := sub_empty options_tail response in
  let story := sub_empty cultivation_tag story in
  let story := sub_empty hp_tag story in
  let story := sub_empty mp_tag story in
  let story := sub_empty item_tag story in
  let story := sub_empty breakthrough_tag story in
  let story := PyStr.strip story in
  let options :=
    match options with
    | [] => default_options
    | _ :: _ => options
    end in
  (story, options).

End parse.
End Story.

(** ** The combat counters of the player ([player.py]) *)

Module Player.

(** The fields [take_damage], [heal] and [restore_mp] read and write. *)
Record Player : Type := {
  hp : Z;
  max_hp : Z;
  mp : Z;
  max_mp : Z;
}.

Definition set_hp (v : Z) (p : Player) : Player :=
  {| hp := v; max_hp := max_hp p; mp := mp p; max_mp := max_mp p |}.

Definition set_mp (v : Z) (p : Player) : Player :=
  {| hp := hp p; max_hp := max_hp p; mp := v; max_mp := max_mp p |}.

Definition take_damage (damage : Z) (p : Player) : Player * bool :=
  let p' := set_hp (Z.max 0 (hp p - damage)) p in
  (p', hp p' <=? 0).

Definition heal (amount : Z) (p : Player) : Player * Z :=
  let old_hp := hp p in
  let p' := set_hp (Z.min (max_hp p) (hp p + amount)) p in
  (p', hp p' - old_hp).

Definition restore_mp (amount : Z) (p : Player) : Player * Z :=
  let old_mp := mp p in
  let p' := set_mp (Z.min (max_mp p) (mp p + amount)) p in
  (p', mp p' - old_mp).

End Player.

(** ** Predicates and sample states for the vote manager *)

Module VoteSpec.
Import Vote.

(** The chat message [text] of the viewer [uid]. *)
Definition msg (uid text : string) : DanmakuMessage :=
  {| platform := PyStr.lit "mock"; user_id := PyStr.lit uid;
     username := PyStr.lit uid; content := PyStr.lit text |}.

(** A list of [n] options; their texts play no part in voting. *)
Definition options_n (n : nat) : list str := replicate n (PyStr.lit "go on").

(** A session of three options, opened at time 0 with callback 7, in which
    voter a has voted for option 1. *)
Definition open_session : World :=
  {| mgr := {| vote_duration := 15;
               votes := [(PyStr.lit "1", {[ PyStr.lit "a" := PyStr.lit "a" ]});
                         (PyStr.lit "2", ∅); (PyStr.lit "3", ∅)];
               option_patterns := fresh_patterns 3;
               voting_active := true;
               vote_start_time := Some 0%Q;
               vote_callback := Some 7%nat |};
     timers := 1;
     fired := [] |}.

(** [n] calls of [end_vote] in a row. *)
Definition end_vote_n (n : nat) (w : World) : World :=
  Nat.iter n (λ x, (end_vote x).1) w.

(** The ballot counts, in the order of the options. *)
Definition tally (m : VoteManager) : list nat := (λ kv, size kv.2) <$> votes m.

(** A session whose ballots are 3, 5 and 1 for the options 1, 2 and 3. *)
Definition session_3_5_1 : World :=
  let voters (l : list string) : gmap str str :=
    list_to_map ((λ u, (PyStr.lit u, PyStr.lit u)) <$> l) in
  {| mgr := {| vote_duration := 15;
               votes := [(PyStr.lit "1", voters ["a"; "b"; "c"]);
                         (PyStr.lit "2", voters ["d"; "e"; "f"; "g"; "h"]);
                         (PyStr.lit "3", voters ["i"])];
               option_patterns := fresh_patterns 3;
               voting_active := true;
               vote_start_time := Some 0%Q;
               vote_callback := None |};
     timers := 1;
     fired := [] |}.

(** The options under which a voter holds a ballot. *)
Definition holders (uid : str) (vs : list (str * gmap str str))
    : list (str * gmap str str) :=
  filter (λ kv, is_Some (kv.2 !! uid)) vs.

(** No voter holds a ballot under two options. *)
Definition at_most_one (vs : list (str * gmap str str)) : Prop :=
  ∀ uid, (length (holders uid vs) ≤ 1)%nat.

(** The session invariant: the two dictionaries have the same keys, and no
    voter holds two ballots. *)
Definition session_ok (m : VoteManager) : Prop :=
  ODict.keys (option_patterns m) = ODict.keys (votes m) ∧ at_most_one (votes m).

(** A session of ten options in which voter a has sent the text 10 once. *)
Definition ten_options : World :=
  {| mgr := {| vote_duration := 15;
               votes := (PyStr.lit "1", {[ PyStr.lit "a" := PyStr.lit "a" ]})
                        :: ((λ i, (PyStr.of_nat (i + 1), ∅)) <$> seq 1 9);
               option_patterns := fresh_patterns 10;
               voting_active := true;
               vote_start_time := Some 0%Q;
               vote_callback := None |};
     timers := 1;
     fired := [] |}.

(** The option a text votes for by the rule of first match: the first
    option, in their order, one of whose patterns matches. *)
Definition first_match (content : str) (opts : list (str * list str)) : option str :=
  fst <$> find (λ kp, existsb (matches content) kp.2) opts.

(** Neither pattern is the beginning of the other. *)
Definition incomparable (p p' : str) : bool :=
  negb (PyStr.startswith p p') && negb (PyStr.startswith p' p).

(** No pattern of an option begins like a pattern of a later option. *)
Fixpoint unambiguous (opts : list (str * list str)) : bool :=
  match opts with
  | [] => true
  | (_, ps) :: rest =>
      forallb (λ kp, forallb (λ p, forallb (incomparable p) kp.2) ps) rest
      && unambiguous rest
  end.

End VoteSpec.

(** ** Predicates and sample states for the gift processor *)

Module GiftSpec.
Import Gift.

(** The tiers, in the order of their declaration. *)
Definition tiers : list GiftEffect := ODict.values GIFT_EFFECTS.

(** Two records of the same donor that differ at most in the rank. *)
Definition same_donor (a b : DonorStats) : Prop :=
  d_user_id a = d_user_id b ∧ d_username a = d_username b ∧
  d_platform a = d_platform b ∧ total_value a = total_value b ∧
  total_gifts a = total_gifts b ∧ last_gift_time a = last_gift_time b.

(** The same, for dictionary items. *)
Definition same_entry (a b : str * DonorStats) : Prop :=
  a.1 = b.1 ∧ same_donor a.2 b.2.

(** The loop of [_update_rankings], over any list of numbered donors. *)
Definition assign (l : list (nat * (str * DonorStats))) (ds : list (str * DonorStats))
    : list (str * DonorStats) :=
  foldl (λ ds ikd, ODict.alter (set_rank (Z.of_nat ikd.1 + 1)) ikd.2.1 ds) ds l.

(** The record of the donor of a gift before the gift: absent donors count
    as a record of no value and no gifts. *)
Definition value_before (gift : GiftMessage) (p : GiftProcessor) : Q :=
  match ODict.get (donor_key (platform gift) (user_id gift)) (donor_stats p) with
  | Some st => total_value st
  | None => 0
  end.

(** The number of gifts of the donor of a gift before the gift. *)
Definition gifts_before (gift : GiftMessage) (p : GiftProcessor) : Z :=
  match ODict.get (donor_key (platform gift) (user_id gift)) (donor_stats p) with
  | Some st => total_gifts st
  | None => 0
  end.

(** The sort key of [_update_rankings]. *)
Definition total (kd : str * DonorStats) : Q := total_value kd.2.

(** The rank [_update_rankings] gives the donor at position [j] of the
    dictionary: one more than the number of donors of greater total plus the
    number of donors of equal total that precede it in the dictionary. *)
Definition rank_at (d : list (str * DonorStats)) (j : nat) (v : Q) : Z :=
  Z.of_nat (PySort.count (λ kd, PySort.qlt v (total kd)) d
            + PySort.count (λ kd, Qeq_bool (total kd) v) (take j d)) + 1.

(** One gift of the given unit value from the donor [uid]. *)
Definition gift_of (uid : string) (value : Q) : GiftMessage :=
  {| platform := PyStr.lit "mock"; user_id := PyStr.lit uid;
     username := PyStr.lit uid; gift_name := PyStr.lit "rose";
     gift_count := 1; gift_value := value |}.

(** Three gifts: donor A gives 5 at time 1, donor B gives 10 at time 2,
    donor A gives 5 at time 3. *)
Definition three_gifts : GiftProcessor :=
  (process_gift (gift_of "A" 5) 3 3
     (process_gift (gift_of "B" 10) 2 2
        (process_gift (gift_of "A" 5) 1 1 new_processor).1).1).1.

(** What C6 says of ties: of two donors of equal cumulative value, the one
    whose last gift is the earlier has the better rank. *)
Definition ties_by_last_gift_time (d : list (str * DonorStats)) : Prop :=
  ∀ a b ta tb,
    a ∈ ODict.values d → b ∈ ODict.values d →
    (total_value a == total_value b)%Q →
    last_gift_time a = Some ta → last_gift_time b = Some tb → ta < tb →
    contribution_rank a < contribution_rank b.

End GiftSpec.

(** ** Predicates and sample states for the leaderboard *)

Module BoardSpec.
Import Board.

(** The three boards a leaderboard always has, in the order of [__init__]. *)
Definition board_keys : list str :=
  [value CONTRIBUTION; value VOTE_PARTICIPATION; value LUCKY].

(** The entry of the identity [uid] of platform mock, with the score [s]. *)
Definition entry_of (uid : string) (s : Q) : str * LeaderboardEntry :=
  (entry_key (PyStr.lit "mock") (PyStr.lit uid),
   {| user_id := PyStr.lit uid; username := PyStr.lit uid;
      platform := PyStr.lit "mock"; score := s;
      extra_data := [(PyStr.lit "total_votes", JNum 2)];
      last_update := PyStr.lit "2024-01-01T10:00:00" |}).

(** A leaderboard with two contributors, one voter and one lucky voter. *)
Definition sample_board : Leaderboard :=
  {| boards := [ (value CONTRIBUTION, [entry_of "a" (5 # 2); entry_of "b" 12]);
                 (value VOTE_PARTICIPATION, [entry_of "a" 4]);
                 (value LUCKY, [entry_of "a" 1]) ];
     game_stats := GameStats_new (PyStr.lit "2024-01-01T09:00:00");
     history := []; file := None |}.

(** The entry of an identity on a board. *)
Definition entry_in (kind : LeaderboardType) (key : str) (lb : Leaderboard)
    : option LeaderboardEntry :=
  ODict.get (value kind) (boards lb) ≫= ODict.get key.

(** The score of an identity on a board; an identity without entry has
    score 0, the score a new entry starts from. *)
Definition score_in (kind : LeaderboardType) (key : str) (lb : Leaderboard) : Q :=
  from_option score 0%Q (entry_in kind key lb).

(** A stored counter to which Python can add 1. *)
Definition counter_ok (x : option json) : Prop :=
  match x with
  | None | Some (JNum _) | Some (JBool _) => True
  | Some _ => False
  end.

(** The vote counters of an identity, where it has an entry, can be added to. *)
Definition counters_ok (key : str) (lb : Leaderboard) : Prop :=
  match entry_in VOTE_PARTICIPATION key lb with
  | Some e =>
      counter_ok (ODict.get (PyStr.lit "total_votes") (extra_data e)) ∧
      counter_ok (ODict.get (PyStr.lit "correct_votes") (extra_data e))
  | None => True
  end.

End BoardSpec.

(** ** Predicates and sample states for the combat counters *)

Module PlayerSpec.
Import Player.

(** The counters are within their bounds. *)
Definition in_bounds (p : Player) : Prop :=
  0 ≤ hp p ≤ max_hp p ∧ 0 ≤ mp p ≤ max_mp p.

(** Three players: at full strength, exhausted, and in between. *)
Definition full : Player := {| hp := 150; max_hp := 150; mp := 80; max_mp := 80 |}.
Definition spent : Player := {| hp := 0; max_hp := 150; mp := 0; max_mp := 80 |}.
Definition hurt : Player := {| hp := 100; max_hp := 150; mp := 50; max_mp := 80 |}.

End PlayerSpec.

(** ** More of the vote manager *)

Module VoteMore.
Import Vote.

(** [int(x)] for a number: the integer next to [x] towards zero. *)
Definition py_int (x : Q) : Z := Z.quot (Qnum x) (QDen x).

(** [get_remaining_time], at the clock reading [now]. A start time of zero
    counts as no start time, as [None] does. *)
Definition get_remaining_time (now : Q) (m : VoteManager) : Z :=
  match vote_start_time m with
  | Some start =>
      if negb (voting_active m) || Qeq_bool start 0 then 0
      else
        let elapsed := (now - start)%Q in
        Z.max 0 (vote_duration m - py_int elapsed)
  | None => 0
  end.

(** Everyone who holds a ballot. *)
Definition voters (vs : list (str * gmap str str)) : gset str :=
  ⋃ ((λ kv, dom kv.2) <$> vs).

(** The counts of a ballot dictionary, in the order of the options. *)
Definition tally_of (vs : list (str * gmap str str)) : list nat :=
  (λ kv, size kv.2) <$> vs.

(** The calls that neither open nor close a session by themselves. *)
Definition passive (c : call) : bool :=
  match c with
  | Danmaku _ | TimerExpiry => true
  | StartVote _ _ _ | EndVote => false
  end.

(** A session of three options opened at the clock reading 100. *)
Definition timed_session : VoteManager :=
  (start_vote [PyStr.lit "left"; PyStr.lit "right"; PyStr.lit "wait"] None 100%Q
     (world0 15)).1.(mgr).

End VoteMore.

(** ** More of the gift processor *)

Module GiftMore.
Import Gift.

(** [register_effect_callback] *)
Definition register_effect_callback (callback : Callback) (p : GiftProcessor)
    : GiftProcessor :=
  {| records := records p; donor_stats := donor_stats p;
     pending_effects := pending_effects p; pending_rename := pending_rename p;
     effect_callbacks := effect_callbacks p ++ [callback];
     save_file := save_file p; called := called p |}.

(** [get_pending_effects] *)
Definition get_pending_effects (p : GiftProcessor)
    : GiftProcessor * list PendingEffect :=
  let effects := pending_effects p in
  ({| records := records p; donor_stats := donor_stats p;
      pending_effects := []; pending_rename := pending_rename p;
      effect_callbacks := effect_callbacks p;
      save_file := save_file p; called := called p |},
   effects).

(** [has_pending_rename] *)
Definition has_pending_rename (p : GiftProcessor) : bool :=
  match pending_rename p with
  | Some _ => true
  | None => false
  end.

(** [get_pending_rename] *)
Definition get_pending_rename (p : GiftProcessor)
    : GiftProcessor * option (str * str) :=
  let rename := pending_rename p in
  ({| records := records p; donor_stats := donor_stats p;
      pending_effects := pending_effects p; pending_rename := None;
      effect_callbacks := effect_callbacks p;
      save_file := save_file p; called := called p |},
   rename).

(** [l[start:]] *)
Definition slice_from {A} (start : Z) (l : list A) : list A :=
  if (0 <=? start)%Z then drop (Z.to_nat start) l
  else drop (length l - Z.to_nat (- start)) l.

(** [get_top_donors] *)
Definition get_top_donors (limit : Z) (p : GiftProcessor) : list DonorStats :=
  let sorted_donors :=
    PySort.sorted_desc total_value (ODict.values (donor_stats p)) in
  Board.slice_to limit sorted_donors.

(** [get_recent_gifts] *)
Definition get_recent_gifts (limit : Z) (p : GiftProcessor) : list GiftRecord :=
  reverse (slice_from (- limit) (records p)).

(** Gifts processed one after the other; each comes with the two clock
    readings of [process_gift]. *)
Definition process_gifts (gifts : list (GiftMessage * Z * Z)) (p : GiftProcessor)
    : GiftProcessor :=
  foldl (λ p g, (process_gift g.1.1 g.1.2 g.2 p).1) p gifts.

(** The total value of a gift. *)
Definition total_of (gift : GiftMessage) : Q :=
  (gift_value gift * inject_Z (gift_count gift))%Q.

(** The tier declared under a name. *)
Definition tier (key : string) : option GiftEffect :=
  ODict.get (PyStr.lit key) GIFT_EFFECTS.

(** What a gift puts in the queue of pending effects, if anything. *)
Definition queued (gift : GiftMessage) : option PendingEffect :=
  (λ effect, {| pe_effect := effect; pe_donor := username gift;
                pe_value := total_of gift |}) <$> determine_effect (total_of gift).

(** Whether a tier carries the rename privilege. *)
Definition grants_rename (effect : option GiftEffect) : bool :=
  match effect with
  | Some e =>
      match ODict.get (PyStr.lit "can_rename") (effects e) with
      | Some v => truthy v
      | None => false
      end
  | None => false
  end.

(** The gifts of one donor, by the key of the donor. *)
Definition gifts_of (key : str) (gifts : list (GiftMessage * Z * Z))
    : list (GiftMessage * Z * Z) :=
  filter (λ g, donor_key (platform g.1.1) (user_id g.1.1) = key) gifts.

(** The value of some gifts, added up in their order. *)
Definition value_sum (gifts : list (GiftMessage * Z * Z)) : Q :=
  foldl (λ acc g, (acc + total_of g.1.1)%Q) 0%Q gifts.

(** The number of items of some gifts. *)
Definition count_sum (gifts : list (GiftMessage * Z * Z)) : Z :=
  foldl (λ acc g, acc + gift_count g.1.1) 0 gifts.

(** Every donor carries the rank of its place. *)
Definition ranked (d : list (str * DonorStats)) : Prop :=
  NoDup (ODict.keys d) ∧
  ∀ j k st, d !! j = Some (k, st) →
            contribution_rank st = GiftSpec.rank_at d j (total_value st).

End GiftMore.

(** ** More of the leaderboard *)

Module BoardMore.
Import Board.

(** [get_user_rank]: the place of the first sorted entry whose own platform
    and user id make up the key. *)
Definition get_user_rank (board_type : LeaderboardType) (user_id platform : str)
    (lb : Leaderboard) : option Z :=
  let board := default [] (ODict.get (value board_type) (boards lb)) in
  let key := entry_key platform user_id in
  match ODict.get key board with
  | None => None
  | Some _ =>
      let sorted_entries := PySort.sorted_desc score (ODict.values board) in
      (λ ie, Z.of_nat ie.1 + 1)
        <$> list_find (λ entry, entry_key (Board.platform entry) (Board.user_id entry)
                                = key)
                      sorted_entries
  end.

(** The event [add_history_event] builds, at the time [now]. *)
Definition history_event (event_type description : str)
    (data : option (list (str * json))) (now : str) : json :=
  JObj [ (PyStr.lit "type", JStr event_type);
         (PyStr.lit "description", JStr description);
         (PyStr.lit "data", JObj (default [] data));
         (PyStr.lit "timestamp", JStr now) ].

(** [add_history_event] *)
Definition add_history_event (event_type description : str)
    (data : option (list (str * json))) (now : str) (lb : Leaderboard)
    : Leaderboard :=
  let history1 := history lb ++ [history_event event_type description data now] in
  let history2 :=
    if decide (500 < length history1)%nat then last_n 500 history1 else history1 in
  save {| boards := boards lb; game_stats := game_stats lb;
          history := history2; file := file lb |}.

(** [reset], at the time [now]. *)
Definition reset (now : str) (lb : Leaderboard) : Leaderboard :=
  save {| boards := [ (value CONTRIBUTION, []); (value VOTE_PARTICIPATION, []);
                      (value LUCKY, []) ];
          game_stats := GameStats_new now; history := []; file := file lb |}.

(** One call of [update_vote_participation]: user id, user name, platform,
    voted option, winning option, time. *)
Record vote_update : Type := {
  vu_user_id : str;
  vu_username : str;
  vu_platform : str;
  vu_voted : str;
  vu_winning : str;
  vu_now : str;
}.

(** Calls of [update_vote_participation] one after the other, up to the
    first that raises. *)
Fixpoint update_votes (us : list vote_update) (lb : Leaderboard) : outcome :=
  match us with
  | [] => Done lb
  | u :: us' =>
      match update_vote_participation (vu_user_id u) (vu_username u)
              (vu_platform u) (vu_voted u) (vu_winning u) (vu_now u) lb with
      | Done lb' => update_votes us' lb'
      | Raised e lb' => Raised e lb'
      end
  end.

(** The number stored under a name of [extra_data]. *)
Definition counter (name : string) (e : LeaderboardEntry) : option Q :=
  match ODict.get (PyStr.lit name) (extra_data e) with
  | Some (JNum q) => Some q
  | _ => None
  end.

(** The entry of an identity on a board, if any. *)
Definition entry_at (kind : LeaderboardType) (key : str) (lb : Leaderboard)
    : option LeaderboardEntry :=
  ODict.get (value kind) (boards lb) ≫= ODict.get key.

(** The books of the vote boards agree: a participation score is the number
    of votes plus twice the number of winning votes, the lucky score of the
    same identity is the number of winning votes, and nobody is lucky who
    never voted. *)
Definition votes_consistent (lb : Leaderboard) : Prop :=
  ∀ key,
    match entry_at VOTE_PARTICIPATION key lb with
    | Some e =>
        ∃ t c, counter "total_votes" e = Some t ∧
               counter "correct_votes" e = Some c ∧
               (score e == t + 2 * c)%Q ∧
               (from_option score 0%Q (entry_at LUCKY key lb) == c)%Q
    | None => entry_at LUCKY key lb = None
    end.

(** The statistics hold no field a [GameStats] object does not have. *)
Definition stats_known (lb : Leaderboard) : Prop :=
  forallb (λ k, bool_decide (k ∈ GameStats_fields)) (ODict.keys (game_stats lb))
  = true.

(** The vote board and the lucky board are there. *)
Definition has_vote_boards (lb : Leaderboard) : Prop :=
  is_Some (ODict.get (value VOTE_PARTICIPATION) (boards lb)) ∧
  is_Some (ODict.get (value LUCKY) (boards lb)).

(** One call of [add_history_event]: type, description, data, time. *)
Record event : Type := {
  ev_type : str;
  ev_description : str;
  ev_data : option (list (str * json));
  ev_now : str;
}.

(** The stored form of an event. *)
Definition event_json (e : event) : json :=
  history_event (ev_type e) (ev_description e) (ev_data e) (ev_now e).

(** Calls of [add_history_event] one after the other. *)
Definition add_history_events (es : list event) (lb : Leaderboard) : Leaderboard :=
  foldl (λ lb e, add_history_event (ev_type e) (ev_description e) (ev_data e)
                   (ev_now e) lb) lb es.

(** Every entry of a board is stored under the key its own platform and user
    id make up. *)
Definition well_keyed (board : list (str * LeaderboardEntry)) : Prop :=
  ∀ k e, (k, e) ∈ board → k = entry_key (Board.platform e) (Board.user_id e).

(** No entry is followed by one of greater score. *)
Definition by_score (l : list LeaderboardEntry) : Prop :=
  PySort.descending score l.

End BoardMore.

(** ** More of the player ([player.py], [config.py]) *)

Module PlayerMore.
Import Player.

Record Realm : Type := {
  realm_name : str;
  level : Z;
  description : str;
}.

Record SpiritualRoot : Type := {
  root_name : str;
  element : str;
  bonus : list (str * Z);
}.

Definition CULTIVATION_REALMS : list Realm :=
  [ {| realm_name := [20961; 20154]%N; level := 0;
       description :=
         [23578; 26410; 36367; 20837; 20462; 20185; 20043; 36335]%N |};
    {| realm_name := [28860; 27668; 26399]%N; level := 1;
       description :=
         [24863; 30693; 22825; 22320; 28789; 27668; 65292; 21021; 31397; 20185;
          36947]%N |};
    {| realm_name := [31569; 22522; 26399]%N; level := 2;
       description :=
         [31569; 23601; 36947; 22522; 65292; 27491; 24335; 36367; 20837; 20462;
          20185; 20043; 36335]%N |};
    {| realm_name := [37329; 20025; 26399]%N; level := 3;
       description :=
         [20957; 32858; 37329; 20025; 65292; 23551; 20803; 22823; 22686]%N |};
    {| realm_name := [20803; 23156; 26399]%N; level := 4;
       description :=
         [20803; 23156; 20986; 31373; 65292; 31070; 39746; 21487; 31163; 20307]%N |};
    {| realm_name := [21270; 31070; 26399]%N; level := 5;
       description :=
         [21270; 31070; 21512; 36947; 65292; 39046; 24735; 22825; 36947; 27861;
          21017]%N |};
    {| realm_name := [28860; 34394; 26399]%N; level := 6;
       description :=
         [28860; 34394; 21512; 36947; 65292; 34394; 31354; 25386; 31227]%N |};
    {| realm_name := [21512; 20307; 26399]%N; level := 7;
       description :=
         [22825; 20154; 21512; 19968; 65292; 25484; 25511; 22825; 22320; 20043;
          21147]%N |};
    {| realm_name := [22823; 20056; 26399]%N; level := 8;
       description :=
         [22823; 20056; 22278; 28385; 65292; 21363; 23558; 39134; 21319]%N |};
    {| realm_name := [28193; 21163; 26399]%N; level := 9;
       description :=
         [28193; 36807; 22825; 21163; 65292; 39134; 21319; 20185; 30028]%N |} ].

Definition BASE_ATTRIBUTES : list (str * Z) :=
  [ ([20307; 39748]%N, 10);
    ([31070; 35782]%N, 10);
    ([24735; 24615]%N, 10);
    ([26426; 32536]%N, 10);
    ([24515; 22659]%N, 10) ].

Definition SPIRITUAL_ROOTS : list SpiritualRoot :=
  [ {| root_name := [37329; 28789; 26681]%N; element := [37329]%N;
       bonus := [([20307; 39748]%N, 3);
                 ([31070; 35782]%N, 1)] |};
    {| root_name := [26408; 28789; 26681]%N; element := [26408]%N;
       bonus := [([24735; 24615]%N, 2);
                 ([24515; 22659]%N, 2)] |};
    {| root_name := [27700; 28789; 26681]%N; element := [27700]%N;
       bonus := [([31070; 35782]%N, 3);
                 ([24515; 22659]%N, 1)] |};
    {| root_name := [28779; 28789; 26681]%N; element := [28779]%N;
       bonus := [([31070; 35782]%N, 2);
                 ([20307; 39748]%N, 2)] |};
    {| root_name := [22303; 28789; 26681]%N; element := [22303]%N;
       bonus := [([20307; 39748]%N, 2);
                 ([24515; 22659]%N, 2)] |};
    {| root_name := [38647; 28789; 26681]%N; element := [38647]%N;
       bonus := [([31070; 35782]%N, 4)] |};
    {| root_name := [20912; 28789; 26681]%N; element := [20912]%N;
       bonus := [([31070; 35782]%N, 2);
                 ([24735; 24615]%N, 2)] |};
    {| root_name := [22825; 28789; 26681]%N; element := [22825]%N;
       bonus := [([24735; 24615]%N, 3);
                 ([26426; 32536]%N, 2)] |};
    {| root_name := [28151; 27788; 28789; 26681]%N; element := [28151; 27788]%N;
       bonus := [([20307; 39748]%N, 2);
                 ([31070; 35782]%N, 2);
                 ([24735; 24615]%N, 2);
                 ([26426; 32536]%N, 2);
                 ([24515; 22659]%N, 2)] |} ].

(** The attribute behind the life points and the one behind the spirit
    points: the first two names of [BASE_ATTRIBUTES]. *)
Definition physique : str := [20307; 39748]%N.
Definition spirit : str := [31070; 35782]%N.

(** An item of the inventory: a dictionary. *)
Abbreviation item := (list (str * Board.json)).

(** The fields of a player that the methods below read and write; the
    counters are the record of the module [Player]. *)
Record Character : Type := {
  name : str;
  gender : str;
  spiritual_root : SpiritualRoot;
  realm_index : Z;
  cultivation_progress : Z;
  attributes : list (str * Z);
  counters : Player;
  inventory : list item;
  story_history : list str;
}.

(** [_calculate_max_hp] and [_calculate_max_mp] *)
Definition calculate_max_hp (realm_index : Z) (attributes : list (str * Z)) : Z :=
  let base_hp := 100 in
  let realm_bonus := realm_index * 50 in
  let attribute_bonus := default 10 (ODict.get physique attributes) * 5 in
  base_hp + realm_bonus + attribute_bonus.

Definition calculate_max_mp (realm_index : Z) (attributes : list (str * Z)) : Z :=
  let base_mp := 50 in
  let realm_bonus := realm_index * 30 in
  let attribute_bonus := default 10 (ODict.get spirit attributes) * 3 in
  base_mp + realm_bonus + attribute_bonus.

(** [Player(name, gender, spiritual_root)]; without a root, [random.choice]
    picks the root at the position [pick], which is below the number of
    roots. *)
Definition new_player (name gender : str) (spiritual_root : option SpiritualRoot)
    (pick : nat) : Character :=
  let root :=
    match spiritual_root with
    | Some r => r
    | None => default {| root_name := []; element := []; bonus := [] |}
                      (SPIRITUAL_ROOTS !! pick)
    end in
  let attributes :=
    foldl (λ attrs ab, ODict.set ab.1 (default 10 (ODict.get ab.1 attrs) + ab.2) attrs)
          BASE_ATTRIBUTES (bonus root) in
  let max_hp := calculate_max_hp 0 attributes in
  let max_mp := calculate_max_mp 0 attributes in
  {| name := name; gender := gender; spiritual_root := root;
     realm_index := 0; cultivation_progress := 0; attributes := attributes;
     counters := {| hp := max_hp; max_hp := max_hp; mp := max_mp; max_mp := max_mp |};
     inventory := []; story_history := [] |}.

(** [l[i]]: a negative index counts from the end; [None] stands for the
    [IndexError]. *)
Definition py_index {A} (l : list A) (i : Z) : option A :=
  if 0 <=? i then l !! Z.to_nat i
  else if - Z.of_nat (length l) <=? i then l !! Z.to_nat (Z.of_nat (length l) + i)
  else None.

(** The dictionary [add_cultivation] returns. *)
Record CultivationResult : Type := {
  cultivation_gained : Z;
  breakthrough : bool;
  new_realm : option str;
}.

(** A call on a player that returned a value, or was left by the
    [IndexError] of a realm index out of range, in the given state. *)
Inductive answer (A : Type) : Type :=
  | Returned (a : A) (c : Character)
  | IndexError (c : Character).
Arguments Returned {A} a c.
Arguments IndexError {A} c.

Definition set_level (realm_index cultivation_progress : Z) (c : Character)
    : Character :=
  {| name := name c; gender := gender c; spiritual_root := spiritual_root c;
     realm_index := realm_index; cultivation_progress := cultivation_progress;
     attributes := attributes c; counters := counters c;
     inventory := inventory c; story_history := story_history c |}.

Definition set_counters (p : Player) (c : Character) : Character :=
  {| name := name c; gender := gender c; spiritual_root := spiritual_root c;
     realm_index := realm_index c; cultivation_progress := cultivation_progress c;
     attributes := attributes c; counters := p;
     inventory := inventory c; story_history := story_history c |}.

(** The number of realms above a realm index: as often, at most, the loop of
    [add_cultivation] runs, each round taking the player one realm up. *)
Definition realms_above (realm_index : Z) : nat :=
  Z.to_nat (Z.of_nat (length CULTIVATION_REALMS) - 1 - realm_index).

(** The [while] loop of [add_cultivation]. With no realm above, the loop
    condition is false. *)
Fixpoint breakthroughs (rounds : nat) (result : CultivationResult) (c : Character)
    : answer CultivationResult :=
  match rounds with
  | O => Returned result c
  | S rounds' =>
      if (100 <=? cultivation_progress c)
         && (realm_index c <? Z.of_nat (length CULTIVATION_REALMS) - 1)
      then
        let c1 := set_level (realm_index c + 1) (cultivation_progress c - 100) c in
        match py_index CULTIVATION_REALMS (realm_index c1) with
        | None => IndexError c1
        | Some realm =>
            let result1 :=
              {| cultivation_gained := cultivation_gained result;
                 breakthrough := true; new_realm := Some (realm_name realm) |} in
            let max_hp := calculate_max_hp (realm_index c1) (attributes c1) in
            let max_mp := calculate_max_mp (realm_index c1) (attributes c1) in
            breakthroughs rounds' result1
              (set_counters {| hp := max_hp; max_hp := max_hp;
                               mp := max_mp; max_mp := max_mp |} c1)
        end
      else Returned result c
  end.

(** [add_cultivation] *)
Definition add_cultivation (amount : Z) (c : Character) : answer CultivationResult :=
  let result := {| cultivation_gained := amount; breakthrough := false;
                   new_realm := None |} in
  let c1 := set_level (realm_index c) (cultivation_progress c + amount) c in
  match breakthroughs (realms_above (realm_index c1)) result c1 with
  | Returned result' c2 =>
      Returned result'
        (if Z.of_nat (length CULTIVATION_REALMS) - 1 <=? realm_index c2
         then set_level (realm_index c2) (Z.min (cultivation_progress c2) 100) c2
         else c2)
  | IndexError c2 => IndexError c2
  end.

(** [lose_cultivation] *)
Definition lose_cultivation (amount : Z) (c : Character) : Character :=
  set_level (realm_index c) (Z.max 0 (cultivation_progress c - amount)) c.

(** [use_mp] *)
Definition use_mp (amount : Z) (p : Player) : Player * bool :=
  if amount <=? mp p then (set_mp (mp p - amount) p, true) else (p, false).

Definition set_inventory (inv : list item) (c : Character) : Character :=
  {| name := name c; gender := gender c; spiritual_root := spiritual_root c;
     realm_index := realm_index c; cultivation_progress := cultivation_progress c;
     attributes := attributes c; counters := counters c;
     inventory := inv; story_history := story_history c |}.

(** [add_item] *)
Definition add_item (it : item) (c : Character) : Character :=
  set_inventory (inventory c ++ [it]) c.

(** [item.get("name") == item_name] *)
Definition named (item_name : str) (it : item) : bool :=
  match ODict.get (PyStr.lit "name") it with
  | Some (Board.JStr s) => bool_decide (s = item_name)
  | _ => false
  end.

(** The loop of [remove_item]: the inventory without the first item of the
    name, if there is one. *)
Fixpoint remove_first (item_name : str) (inv : list item) : option (list item) :=
  match inv with
  | [] => None
  | it :: rest =>
      if named item_name it then Some rest
      else (λ rest', it :: rest') <$> remove_first item_name rest
  end.

(** [remove_item] *)
Definition remove_item (item_name : str) (c : Character) : Character * bool :=
  match remove_first item_name (inventory c) with
  | Some inv => (set_inventory inv c, true)
  | None => (c, false)
  end.

Definition set_story_history (h : list str) (c : Character) : Character :=
  {| name := name c; gender := gender c; spiritual_root := spiritual_root c;
     realm_index := realm_index c; cultivation_progress := cultivation_progress c;
     attributes := attributes c; counters := counters c;
     inventory := inventory c; story_history := h |}.

(** [add_story] *)
Definition add_story (story : str) (c : Character) : Character :=
  let h := story_history c ++ [story] in
  set_story_history (if decide (20 < length h)%nat then GiftMore.slice_from (-20) h
                     else h) c.

(** [sep.join(l)] *)
Fixpoint join (sep : str) (l : list str) : str :=
  match l with
  | [] => []
  | [s] => s
  | s :: rest => s ++ sep ++ join sep rest
  end.

(** [get_recent_story] *)
Definition get_recent_story (count : Z) (c : Character) : str :=
  let recent :=
    match story_history c with
    | [] => []
    | _ :: _ => GiftMore.slice_from (- count) (story_history c)
    end in
  join [10; 10]%N recent.

(** The effects [_parse_effects] returns and [_apply_effects] reads. *)
Record Effects : Type := {
  cultivation_change : Z;
  hp_change : Z;
  mp_change : Z;
  items : list str;
  breakthrough_flag : bool;
}.

Definition on_counters (f : Player → Player) (c : Character) : Character :=
  set_counters (f (counters c)) c.

(** [_apply_effects] of [web_game.py], for a game that has a player. *)
Definition apply_effects (effects : Effects) (c : Character) : answer unit :=
  match
    if negb (cultivation_change effects =? 0) then
      let change := cultivation_change effects in
      if 0 <? change then
        match add_cultivation change c with
        | Returned _ c' => Returned tt c'
        | IndexError c' => IndexError c'
        end
      else Returned tt (lose_cultivation (Z.abs change) c)
    else Returned tt c
  with
  | IndexError c' => IndexError c'
  | Returned _ c1 =>
      let c2 :=
        if negb (hp_change effects =? 0) then
          let change := hp_change effects in
          if 0 <? change then on_counters (λ p, (heal change p).1) c1
          else on_counters (λ p, (take_damage (Z.abs change) p).1) c1
        else c1 in
      let c3 :=
        if negb (mp_change effects =? 0) then
          let change := mp_change effects in
          if 0 <? change then on_counters (λ p, (restore_mp change p).1) c2
          else on_counters (λ p, (use_mp (Z.abs change) p).1) c2
        else c2 in
      Returned tt
        (foldl (λ c item_name,
                  add_item [ (PyStr.lit "name", Board.JStr item_name);
                             (PyStr.lit "type", Board.JStr (PyStr.lit "misc")) ] c)
               c3 (items effects))
  end.

(** The realm index names a realm, and the progress is within the realm: up
    to 100, and below 100 while there is a realm above. *)
Definition level_ok (c : Character) : Prop :=
  0 ≤ realm_index c ≤ 9 ∧ 0 ≤ cultivation_progress c ≤ 100 ∧
  (realm_index c < 9 → cultivation_progress c < 100).

(** The two attributes behind the counters are not negative. *)
Definition attrs_ok (c : Character) : Prop :=
  0 ≤ default 10 (ODict.get physique (attributes c)) ∧
  0 ≤ default 10 (ODict.get spirit (attributes c)).

(** A player in good order. *)
Definition sound (c : Character) : Prop :=
  level_ok c ∧ attrs_ok c ∧ PlayerSpec.in_bounds (counters c).

(** The counters of a player who has just reached a realm: all full. *)
Definition full_at (realm_index : Z) (attributes : list (str * Z)) : Player :=
  {| hp := calculate_max_hp realm_index attributes;
     max_hp := calculate_max_hp realm_index attributes;
     mp := calculate_max_mp realm_index attributes;
     max_mp := calculate_max_mp realm_index attributes |}.

(** A player of the third realm, half way to the next. *)
Definition adept : Character :=
  set_counters {| hp := 120; max_hp := 300; mp := 20; max_mp := 170 |}
    (set_level 2 50
       (new_player (PyStr.lit "Lin") (PyStr.lit "he") None 0)).

End PlayerMore.

(** ** Gifts applied to the player *)

Module GiftPlayer.
Import Player PlayerMore.

(** The messages [apply_effects_to_player] returns, by what they report. The
    breakthrough part of the first is there when the answer of
    [add_cultivation] reports a breakthrough, and carries its [new_realm]. *)
Inductive message : Type :=
  | GainedCultivation (donor effect_name : str) (value : Gift.effect_value)
      (breakthrough_to : option (option str))
  | RaisedMaxHp (donor effect_name : str) (value : Gift.effect_value)
  | Healed (healed : Z)
  | RaisedMaxMp (donor effect_name : str) (value : Gift.effect_value)
  | Restored (restored : Z)
  | RaisedAttribute (donor effect_name attr : str) (value : Gift.effect_value).

(** A value of an [effects] dictionary in arithmetic: [True] counts 1 and
    [False] 0. *)
Definition as_int (v : Gift.effect_value) : Z :=
  match v with
  | Gift.VInt n => n
  | Gift.VBool b => if b then 1 else 0
  end.

Definition set_max_hp (v : Z) (p : Player) : Player :=
  {| hp := hp p; max_hp := v; mp := mp p; max_mp := max_mp p |}.

Definition set_max_mp (v : Z) (p : Player) : Player :=
  {| hp := hp p; max_hp := max_hp p; mp := mp p; max_mp := v |}.

Definition set_attributes (a : list (str * Z)) (c : Character) : Character :=
  {| name := name c; gender := gender c; spiritual_root := spiritual_root c;
     realm_index := realm_index c; cultivation_progress := cultivation_progress c;
     attributes := a; counters := counters c;
     inventory := inventory c; story_history := story_history c |}.

(** [random.choice(seq)], taking the next draw of the random source; [None]
    stands for the [IndexError] of an empty sequence. *)
Definition choice {A} (seq : list A) (draws : list nat) : option A * list nat :=
  (match seq with
   | [] => None
   | _ :: _ => seq !! (hd 0%nat draws mod length seq)%nat
   end, tl draws).

(** One round of the inner loop of [apply_effects_to_player]: a key of the
    effect with its value. A key that is none of the six leaves everything as
    it is. The attribute chosen is a key of the attributes, so it has a
    value. *)
Definition apply_key (donor : str) (effect : Gift.GiftEffect) (key : str)
    (value : Gift.effect_value) (messages : list message) (draws : list nat)
    (c : Character) : answer (list message * list nat) :=
  if decide (key = PyStr.lit "cultivation") then
    match add_cultivation (as_int value) c with
    | Returned result c' =>
        Returned
          (messages ++ [GainedCultivation donor (Gift.name effect) value
                          (if breakthrough result then Some (new_realm result)
                           else None)],
           draws) c'
    | IndexError c' => IndexError c'
    end
  else if decide (key = PyStr.lit "max_hp") then
    Returned (messages ++ [RaisedMaxHp donor (Gift.name effect) value], draws)
             (on_counters (λ p, set_max_hp (max_hp p + as_int value) p) c)
  else if decide (key = PyStr.lit "hp") then
    let r := heal (as_int value) (counters c) in
    Returned (if 0 <? r.2 then messages ++ [Healed r.2] else messages, draws)
             (set_counters r.1 c)
  else if decide (key = PyStr.lit "max_mp") then
    Returned (messages ++ [RaisedMaxMp donor (Gift.name effect) value], draws)
             (on_counters (λ p, set_max_mp (max_mp p + as_int value) p) c)
  else if decide (key = PyStr.lit "mp") then
    let r := restore_mp (as_int value) (counters c) in
    Returned (if 0 <? r.2 then messages ++ [Restored r.2] else messages, draws)
             (set_counters r.1 c)
  else if decide (key = PyStr.lit "random_attribute") then
    let attrs := ODict.keys (attributes c) in
    match choice attrs draws with
    | (Some attr, draws') =>
        Returned
          (messages ++ [RaisedAttribute donor (Gift.name effect) attr value], draws')
          (set_attributes
             (ODict.set attr
                (default 0 (ODict.get attr (attributes c)) + as_int value)
                (attributes c)) c)
    | (None, _) => IndexError c
    end
  else Returned (messages, draws) c.

(** The inner loop: the keys of one effect, in the order of the dictionary. *)
Fixpoint apply_keys (donor : str) (effect : Gift.GiftEffect)
    (items : list (str * Gift.effect_value)) (messages : list message)
    (draws : list nat) (c : Character) : answer (list message * list nat) :=
  match items with
  | [] => Returned (messages, draws) c
  | (key, value) :: rest =>
      match apply_key donor effect key value messages draws c with
      | Returned (messages', draws') c' =>
          apply_keys donor effect rest messages' draws' c'
      | IndexError c' => IndexError c'
      end
  end.

(** The outer loop: the effects handed over, in their order. *)
Fixpoint apply_all (effects : list Gift.PendingEffect) (messages : list message)
    (draws : list nat) (c : Character) : answer (list message * list nat) :=
  match effects with
  | [] => Returned (messages, draws) c
  | effect_data :: rest =>
      let effect := Gift.pe_effect effect_data in
      let donor := Gift.pe_donor effect_data in
      match apply_keys donor effect (Gift.effects effect) messages draws c with
      | Returned (messages', draws') c' => apply_all rest messages' draws' c'
      | IndexError c' => IndexError c'
      end
  end.

(** [apply_effects_to_player]: the messages and what is left of the random
    source, with the player as the effects leave it. *)
Definition apply_effects_to_player (c : Character)
    (effects : list Gift.PendingEffect) (draws : list nat)
    : answer (list message * list nat) :=
  apply_all effects [] draws c.

(** No value of the effect is negative. *)
Definition gives (effect : Gift.GiftEffect) : Prop :=
  Forall (λ kv, 0 ≤ as_int kv.2) (Gift.effects effect).

(** The entry of the queue for an effect. *)
Definition pending (effect : Gift.GiftEffect) (donor : str) (value : Q)
    : Gift.PendingEffect :=
  {| Gift.pe_effect := effect; Gift.pe_donor := donor; Gift.pe_value := value |}.

(** What the gifts leave of a player. *)
Definition kept (c c' : Character) : Prop :=
  sound c' ∧ realm_index c ≤ realm_index c' ∧
  ODict.keys (attributes c') = ODict.keys (attributes c) ∧
  inventory c' = inventory c ∧ story_history c' = story_history c.

End GiftPlayer.

(** ** Gifts in the live game ([live_game.py], [leaderboard.py]) *)

Module LiveGame.
Import Board.

(** What leaves [update_contribution] early. *)
Inductive raised : Type :=
  | Exn (e : exn)
  | AttributeError.

(** A call that ended, or was left by an exception, in the given state. *)
Inductive ending : Type :=
  | Ended (lb : Leaderboard)
  | Broke (r : raised) (lb : Leaderboard).

(** [len(x)] for a stored value; [None] stands for the [TypeError]. *)
Definition len (x : json) : option nat :=
  match x with
  | JArr l => Some (length l)
  | JStr s => Some (length s)
  | JObj members => Some (length members)
  | _ => None
  end.

(** [x + value] for a stored value [x]; [None] stands for the [TypeError]. *)
Definition plus (x : json) (value : Q) : option json :=
  match x with
  | JNum q => Some (JNum (q + value))
  | JBool b => Some (JNum ((if b then 1 else 0) + value))
  | _ => None
  end.

Definition set_game_stats (gs : list (str * json)) (lb : Leaderboard) : Leaderboard :=
  {| boards := boards lb; game_stats := gs; history := history lb; file := file lb |}.

(** The record of a gift in the [gifts] of an entry. *)
Definition gift_json (gift_name : str) (value : Q) (now : str) : json :=
  JObj [ (PyStr.lit "name", JStr gift_name);
         (PyStr.lit "value", JNum value);
         (PyStr.lit "time", JStr now) ].

(** [update_contribution]; [now] is the clock read for [last_update] and
    [now'] the one read for the record of the gift. A statistics object
    without one of the two counters stands for none that Python builds. *)
Definition update_contribution (user_id username platform : str) (value : Q)
    (gift_name : str) (now now' : str) (lb : Leaderboard) : ending :=
  match ODict.get (Board.value CONTRIBUTION) (boards lb) with
  | None => Broke (Exn (KeyError (Board.value CONTRIBUTION))) lb
  | Some board =>
      let key := entry_key platform user_id in
      let entry :=
        match ODict.get key board with
        | Some e => e
        | None => {| user_id := user_id; username := username;
                     platform := platform; score := 0;
                     extra_data := [ (PyStr.lit "gifts", JArr []) ];
                     last_update := now |}
        end in
      let store e := set_board (Board.value CONTRIBUTION) (ODict.set key e board) lb in
      let entry1 :=
        {| user_id := Board.user_id entry; username := username;
           platform := Board.platform entry; score := score entry + value;
           extra_data := extra_data entry; last_update := now |} in
      let gifts_key := PyStr.lit "gifts" in
      let gift := gift_json gift_name value now' in
      match
        match ODict.get gifts_key (extra_data entry1) with
        | None => inl (ODict.set gifts_key (JArr [gift]) (extra_data entry1))
        | Some gifts =>
            match len gifts with
            | None => inr (Exn TypeError)
            | Some n =>
                if decide (n < 100)%nat then
                  match gifts with
                  | JArr l =>
                      inl (ODict.set gifts_key (JArr (l ++ [gift]))
                                     (extra_data entry1))
                  | _ => inr AttributeError
                  end
                else inl (extra_data entry1)
            end
        end
      with
      | inr r => Broke r (store entry1)
      | inl extra =>
          let entry2 :=
            {| user_id := Board.user_id entry1; username := Board.username entry1;
               platform := Board.platform entry1; score := score entry1;
               extra_data := extra; last_update := last_update entry1 |} in
          let lb1 := store entry2 in
          match ODict.get (PyStr.lit "total_gifts_value") (game_stats lb1) with
          | None => Broke AttributeError lb1
          | Some x =>
              match plus x value with
              | None => Broke (Exn TypeError) lb1
              | Some tv =>
                  let lb2 :=
                    set_game_stats
                      (ODict.set (PyStr.lit "total_gifts_value") tv (game_stats lb1))
                      lb1 in
                  match ODict.get (PyStr.lit "total_gifts_count") (game_stats lb2) with
                  | None => Broke AttributeError lb2
                  | Some y =>
                      match plus_one y with
                      | None => Broke (Exn TypeError) lb2
                      | Some tc =>
                          Ended
                            (save
                               (set_game_stats
                                  (ODict.set (PyStr.lit "total_gifts_count") tc
                                             (game_stats lb2))
                                  lb2))
                      end
                  end
              end
          end
      end
  end.

(** What [_on_gift] and [_on_gift_effect] read and write of the game. *)
Record Game : Type := {
  gift_processor : Gift.GiftProcessor;
  leaderboard : Leaderboard;
  recent_gifts : list str;
  effect_messages : list str;
}.

(** A gift arriving, with the clocks read while it is handled: two by
    [process_gift], one by [add_history_event] if the gift reaches a tier, two
    by [update_contribution]. *)
Record gift_event : Type := {
  ge_gift : Gift.GiftMessage;
  t_stats : Z;
  t_record : Z;
  t_history : str;
  t_update : str;
  t_gift : str;
}.

(** [str(n)] for an integer. *)
Definition of_int (n : Z) : str :=
  if n <? 0 then PyStr.lit "-" ++ PyStr.of_nat (Z.to_nat (- n))
  else PyStr.of_nat (Z.to_nat n).

(** [_on_gift_effect], at the time [now]. *)
Definition on_gift_effect (effect : Gift.GiftEffect) (gift : Gift.GiftMessage)
    (now : str) (g : Game) : Game :=
  {| gift_processor := gift_processor g;
     leaderboard :=
       BoardMore.add_history_event (PyStr.lit "gift_effect")
         (Gift.username gift ++ [32; 35302; 21457; 32]%N ++ Gift.name effect)
         (Some [ (PyStr.lit "effect", JStr (Gift.name effect));
                 (PyStr.lit "gift", JStr (Gift.gift_name gift)) ])
         now (leaderboard g);
     recent_gifts := recent_gifts g;
     effect_messages :=
       effect_messages g
       ++ [[10024; 32]%N ++ Gift.username gift ++ [58; 32]%N
           ++ Gift.description effect] |}.

(** [_on_gift]: the game after it and the exception that left it, if any.
    Every callback registered with the processor is [_on_gift_effect]; the
    processor calls them when the gift reaches a tier. *)
Definition on_gift (ev : gift_event) (g : Game) : Game * option raised :=
  let msg := ge_gift ev in
  let display :=
    [127873; 32]%N ++ Gift.username msg ++ [32; 36192; 36865; 32]%N
    ++ Gift.gift_name msg ++ PyStr.lit "x" ++ of_int (Gift.gift_count msg) in
  let recent1 := recent_gifts g ++ [display] in
  let recent2 :=
    if decide (30 < length recent1)%nat then GiftMore.slice_from (-30) recent1
    else recent1 in
  let (p, effect) := Gift.process_gift msg (t_stats ev) (t_record ev)
                                       (gift_processor g) in
  let g1 := {| gift_processor := p; leaderboard := leaderboard g;
               recent_gifts := recent2; effect_messages := effect_messages g |} in
  let g2 :=
    match effect with
    | Some e =>
        foldl (λ g _, on_gift_effect e msg (t_history ev) g) g1
              (Gift.effect_callbacks (gift_processor g))
    | None => g1
    end in
  match update_contribution (Gift.user_id msg) (Gift.username msg)
          (Gift.platform msg)
          (Gift.gift_value msg * inject_Z (Gift.gift_count msg))%Q
          (Gift.gift_name msg) (t_update ev) (t_gift ev) (leaderboard g2) with
  | Ended lb =>
      ({| gift_processor := gift_processor g2; leaderboard := lb;
          recent_gifts := recent_gifts g2; effect_messages := effect_messages g2 |},
       None)
  | Broke r lb =>
      ({| gift_processor := gift_processor g2; leaderboard := lb;
          recent_gifts := recent_gifts g2; effect_messages := effect_messages g2 |},
       Some r)
  end.

(** [_emit_gift] for gifts arriving one after the other: an exception that
    leaves [_on_gift] is caught and printed, and the next gift is handled. *)
Definition emit_gifts (evs : list gift_event) (g : Game) : Game * list raised :=
  foldl (λ st ev, let r := on_gift ev st.1 in (r.1, st.2 ++ option_list r.2))
        (g, []) evs.

(** The game as [LiveGame] builds it over no saved files, at the time [now]:
    its one callback registered with the gift processor. *)
Definition new_game (now : str) : Game :=
  {| gift_processor := GiftMore.register_effect_callback 0%nat Gift.new_processor;
     leaderboard := new_leaderboard None now;
     recent_gifts := []; effect_messages := [] |}.

(** The gift and the two clock readings of [process_gift]. *)
Definition processed (ev : gift_event) : Gift.GiftMessage * Z * Z :=
  (ge_gift ev, t_stats ev, t_record ev).

(** The gifts of one donor, by the key of the donor. *)
Definition events_of (key : str) (evs : list gift_event) : list gift_event :=
  filter (λ ev, entry_key (Gift.platform (ge_gift ev)) (Gift.user_id (ge_gift ev)) = key)
         evs.

(** The record [update_contribution] makes of a gift. *)
Definition recorded (ev : gift_event) : json :=
  gift_json (Gift.gift_name (ge_gift ev)) (GiftMore.total_of (ge_gift ev)) (t_gift ev).

(** The contribution board. *)
Definition contribution (g : Game) : list (str * LeaderboardEntry) :=
  default [] (ODict.get (Board.value CONTRIBUTION) (boards (leaderboard g))).

End LiveGame.

(** * Properties *)

(** ** Facts about strings and ordered dictionaries *)

Module PyStrFacts.
Import PyStr.

Lemma startswith_spec s p : startswith s p = true ↔ ∃ t, s = p ++ t.
Proof.
  revert s. induction p as [|a p IH]; intros s; simpl.
  - split; [intros _; by exists s | done].
  - destruct s as [|b s].
    + split; [done | intros [t Ht]; discriminate].
    + rewrite andb_true_iff, bool_decide_eq_true, IH. split.
      * intros [-> [t ->]]. by exists t.
      * intros [t Ht]. injection Ht as -> ->. eauto.
Qed.

Lemma lit_inj s1 s2 : lit s1 = lit s2 → s1 = s2.
Proof.
  unfold lit. revert s2.
  induction s1 as [|a s1 IH]; intros [|b s2]; simpl; try done.
  intros [= Hab Hs]. f_equal; [|by apply IH].
  by rewrite <- (Ascii.ascii_N_embedding a), <- (Ascii.ascii_N_embedding b), Hab.
Qed.

Lemma of_nat_inj n1 n2 : of_nat n1 = of_nat n2 → n1 = n2.
Proof. intros H. apply lit_inj in H. by apply (inj pretty). Qed.

End PyStrFacts.

Module ODictFacts.
Import ODict.
Section facts.
Context {V : Type}.
Implicit Types (d : list (str * V)) (k : str) (v : V).

Lemma get_set_eq k v d : get k (set k v d) = Some v.
Proof.
  induction d as [|[k' v'] d IH]; simpl.
  - by rewrite decide_True.
  - destruct (decide (k = k')) as [->|Hne]; simpl.
    + by rewrite decide_True.
    + by rewrite decide_False.
Qed.

Lemma get_set_ne k k' v d : k ≠ k' → get k' (set k v d) = get k' d.
Proof.
  intros Hne. induction d as [|[k0 v0] d IH]; simpl.
  - by rewrite decide_False.
  - destruct (decide (k = k0)) as [->|Hne0]; simpl.
    + by rewrite !decide_False.
    + by rewrite IH.
Qed.

Lemma get_Some_elem k v d : get k d = Some v → (k, v) ∈ d.
Proof.
  induction d as [|[k' v'] d IH]; simpl; [done|].
  destruct (decide (k = k')) as [->|Hne].
  - intros [= ->]. left.
  - intros H. right. by apply IH.
Qed.

Lemma get_None k d : get k d = None ↔ k ∉ keys d.
Proof.
  unfold keys. induction d as [|[k' v'] d IH]; simpl.
  - split; [intros _; apply not_elem_of_nil | done].
  - rewrite not_elem_of_cons. destruct (decide (k = k')) as [->|Hne].
    + split; [done | intros [? _]; done].
    + rewrite IH. tauto.
Qed.

Lemma elem_get k v d : NoDup (keys d) → (k, v) ∈ d → get k d = Some v.
Proof.
  unfold keys. induction d as [|[k' v'] d IH]; simpl.
  - intros _ H. by apply elem_of_nil in H.
  - rewrite NoDup_cons. intros [Hk Hnd] [Heq|Hin]%elem_of_cons.
    + injection Heq as -> ->. by rewrite decide_True.
    + destruct (decide (k = k')) as [->|Hne]; [|by apply IH].
      exfalso. apply Hk. apply list_elem_of_fmap. by exists (k', v).
Qed.

Lemma keys_set_in k v d : k ∈ keys d → keys (set k v d) = keys d.
Proof.
  unfold keys. induction d as [|[k' v'] d IH]; simpl.
  - intros H. by apply elem_of_nil in H.
  - destruct (decide (k = k')) as [->|Hne]; simpl; [done|].
    intros [?|Hin]%elem_of_cons; [done|]. f_equal. by apply IH.
Qed.

Lemma keys_set_notin k v d : k ∉ keys d → keys (set k v d) = keys d ++ [k].
Proof.
  unfold keys. induction d as [|[k' v'] d IH]; simpl; [done|].
  rewrite not_elem_of_cons. intros [Hne Hnin].
  rewrite decide_False by done. simpl. f_equal. by apply IH.
Qed.

Lemma keys_alter f k d : keys (alter f k d) = keys d.
Proof.
  unfold keys. induction d as [|[k' v] d IH]; simpl; [done|].
  destruct (decide (k = k')); simpl; [done|]. f_equal. apply IH.
Qed.

Lemma get_alter_eq f k d :
  get k (alter f k d) = f <$> get k d.
Proof.
  induction d as [|[k' v] d IH]; simpl; [done|].
  destruct (decide (k = k')) as [->|Hne]; simpl.
  - by rewrite decide_True.
  - by rewrite decide_False.
Qed.

Lemma get_alter_ne f k k' d :
  k ≠ k' → get k' (alter f k d) = get k' d.
Proof.
  intros Hne. induction d as [|[k0 v] d IH]; simpl; [done|].
  destruct (decide (k = k0)) as [->|Hne0]; simpl.
  - by rewrite !decide_False.
  - by rewrite IH.
Qed.

End facts.
End ODictFacts.

(** ** The vote manager *)

Module VoteFacts.
Import Vote VoteSpec.

Lemma set_fresh {V} (k : str) (v : V) (d : list (str * V)) :
  k ∉ ODict.keys d → ODict.set k v d = d ++ [(k, v)].
Proof.
  unfold ODict.keys. induction d as [|[k' v'] d IH]; simpl; [done|].
  rewrite not_elem_of_cons. intros [Hne Hnin].
  rewrite decide_False by done. f_equal. by apply IH.
Qed.

(** Filling a dictionary under the keys [str(1)], ..., [str(n)] lists them in
    that order: the keys are pairwise distinct. *)
Lemma fill_numbered {V} (f : str → V) (n : nat) :
  foldl (λ d i, ODict.set (PyStr.of_nat (i + 1)) (f (PyStr.of_nat (i + 1))) d)
        [] (seq 0 n)
  = (λ i, (PyStr.of_nat (i + 1), f (PyStr.of_nat (i + 1)))) <$> seq 0 n.
Proof.
  induction n as [|n IH]; [done|].
  rewrite seq_S, foldl_app, fmap_app, IH. simpl.
  apply set_fresh. unfold ODict.keys. rewrite <- list_fmap_compose.
  intros (i & Heq & Hi)%list_elem_of_fmap. simpl in Heq.
  apply PyStrFacts.of_nat_inj in Heq. apply elem_of_seq in Hi. lia.
Qed.

Lemma fresh_votes_eq n :
  fresh_votes n = (λ i, (PyStr.of_nat (i + 1), ∅)) <$> seq 0 n.
Proof. apply (fill_numbered (λ _, ∅)). Qed.

Lemma fresh_patterns_eq n :
  fresh_patterns n
  = (λ i, (PyStr.of_nat (i + 1), patterns_of (PyStr.of_nat (i + 1)))) <$> seq 0 n.
Proof. apply (fill_numbered patterns_of). Qed.

Lemma keys_fresh_votes n :
  ODict.keys (fresh_votes n) = (λ i, PyStr.of_nat (i + 1)) <$> seq 0 n.
Proof.
  rewrite fresh_votes_eq. unfold ODict.keys.
  by rewrite <- list_fmap_compose.
Qed.

Lemma keys_fresh_patterns n :
  ODict.keys (fresh_patterns n) = (λ i, PyStr.of_nat (i + 1)) <$> seq 0 n.
Proof.
  rewrite fresh_patterns_eq. unfold ODict.keys.
  by rewrite <- list_fmap_compose.
Qed.

Lemma NoDup_numbered n : NoDup ((λ i, PyStr.of_nat (i + 1)) <$> seq 0 n).
Proof.
  apply NoDup_fmap_2_strong; [|apply NoDup_seq].
  intros i j _ _ H. apply PyStrFacts.of_nat_inj in H. lia.
Qed.

(** *** Starting a vote *)

Lemma open_session_reached :
  run (world0 15) [StartVote (options_n 3) (Some 7%nat) 0%Q; Danmaku (msg "a" "1")]
  = Ok open_session.
Proof. vm_compute. reflexivity. Qed.

(** C5, as stated, fails: with a session open, [start_vote] is no no-op. It
    discards the ballot already cast, installs the new callback and start
    time and starts a second timer. *)
Lemma start_vote_while_open_not_rejected :
  voting_active (mgr open_session) = true ∧
  let w' := (start_vote (options_n 2) (Some 8%nat) 5%Q open_session).1 in
  w' ≠ open_session ∧
  votes (mgr w') = [(PyStr.lit "1", ∅); (PyStr.lit "2", ∅)] ∧
  vote_start_time (mgr w') = Some 5%Q ∧
  vote_callback (mgr w') = Some 8%nat ∧
  timers w' = 2%nat.
Proof.
  split; [done|]. simpl. split; [|by vm_compute].
  intros H. apply (f_equal timers) in H. discriminate H.
Qed.

(** C5, amended: with a session open, [start_vote options callback] is not
    rejected. It returns the configured vote duration and replaces the running
    session: one empty ballot map and one pattern list per new option, under the
    keys [str(1)], ..., [str(len(options))], the new start time and the new
    callback; it starts one more timer and calls no callback. *)
Theorem start_vote_replaces_open_session options callback now w :
  voting_active (mgr w) = true →
  let r := start_vote options callback now w in
  r.2 = vote_duration (mgr w) ∧
  vote_duration (mgr r.1) = vote_duration (mgr w) ∧
  votes (mgr r.1)
    = (λ i, (PyStr.of_nat (i + 1), ∅)) <$> seq 0 (length options) ∧
  option_patterns (mgr r.1)
    = (λ i, (PyStr.of_nat (i + 1), patterns_of (PyStr.of_nat (i + 1))))
        <$> seq 0 (length options) ∧
  voting_active (mgr r.1) = true ∧
  vote_start_time (mgr r.1) = Some now ∧
  vote_callback (mgr r.1) = callback ∧
  timers r.1 = S (timers w) ∧
  fired r.1 = fired w.
Proof.
  intros _. simpl.
  rewrite fresh_votes_eq, fresh_patterns_eq. by repeat split.
Qed.

Lemma start_vote_replaces_open_session_witness :
  voting_active (mgr open_session) = true ∧
  votes (mgr (start_vote (options_n 2) (Some 8%nat) 5%Q open_session).1)
  = (λ i, (PyStr.of_nat (i + 1), ∅)) <$> seq 0 2.
Proof.
  split; [reflexivity|].
  exact (proj1 (proj2 (proj2
    (start_vote_replaces_open_session (options_n 2) (Some 8%nat) 5%Q
       open_session eq_refl)))).
Defined.

(** *** Ending a vote *)

(** C1, as stated, fails: a second [end_vote] fires the callback again. *)
Lemma end_vote_twice_fires_twice :
  let w1 := (end_vote open_session).1 in
  let w2 := (end_vote w1).1 in
  length (fired w1) = 1%nat ∧ length (fired w2) = 2%nat ∧ w2 ≠ w1.
Proof.
  simpl. repeat split.
  intros H. apply (f_equal (λ w, length (fired w))) in H. discriminate H.
Qed.

Lemma end_vote_closed w : voting_active (mgr (end_vote w).1) = false.
Proof. done. Qed.

Lemma end_vote_n_S n w : end_vote_n (S n) w = (end_vote (end_vote_n n w)).1.
Proof. done. Qed.

Lemma end_vote_n_keeps n w :
  vote_callback (mgr (end_vote_n n w)) = vote_callback (mgr w) ∧
  get_vote_counts (mgr (end_vote_n n w)) = get_vote_counts (mgr w) ∧
  ((0 < n)%nat → voting_active (mgr (end_vote_n n w)) = false).
Proof.
  induction n as [|n (IH1 & IH2 & _)]; [by repeat split; try lia|].
  rewrite end_vote_n_S. repeat split; [exact IH1 | exact IH2].
Qed.

(** C1, amended: the first [end_vote] closes the session and calls the
    callback with the winner and the tally; once the session is closed, a timer
    that wakes up calls nothing, since [_vote_timer] tests [voting_active]; but
    [end_vote] itself has no such test: each later direct call computes the
    same winner and tally and calls the callback again, so [n] calls fire it
    [n] times. *)
Theorem end_vote_fires_on_every_call w cb n :
  vote_callback (mgr w) = Some cb →
  let counts := get_vote_counts (mgr w) in
  let w' := end_vote_n n w in
  fired w' = fired w ++ replicate n (cb, winner_of counts, counts) ∧
  ((0 < n)%nat →
     voting_active (mgr w') = false ∧
     fired (vote_timer w') = fired w' ∧
     mgr (vote_timer w') = mgr w').
Proof.
  intros Hcb. cbv zeta. split.
  - induction n as [|n IH]; [by rewrite app_nil_r|].
    destruct (end_vote_n_keeps n w) as (Hk1 & Hk2 & _).
    rewrite end_vote_n_S. unfold end_vote at 1. cbn [fst fired].
    change (vote_callback (close (mgr (end_vote_n n w))))
      with (vote_callback (mgr (end_vote_n n w))).
    change (get_vote_counts (close (mgr (end_vote_n n w))))
      with (get_vote_counts (mgr (end_vote_n n w))).
    rewrite Hk1, Hcb, Hk2, IH, <- app_assoc. f_equal.
    rewrite (replicate_S_end n). done.
  - intros Hn. destruct (end_vote_n_keeps n w) as (_ & _ & Hk3).
    unfold vote_timer. rewrite (Hk3 Hn). done.
Qed.

Lemma end_vote_fires_on_every_call_witness :
  vote_callback (mgr open_session) = Some 7%nat ∧
  length (fired (end_vote_n 3 open_session)) = 3%nat.
Proof.
  split; [reflexivity|].
  rewrite (proj1 (end_vote_fires_on_every_call open_session 7%nat 3 eq_refl)).
  reflexivity.
Defined.

(** *** The winner *)

Lemma max_from_ge f b l :
  (f b ≤ f (max_from f b l))%nat ∧ ∀ y, y ∈ l → (f y ≤ f (max_from f b l))%nat.
Proof.
  revert b. induction l as [|k l IH]; intros b; simpl.
  - split; [lia|]. intros y Hy. by apply elem_of_nil in Hy.
  - destruct (IH (if (f b <? f k)%nat then k else b)) as [H1 H2].
    destruct (Nat.ltb_spec (f b) (f k)) as [Hlt|Hge].
    + split; [lia|]. intros y [->|Hy]%elem_of_cons; [done | by apply H2].
    + split; [done|]. intros y [->|Hy]%elem_of_cons; [lia | by apply H2].
Qed.

Lemma max_from_first f b l :
  max_from f b l = b ∨
  ∃ l1 x l2, l = l1 ++ x :: l2 ∧ max_from f b l = x ∧ (f b < f x)%nat ∧
             ∀ y, y ∈ l1 → (f y < f x)%nat.
Proof.
  revert b. induction l as [|k l IH]; intros b; simpl; [by left|].
  destruct (Nat.ltb_spec (f b) (f k)) as [Hlt|Hge].
  - right. destruct (IH k) as [Hk|(l1 & x & l2 & -> & Hx & Hkx & Hl1)].
    + exists [], k, l. repeat split; [done | done |].
      intros y Hy. by apply elem_of_nil in Hy.
    + exists (k :: l1), x, l2. repeat split; [done | lia |].
      intros y [->|Hy]%elem_of_cons; [done | by apply Hl1].
  - destruct (IH b) as [Hb|(l1 & x & l2 & -> & Hx & Hbx & Hl1)]; [by left|].
    right. exists (k :: l1), x, l2. repeat split; [done | done |].
    intros y [->|Hy]%elem_of_cons; [lia | by apply Hl1].
Qed.

(** [max] returns the element at the least position among the positions of
    greatest value. *)
Lemma max_from_index f b l :
  ∃ i, (b :: l) !! i = Some (max_from f b l) ∧
       (∀ j y, (b :: l) !! j = Some y → (f y ≤ f (max_from f b l))%nat) ∧
       (∀ j y, (j < i)%nat → (b :: l) !! j = Some y →
               (f y < f (max_from f b l))%nat).
Proof.
  destruct (max_from_ge f b l) as [Hb Hl].
  assert (∀ j y, (b :: l) !! j = Some y → (f y ≤ f (max_from f b l))%nat) as Hall.
  { intros [|j] y; simpl; [by intros [= <-]|].
    intros Hy. apply Hl. by eapply list_elem_of_lookup_2. }
  destruct (max_from_first f b l) as [Heq|(l1 & x & l2 & -> & Hx & Hbx & Hl1)].
  - exists 0%nat. split; [by rewrite Heq|]. split; [exact Hall|]. intros; lia.
  - exists (S (length l1)). split; [|split; [exact Hall|]].
    + simpl. rewrite Hx. by apply list_lookup_middle.
    + rewrite Hx. intros [|j] y Hj; simpl; [by intros [= <-]|].
      intros Hy. apply Hl1. rewrite lookup_app_l in Hy by lia.
      by eapply list_elem_of_lookup_2.
Qed.

Lemma count_of_lookup (m : VoteManager) j k :
  NoDup (ODict.keys (votes m)) →
  ODict.keys (votes m) !! j = Some k →
  tally m !! j = Some (count_of (get_vote_counts m) k).
Proof.
  intros Hnd Hk. unfold tally, get_vote_counts, count_of, ODict.keys in *.
  rewrite list_lookup_fmap in Hk. rewrite list_lookup_fmap.
  destruct (votes m !! j) as [[k' b]|] eqn:Hj; [|done].
  simpl in Hk. injection Hk as ->. simpl.
  rewrite (ODictFacts.elem_get k (size b)); [done| |].
  - unfold ODict.keys. rewrite <- list_fmap_compose. exact Hnd.
  - apply list_elem_of_fmap. exists (k, b). split; [done|].
    by eapply list_elem_of_lookup_2.
Qed.

(** C3: [end_vote] declares as winner the option with the most ballots, the
    one of least ordinal among several with the most, and option [1] when no
    ballot was cast (also when there is no option at all). *)
Theorem end_vote_winner w n :
  ODict.keys (votes (mgr w)) = (λ i, PyStr.of_nat (i + 1)) <$> seq 0 n →
  let winner := (end_vote w).2.1 in
  (Forall (λ c, c = 0%nat) (tally (mgr w)) → winner = PyStr.lit "1") ∧
  ((0 < n)%nat →
   ∃ i c, winner = PyStr.of_nat (i + 1) ∧ tally (mgr w) !! i = Some c ∧
          (∀ j c', tally (mgr w) !! j = Some c' → (c' ≤ c)%nat) ∧
          (∀ j c', (j < i)%nat → tally (mgr w) !! j = Some c' → (c' < c)%nat)).
Proof.
  intros Hkeys. cbv zeta.
  assert (NoDup (ODict.keys (votes (mgr w)))) as Hnd
    by (rewrite Hkeys; apply NoDup_numbered).
  assert (ODict.keys (get_vote_counts (mgr w)) = ODict.keys (votes (mgr w))) as Hck.
  { unfold get_vote_counts, ODict.keys. by rewrite <- list_fmap_compose. }
  assert ((0 < n)%nat →
    ∃ i c, (end_vote w).2.1 = PyStr.of_nat (i + 1) ∧ tally (mgr w) !! i = Some c ∧
      (∀ j c', tally (mgr w) !! j = Some c' → (c' ≤ c)%nat) ∧
      (∀ j c', (j < i)%nat → tally (mgr w) !! j = Some c' → (c' < c)%nat)) as Hmain.
  { intros Hn. unfold end_vote. cbn [fst snd].
    change (get_vote_counts (close (mgr w))) with (get_vote_counts (mgr w)).
    unfold winner_of. rewrite Hck.
    destruct (ODict.keys (votes (mgr w))) as [|k l] eqn:Hkl.
    { destruct n; [lia | discriminate Hkeys]. }
    set (f := count_of (get_vote_counts (mgr w))).
    destruct (max_from_index f k l) as (i & Hi & Hle & Hlt).
    exists i, (f (max_from f k l)).
    assert (∀ j y, (k :: l) !! j = Some y → tally (mgr w) !! j = Some (f y)) as Hty.
    { intros j y Hj. apply count_of_lookup; [by rewrite Hkl | by rewrite Hkl]. }
    assert (∀ j c', tally (mgr w) !! j = Some c' →
                    ∃ y, (k :: l) !! j = Some y ∧ c' = f y) as Hyt.
    { intros j c' Hj.
      destruct ((k :: l) !! j) as [y|] eqn:Hy.
      - exists y. split; [done|]. apply Hty in Hy. congruence.
      - apply lookup_ge_None in Hy. apply lookup_lt_Some in Hj.
        unfold tally in Hj. rewrite length_fmap in Hj.
        rewrite <- Hkl in Hy. unfold ODict.keys in Hy.
        rewrite length_fmap in Hy. lia. }
    repeat split.
    - rewrite Hkeys in Hi. rewrite list_lookup_fmap in Hi.
      destruct (seq 0 n !! i) as [i'|] eqn:Hs; [|done].
      apply lookup_seq in Hs as [-> _]. simpl in Hi. by injection Hi as <-.
    - by apply Hty.
    - intros j c' (y & Hy & ->)%Hyt. by eapply Hle.
    - intros j c' Hj (y & Hy & ->)%Hyt. by eapply Hlt. }
  split; [|exact Hmain].
  intros Hzero. destruct n as [|n].
  - unfold end_vote. cbn [fst snd].
    change (get_vote_counts (close (mgr w))) with (get_vote_counts (mgr w)).
    unfold winner_of. by rewrite Hck, Hkeys.
  - destruct (Hmain ltac:(lia)) as (i & c & -> & Hc & _ & Hlt).
    destruct i as [|i]; [done|]. exfalso.
    destruct (tally (mgr w) !! 0%nat) as [c0|] eqn:H0.
    + specialize (Hlt 0%nat c0 ltac:(lia) H0).
      rewrite Forall_lookup in Hzero. apply Hzero in Hc. lia.
    + apply lookup_ge_None in H0. apply lookup_lt_Some in Hc. lia.
Qed.

Lemma end_vote_winner_witness :
  tally (mgr session_3_5_1) = [3; 5; 1]%nat ∧
  ∃ i c, (end_vote session_3_5_1).2.1 = PyStr.of_nat (i + 1) ∧
         tally (mgr session_3_5_1) !! i = Some c ∧
         (∀ j c', tally (mgr session_3_5_1) !! j = Some c' → (c' ≤ c)%nat) ∧
         (∀ j c', (j < i)%nat → tally (mgr session_3_5_1) !! j = Some c' →
                  (c' < c)%nat).
Proof.
  split; [by vm_compute|].
  apply (proj2 (end_vote_winner session_3_5_1 3 ltac:(by vm_compute))). lia.
Defined.

Example end_vote_3_5_1 :
  (end_vote session_3_5_1).2 =
  (PyStr.lit "2", [(PyStr.lit "1", 3%nat); (PyStr.lit "2", 5%nat); (PyStr.lit "3", 1%nat)]).
Proof. by vm_compute. Qed.

Example end_vote_tie_lowest_ordinal :
  (end_vote (start_vote (options_n 3) None 0%Q (world0 15)).1).2.1 = PyStr.lit "1".
Proof. by vm_compute. Qed.

(** *** Recording votes *)

Lemma holders_remove_voter uid vs : holders uid (remove_voter uid vs) = [].
Proof.
  unfold holders, remove_voter. induction vs as [|[k b] vs IH]; [done|].
  rewrite fmap_cons, filter_cons_False; [exact IH|]. simpl.
  destruct (decide (is_Some (b !! uid))) as [Hin|Hnin]; [|done].
  rewrite lookup_delete_eq. by intros [? ?].
Qed.

Lemma holders_remove_voter_ne uid uid' vs :
  uid ≠ uid' →
  length (holders uid' (remove_voter uid vs)) = length (holders uid' vs).
Proof.
  intros Hne. unfold holders, remove_voter.
  induction vs as [|[k b] vs IH]; [done|].
  rewrite fmap_cons.
  assert (is_Some (b !! uid') ↔
          is_Some ((if decide (is_Some (b !! uid)) then delete uid b else b) !! uid'))
    as Hiff.
  { destruct (decide (is_Some (b !! uid))); [|done].
    by rewrite lookup_delete_ne. }
  destruct (decide (is_Some (b !! uid'))) as [Hin|Hnin].
  - rewrite !filter_cons_True; [|done|by apply Hiff]. simpl. by rewrite IH.
  - rewrite !filter_cons_False; [done|done|]. simpl. by rewrite <- Hiff.
Qed.

Lemma holders_alter_insert_ne uid uid' uname key vs :
  uid ≠ uid' →
  length (holders uid' (ODict.alter (λ b, <[uid := uname]> b) key vs))
  = length (holders uid' vs).
Proof.
  intros Hne. unfold holders. induction vs as [|[k b] vs IH]; [done|].
  simpl. destruct (decide (key = k)) as [->|Hk].
  - destruct (decide (is_Some (b !! uid'))) as [Hin|Hnin].
    + rewrite !filter_cons_True; [done|done|]. simpl. by rewrite lookup_insert_ne.
    + rewrite !filter_cons_False; [done|done|]. simpl. by rewrite lookup_insert_ne.
  - destruct (decide (is_Some (b !! uid'))) as [Hin|Hnin].
    + rewrite !filter_cons_True by done. simpl. by rewrite IH.
    + by rewrite !filter_cons_False by done.
Qed.

Lemma holders_alter_insert uid uname key vs :
  holders uid vs = [] →
  (length (holders uid (ODict.alter (λ b, <[uid := uname]> b) key vs)) ≤ 1)%nat.
Proof.
  unfold holders. induction vs as [|[k b] vs IH]; [simpl; lia|].
  destruct (decide (is_Some (b !! uid))) as [Hin|Hnin].
  { by rewrite filter_cons_True by done. }
  rewrite filter_cons_False by done. intros Hvs. simpl.
  destruct (decide (key = k)) as [->|Hk].
  - rewrite filter_cons_True by (simpl; by rewrite lookup_insert_eq).
    simpl. rewrite Hvs. simpl. lia.
  - rewrite filter_cons_False by done. by apply IH.
Qed.

Lemma record_ballot_at_most_one key uid uname vs :
  at_most_one vs → at_most_one (record_ballot key uid uname vs).
Proof.
  intros Hvs uid'. unfold record_ballot.
  destruct (decide (uid = uid')) as [<-|Hne].
  - apply holders_alter_insert, holders_remove_voter.
  - rewrite holders_alter_insert_ne, holders_remove_voter_ne by done. apply Hvs.
Qed.

Lemma scan_patterns_Some vs uid uname content key ps vs' :
  scan_patterns vs uid uname content key ps = Ok (Some vs') →
  vs' = record_ballot key uid uname vs ∧
  ∃ b, ODict.get key vs = Some b ∧ b !! uid = None.
Proof.
  induction ps as [|p ps IH]; simpl; [done|].
  destruct (matches content p); [|exact IH].
  destruct (ODict.get key vs) as [b|]; [|done].
  destruct (decide (is_Some (b !! uid))) as [Hin|Hnin]; [exact IH|].
  intros [= <-]. split; [done|]. exists b. split; [done|].
  by apply eq_None_not_Some.
Qed.

Lemma scan_options_Some vs uid uname content opts key vs' :
  scan_options vs uid uname content opts = Ok (Some (key, vs')) →
  vs' = record_ballot key uid uname vs ∧
  ∃ b, ODict.get key vs = Some b ∧ b !! uid = None.
Proof.
  induction opts as [|[k ps] opts IH]; simpl; [done|].
  destruct (scan_patterns vs uid uname content k ps) as [[vs1|]|e] eqn:Hs;
    [|exact IH|done].
  intros [= <- <-]. by eapply scan_patterns_Some.
Qed.

Lemma scan_patterns_no_raise vs uid uname content key ps :
  key ∈ ODict.keys vs →
  ∃ r, scan_patterns vs uid uname content key ps = Ok r.
Proof.
  intros Hkey. induction ps as [|p ps IH]; simpl; [by eexists|].
  destruct (matches content p); [|exact IH].
  destruct (ODict.get key vs) as [b|] eqn:Hget.
  - destruct (decide (is_Some (b !! uid))); [exact IH | by eexists].
  - by apply ODictFacts.get_None in Hget.
Qed.

Lemma scan_options_no_raise vs uid uname content (opts : list (str * list str)) :
  ODict.keys opts ⊆ ODict.keys vs →
  ∃ r, scan_options vs uid uname content opts = Ok r.
Proof.
  induction opts as [|[k ps] opts IH]; simpl; [by eexists|].
  intros Hsub.
  destruct (scan_patterns_no_raise vs uid uname content k ps) as [[vs1|] ->].
  - apply Hsub. left.
  - by eexists.
  - apply IH. intros x Hx. apply Hsub. by right.
Qed.

Lemma keys_remove_voter uid vs : ODict.keys (remove_voter uid vs) = ODict.keys vs.
Proof.
  unfold ODict.keys, remove_voter. rewrite <- list_fmap_compose.
  by apply list_fmap_ext.
Qed.

Lemma keys_record_ballot key uid uname vs :
  ODict.keys (record_ballot key uid uname vs) = ODict.keys vs.
Proof.
  unfold record_ballot. by rewrite ODictFacts.keys_alter, keys_remove_voter.
Qed.

(** [process_danmaku] raises nothing and keeps every voter under at most one
    option. *)
Lemma process_danmaku_ok msg m :
  session_ok m →
  ∃ m' r, process_danmaku msg m = Ok (m', r) ∧ session_ok m'.
Proof.
  intros [Hkeys Hone]. unfold process_danmaku.
  destruct (voting_active m); simpl; [|by exists m, None].
  destruct (scan_options_no_raise (votes m) (user_id msg) (username msg)
              (PyStr.strip (content msg)) (option_patterns m)) as [r Hr].
  { by rewrite Hkeys. }
  rewrite Hr. destruct r as [[key vs']|]; [|by exists m, None].
  exists (set_votes m vs'), (Some key). split; [done|].
  apply scan_options_Some in Hr as [-> _]. split; simpl.
  - by rewrite keys_record_ballot.
  - by apply record_ballot_at_most_one.
Qed.

Lemma get_remove_voter uid vs k :
  ODict.get k (remove_voter uid vs) = delete uid <$> ODict.get k vs.
Proof.
  unfold remove_voter. induction vs as [|[k0 b0] vs IH]; [done|]. simpl.
  destruct (decide (k = k0)); [|exact IH]. simpl. f_equal.
  destruct (decide (is_Some (b0 !! uid))) as [|Hn]; [done|].
  symmetry. apply delete_id. by apply eq_None_not_Some.
Qed.

(** A recorded vote moves the ballot: the voter is removed from every option
    and entered under the option returned, where the voter was not before. *)
Lemma process_danmaku_moves msg m m' key :
  process_danmaku msg m = Ok (m', Some key) →
  voting_active m = true ∧
  (∃ b, ODict.get key (votes m) = Some b ∧ b !! user_id msg = None) ∧
  ∀ k, ODict.get k (votes m')
       = (λ b, if decide (k = key)
               then <[user_id msg := username msg]> (delete (user_id msg) b)
               else delete (user_id msg) b) <$> ODict.get k (votes m).
Proof.
  unfold process_danmaku. destruct (voting_active m); simpl; [|done].
  destruct (scan_options _ _ _ _ _) as [[[key' vs']|]|e] eqn:Hs; [|done|done].
  intros [= <- ->]. apply scan_options_Some in Hs as [-> Hb].
  split; [done|]. split; [exact Hb|]. intros k. simpl. unfold record_ballot.
  pose proof (get_remove_voter (user_id msg) (votes m)) as Hrm.
  destruct (decide (k = key)) as [->|Hne].
  - rewrite ODictFacts.get_alter_eq, Hrm.
    by destruct (ODict.get key (votes m)).
  - rewrite ODictFacts.get_alter_ne, Hrm by done.
    by destruct (ODict.get k (votes m)).
Qed.

Lemma start_vote_ok options callback now w :
  session_ok (mgr (start_vote options callback now w).1).
Proof.
  split; simpl.
  - by rewrite keys_fresh_votes, keys_fresh_patterns.
  - intros uid. rewrite fresh_votes_eq. unfold holders.
    induction (seq 0 (length options)) as [|i l IH]; [simpl; lia|].
    rewrite fmap_cons, filter_cons_False; [exact IH|].
    simpl. rewrite lookup_empty. by intros [? ?].
Qed.

(** Over every sequence of calls on a new manager, nothing is raised and no
    voter ever holds two ballots. *)
Lemma run_session_ok duration cs :
  ∃ w, run (world0 duration) cs = Ok w ∧ session_ok (mgr w).
Proof.
  assert (session_ok (mgr (world0 duration))) as H0.
  { split; [done|]. intros uid. simpl. lia. }
  revert H0. generalize (world0 duration).
  induction cs as [|c cs IH]; intros w Hw; simpl; [by exists w|].
  destruct c as [options callback now|msg| |]; simpl.
  - apply IH. apply start_vote_ok.
  - destruct (process_danmaku_ok msg (mgr w) Hw) as (m' & r & -> & Hm').
    by apply IH.
  - by apply IH.
  - destruct (timers w); [by apply IH|]. apply IH.
    unfold vote_timer. by destruct (voting_active (mgr w)).
Qed.

Lemma process_danmaku_keys msg m m' r :
  process_danmaku msg m = Ok (m', r) →
  ODict.keys (votes m') = ODict.keys (votes m).
Proof.
  unfold process_danmaku. destruct (voting_active m); simpl; [|by intros [= <- _]].
  destruct (scan_options _ _ _ _ _) as [[[key vs']|]|e] eqn:Hs;
    [|by intros [= <- _]|done].
  intros [= <- _]. apply scan_options_Some in Hs as [-> _].
  apply keys_record_ballot.
Qed.

(** On every state a new manager can reach, the options are numbered from 1. *)
Lemma run_keys_numbered duration cs w :
  run (world0 duration) cs = Ok w →
  ∃ n, ODict.keys (votes (mgr w)) = (λ i, PyStr.of_nat (i + 1)) <$> seq 0 n.
Proof.
  assert (∃ n, ODict.keys (votes (mgr (world0 duration)))
               = (λ i, PyStr.of_nat (i + 1)) <$> seq 0 n) as H0 by by exists 0%nat.
  revert H0. generalize (world0 duration). revert w.
  induction cs as [|c cs IH]; intros w w0 Hw0; simpl; [by intros [= <-]|].
  destruct c as [options callback now|msg| |]; simpl.
  - apply IH. exists (length options). simpl. apply keys_fresh_votes.
  - destruct (process_danmaku msg (mgr w0)) as [[m' r]|e] eqn:Hp; [|done].
    apply IH. simpl. by rewrite (process_danmaku_keys _ _ _ _ Hp).
  - by apply IH.
  - destruct (timers w0); [by apply IH|]. apply IH.
    unfold vote_timer. by destruct (voting_active (mgr w0)).
Qed.

(** *** Repeated votes *)

Lemma matches_startswith content p :
  matches content p = PyStr.startswith content p.
Proof.
  unfold matches. destruct (bool_decide_reflect (content = p)) as [->|]; [|done].
  simpl. symmetry. apply PyStrFacts.startswith_spec. exists []. by rewrite app_nil_r.
Qed.

(** Two beginnings of one text: one is the beginning of the other. *)
Lemma startswith_comparable s p p' :
  PyStr.startswith s p = true → PyStr.startswith s p' = true →
  incomparable p p' = false.
Proof.
  unfold incomparable. revert s p'.
  induction p as [|a p IH]; intros s p'; [by destruct p'|].
  destruct p' as [|a' p']; [done|]. destruct s as [|b s]; [done|]. simpl.
  intros [Ha Hs]%andb_true_iff [Ha' Hs']%andb_true_iff.
  apply bool_decide_eq_true in Ha, Ha'. subst a a'.
  rewrite !bool_decide_eq_true_2 by done. simpl. by eapply IH.
Qed.

Lemma unambiguous_rest content k ps rest :
  unambiguous ((k, ps) :: rest) = true →
  existsb (matches content) ps = true →
  ∀ kp, kp ∈ rest → existsb (matches content) kp.2 = false.
Proof.
  simpl. intros [Hu _]%andb_true_iff Hex kp Hkp.
  apply not_true_is_false. intros Hex'.
  apply existsb_exists in Hex as (p & Hp & Hm).
  apply existsb_exists in Hex' as (p' & Hp' & Hm').
  rewrite matches_startswith in Hm, Hm'.
  rewrite forallb_forall in Hu. apply list_elem_of_In in Hkp.
  specialize (Hu kp Hkp). rewrite forallb_forall in Hu.
  specialize (Hu p Hp). rewrite forallb_forall in Hu.
  specialize (Hu p' Hp').
  by rewrite (startswith_comparable content p p') in Hu.
Qed.

Lemma scan_patterns_no_match vs uid uname content key ps :
  existsb (matches content) ps = false →
  scan_patterns vs uid uname content key ps = Ok None.
Proof.
  induction ps as [|p ps IH]; simpl; [done|].
  intros [-> Hps]%orb_false_iff. by apply IH.
Qed.

Lemma scan_patterns_holder vs uid uname content key ps b :
  ODict.get key vs = Some b → is_Some (b !! uid) →
  scan_patterns vs uid uname content key ps = Ok None.
Proof.
  intros Hb Hin. induction ps as [|p ps IH]; simpl; [done|].
  destruct (matches content p); [|exact IH].
  rewrite Hb. by rewrite decide_True.
Qed.

Lemma scan_options_no_match vs uid uname content (opts : list (str * list str)) :
  (∀ kp, kp ∈ opts → existsb (matches content) kp.2 = false) →
  scan_options vs uid uname content opts = Ok None.
Proof.
  induction opts as [|[k ps] opts IH]; simpl; [done|]. intros H.
  rewrite scan_patterns_no_match by (apply (H (k, ps)); left).
  apply IH. intros kp Hkp. apply H. by right.
Qed.

Lemma scan_options_repeat vs uid uname content opts k b :
  unambiguous opts = true →
  first_match content opts = Some k →
  ODict.get k vs = Some b → is_Some (b !! uid) →
  scan_options vs uid uname content opts = Ok None.
Proof.
  intros Hu Hfirst Hb Hin. unfold first_match in Hfirst.
  induction opts as [|[k0 ps] opts IH]; [done|]. simpl in Hfirst |- *.
  destruct (existsb (matches content) ps) eqn:Hex.
  - simpl in Hfirst. injection Hfirst as ->.
    rewrite (scan_patterns_holder vs uid uname content k ps b Hb Hin).
    apply scan_options_no_match. by eapply unambiguous_rest.
  - rewrite scan_patterns_no_match by done. apply IH; [|done].
    simpl in Hu. by apply andb_true_iff in Hu as [_ ?].
Qed.

Lemma unambiguous_up_to_9 n : (n ≤ 9)%nat → unambiguous (fresh_patterns n) = true.
Proof.
  intros Hn.
  do 10 (destruct n as [|n]; [by vm_compute|]). lia.
Qed.

(** With at most nine options, a vote repeated for the option the voter
    already holds a ballot under leaves everything as it is. *)
Lemma repeat_vote_unchanged_up_to_9 msg m n k b :
  (n ≤ 9)%nat → option_patterns m = fresh_patterns n →
  first_match (PyStr.strip (content msg)) (option_patterns m) = Some k →
  ODict.get k (votes m) = Some b → is_Some (b !! user_id msg) →
  process_danmaku msg m = Ok (m, None).
Proof.
  intros Hn Hpat Hfirst Hb Hin. unfold process_danmaku.
  destruct (voting_active m); simpl; [|done].
  rewrite (scan_options_repeat _ _ _ _ _ k b); try done.
  rewrite Hpat. by apply unambiguous_up_to_9.
Qed.

(** C2 at its failing input. With ten options the text 10 is first matched by
    the pattern 1 of option 1 and recorded there. Sent again by the same voter,
    it is matched by option 1 once more, where the voter already holds a
    ballot; the loop then does not return but goes on to the later options and
    moves the ballot to option 10: the repeated vote changes the ballots. *)
Theorem repeat_vote_moves_ballot :
  run (world0 15) [StartVote (options_n 10) None 0%Q; Danmaku (msg "a" "10")]
  = Ok ten_options ∧
  holders (PyStr.lit "a") (votes (mgr ten_options))
  = [(PyStr.lit "1", {[ PyStr.lit "a" := PyStr.lit "a" ]})] ∧
  first_match (PyStr.strip (content (msg "a" "10")))
              (option_patterns (mgr ten_options)) = Some (PyStr.lit "1") ∧
  ∃ m', process_danmaku (msg "a" "10") (mgr ten_options)
        = Ok (m', Some (PyStr.lit "10")) ∧
        holders (PyStr.lit "a") (votes m')
        = [(PyStr.lit "10", {[ PyStr.lit "a" := PyStr.lit "a" ]})] ∧
        votes m' ≠ votes (mgr ten_options).
Proof.
  split; [by vm_compute|]. split; [by vm_compute|]. split; [by vm_compute|].
  eexists. split; [by vm_compute|]. split; [by vm_compute|].
  intros H. apply (f_equal (λ vs, ODict.get (PyStr.lit "1") vs ≫= (.!! PyStr.lit "a"))) in H.
  vm_compute in H. discriminate H.
Qed.

End VoteFacts.

(** ** The stable descending sort *)

Module PySortFacts.
Import PySort.

Lemma qlt_spec x y : qlt x y = true ↔ (x < y)%Q.
Proof. unfold qlt, Qlt. apply Z.ltb_lt. Qed.

Lemma qlt_false x y : qlt x y = false ↔ (y <= x)%Q.
Proof. unfold qlt, Qle. rewrite Z.ltb_ge. done. Qed.

Lemma count_Permutation {A} (p : A → bool) l1 l2 :
  l1 ≡ₚ l2 → count p l1 = count p l2.
Proof. induction 1; simpl; lia. Qed.

Lemma count_zero {A} (p : A → bool) l :
  (∀ x, x ∈ l → p x = false) → count p l = 0%nat.
Proof.
  induction l as [|x l IH]; [done|]. intros H. simpl.
  rewrite (H x) by left. rewrite IH; [done|]. intros y Hy. apply H. by right.
Qed.

Section facts.
Context {A : Type} (key : A → Q).

Local Abbreviation descending := (PySort.descending key).
Local Abbreviation reaches := (PySort.reaches key).

Lemma insert_desc_Permutation x l : insert_desc key x l ≡ₚ x :: l.
Proof.
  induction l as [|y l IH]; simpl; [done|].
  destruct (qlt (key x) (key y)); [|done].
  rewrite IH. apply Permutation_swap.
Qed.

Lemma insert_desc_descending x l :
  descending l → descending (insert_desc key x l).
Proof.
  unfold descending. induction 1 as [|y l Hl IH Hy]; simpl.
  - repeat constructor.
  - destruct (qlt (key x) (key y)) eqn:Hxy.
    + constructor; [exact IH|].
      apply Forall_forall. intros z Hz.
      rewrite insert_desc_Permutation in Hz.
      apply elem_of_cons in Hz as [->|Hz].
      * apply qlt_spec in Hxy. by apply Qlt_le_weak.
      * rewrite Forall_forall in Hy. by apply Hy.
    + apply qlt_false in Hxy. constructor; [by constructor|].
      constructor; [done|]. eapply Forall_impl; [exact Hy|].
      intros z Hz. simpl in Hz. by eapply Qle_trans.
Qed.

Lemma sorted_desc_Permutation l : sorted_desc key l ≡ₚ l.
Proof.
  induction l as [|x l IH]; simpl; [done|].
  by rewrite insert_desc_Permutation, IH.
Qed.

Lemma sorted_desc_descending l : descending (sorted_desc key l).
Proof.
  induction l as [|x l IH]; simpl; [constructor|].
  by apply insert_desc_descending.
Qed.

(** *** The first element that qualifies *)

Lemma find_insert_desc value x s :
  descending s →
  find (reaches value) (insert_desc key x s)
  = if reaches value x
    then match find (reaches value) s with
         | Some e => if qlt (key x) (key e) then Some e else Some x
         | None => Some x
         end
    else find (reaches value) s.
Proof.
  unfold descending. induction 1 as [|y s Hs IH Hy]; simpl.
  - by destruct (reaches value x).
  - destruct (qlt (key x) (key y)) eqn:Hxy; simpl.
    + destruct (reaches value y) eqn:Hpy.
      * rewrite Hxy. by destruct (reaches value x).
      * exact IH.
    + destruct (reaches value x) eqn:Hpx; [|done].
      destruct (reaches value y) eqn:Hpy; [by rewrite Hxy|].
      destruct (find (reaches value) s) as [e|] eqn:He; [|done].
      apply find_some in He as [He _].
      rewrite Forall_forall in Hy. apply list_elem_of_In in He.
      apply Hy in He. apply qlt_false in Hxy.
      assert (qlt (key x) (key e) = false) as ->; [|done].
      apply qlt_false. by eapply Qle_trans.
Qed.

(** The element found in the sorted list is, in the order of the argument,
    the first of those of greatest key among the elements that qualify. *)
Lemma find_sorted_desc value l :
  match find (reaches value) (sorted_desc key l) with
  | Some e =>
      ∃ i, l !! i = Some e ∧ (key e <= value)%Q ∧
           ∀ j t, l !! j = Some t → (key t <= value)%Q →
                  (key t < key e)%Q ∨ ((key t == key e)%Q ∧ (i ≤ j)%nat)
  | None => ∀ t, t ∈ l → (value < key t)%Q
  end.
Proof.
  induction l as [|x l IH]; simpl.
  - intros t Ht. by apply elem_of_nil in Ht.
  - rewrite find_insert_desc by apply sorted_desc_descending.
    destruct (reaches value x) eqn:Hpx.
    + assert (key x <= value)%Q as Hx.
      { unfold reaches in Hpx. apply negb_true_iff in Hpx. by apply qlt_false. }
      destruct (find (reaches value) (sorted_desc key l)) as [e|].
      * destruct IH as (i & Hi & He & Hall).
        destruct (qlt (key x) (key e)) eqn:Hxe.
        -- apply qlt_spec in Hxe. exists (S i). split; [done|]. split; [done|].
           intros [|j] t; simpl.
           ++ intros [= <-] _. by left.
           ++ intros Ht Hpt. destruct (Hall j t Ht Hpt) as [?|[? ?]];
                [by left | right; split; [done | lia]].
        -- apply qlt_false in Hxe. exists 0%nat. split; [done|]. split; [done|].
           intros [|j] t; simpl.
           ++ intros [= <-] _. right. split; [reflexivity | lia].
           ++ intros Ht Hpt.
              assert (key t <= key x)%Q as Htx.
              { destruct (Hall j t Ht Hpt) as [Hlt|[Heq _]].
                - apply Qlt_le_weak. by eapply Qlt_le_trans.
                - by rewrite Heq. }
              apply Qle_lt_or_eq in Htx as [?|?]; [by left|].
              right. split; [done | lia].
      * exists 0%nat. split; [done|]. split; [done|].
        intros [|j] t; simpl.
        -- intros [= <-] _. right. split; [reflexivity | lia].
        -- intros Ht Hpt. exfalso.
           apply (Qlt_not_le value (key t)); [|done].
           apply IH. by eapply list_elem_of_lookup_2.
    + assert (value < key x)%Q as Hx.
      { unfold reaches in Hpx. apply negb_false_iff in Hpx. by apply qlt_spec. }
      destruct (find (reaches value) (sorted_desc key l)) as [e|].
      * destruct IH as (i & Hi & He & Hall).
        exists (S i). split; [done|]. split; [done|].
        intros [|j] t; simpl.
        -- intros [= <-] Hpt. exfalso. by apply (Qlt_not_le value (key x)).
        -- intros Ht Hpt. destruct (Hall j t Ht Hpt) as [?|[? ?]];
             [by left | right; split; [done | lia]].
      * intros t [->|Ht]%elem_of_cons; [done | by apply IH].
Qed.

(** *** The position of an element *)

Lemma insert_desc_lookup_new x s :
  descending s →
  insert_desc key x s !! count (λ y, qlt (key x) (key y)) s = Some x.
Proof.
  unfold descending. induction 1 as [|y s Hs IH Hy]; simpl; [done|].
  destruct (qlt (key x) (key y)) eqn:Hxy; simpl; [exact IH|].
  rewrite count_zero; [done|]. intros z Hz.
  rewrite Forall_forall in Hy. apply Hy in Hz.
  apply qlt_false in Hxy. apply qlt_false. by eapply Qle_trans.
Qed.

Lemma insert_desc_lookup_old x s i e :
  descending s → s !! i = Some e →
  insert_desc key x s !! (i + if qlt (key x) (key e) then 0 else 1)%nat = Some e.
Proof.
  unfold descending. intros Hs. revert i.
  induction Hs as [|y s Hs IH Hy]; intros i; simpl; [done|].
  destruct i as [|i]; simpl.
  - intros [= ->]. by destruct (qlt (key x) (key e)).
  - intros He. destruct (qlt (key x) (key y)) eqn:Hxy; simpl.
    + by apply IH.
    + assert (qlt (key x) (key e) = false) as ->.
      { rewrite Forall_forall in Hy. apply list_elem_of_lookup_2 in He.
        apply Hy in He. apply qlt_false in Hxy. apply qlt_false.
        by eapply Qle_trans. }
      by rewrite Nat.add_1_r.
Qed.

Lemma qlt_irrefl x : qlt x x = false.
Proof. apply qlt_false. apply Qle_refl. Qed.

Lemma order_cases (a b : Q) :
  ((if qlt b a then 1 else 0) + (if Qeq_bool a b then 1 else 0))%nat
  = (if qlt a b then 0%nat else 1%nat).
Proof.
  destruct (Q_dec a b) as [[Hlt|Hgt]|Heq].
  - assert (qlt a b = true) as -> by by apply qlt_spec.
    assert (qlt b a = false) as -> by (apply qlt_false; by apply Qlt_le_weak).
    assert (Qeq_bool a b = false) as ->; [|done].
    apply not_true_is_false. intros H%Qeq_bool_iff.
    rewrite H in Hlt. by apply Qlt_irrefl in Hlt.
  - assert (qlt b a = true) as -> by by apply qlt_spec.
    assert (qlt a b = false) as -> by (apply qlt_false; by apply Qlt_le_weak).
    assert (Qeq_bool a b = false) as ->; [|done].
    apply not_true_is_false. intros H%Qeq_bool_iff.
    rewrite H in Hgt. by apply Qlt_irrefl in Hgt.
  - assert (qlt a b = false) as -> by (apply qlt_false; rewrite Heq; apply Qle_refl).
    assert (qlt b a = false) as -> by (apply qlt_false; rewrite Heq; apply Qle_refl).
    assert (Qeq_bool a b = true) as -> by by apply Qeq_bool_iff.
    done.
Qed.

(** An element of the argument lands behind the elements of greater key and
    behind the elements of equal key that precede it in the argument. *)
Lemma sorted_desc_lookup l j e :
  l !! j = Some e →
  sorted_desc key l
    !! (count (λ y, qlt (key e) (key y)) l
        + count (λ y, Qeq_bool (key y) (key e)) (take j l))%nat
  = Some e.
Proof.
  revert j. induction l as [|x l IH]; intros j; [done|].
  destruct j as [|j]; simpl.
  - intros [= ->]. rewrite qlt_irrefl, Nat.add_0_r. simpl.
    rewrite <- (count_Permutation _ _ _ (sorted_desc_Permutation l)).
    apply insert_desc_lookup_new, sorted_desc_descending.
  - intros He.
    pose proof (insert_desc_lookup_old x _ _ e (sorted_desc_descending l) (IH j He))
      as Hins.
    rewrite <- Hins. f_equal.
    pose proof (order_cases (key x) (key e)). lia.
Qed.

End facts.
End PySortFacts.

(** ** The gift processor *)

Module GiftFacts.
Import PySort Gift GiftSpec.
Import PySortFacts.

Lemma same_donor_refl a : same_donor a a.
Proof. by repeat split. Qed.

Lemma same_entry_alter_rank r k d ds :
  Forall2 same_entry d ds →
  Forall2 same_entry d (ODict.alter (set_rank r) k ds).
Proof.
  induction 1 as [|[k1 a] [k2 b] d ds [Hk Hab] Hrest IH]; simpl; [constructor|].
  destruct (decide (k = k2)).
  - constructor; [|done]. split; [done|]. simpl in *.
    destruct Hab as (? & ? & ? & ? & ? & ?). by repeat split.
  - constructor; [by split | exact IH].
Qed.

Lemma assign_same_entry l d ds :
  Forall2 same_entry d ds → Forall2 same_entry d (assign l ds).
Proof.
  revert ds. induction l as [|[i [k x]] l IH]; intros ds H; simpl; [done|].
  apply IH. by apply same_entry_alter_rank.
Qed.

Lemma update_rankings_same_entry d : Forall2 same_entry d (update_rankings d).
Proof.
  apply assign_same_entry. apply Forall2_same_length_lookup_2; [done|].
  intros i a b Ha Hb. assert (a = b) as -> by congruence.
  split; [done | apply same_donor_refl].
Qed.

Lemma same_entry_keys d ds : Forall2 same_entry d ds → ODict.keys ds = ODict.keys d.
Proof.
  unfold ODict.keys. induction 1 as [|a b d ds [Hk _] _ IH]; [done|].
  rewrite !fmap_cons. by f_equal.
Qed.

Lemma same_entry_get d ds k :
  Forall2 same_entry d ds →
  match ODict.get k d, ODict.get k ds with
  | Some a, Some b => same_donor a b
  | None, None => True
  | _, _ => False
  end.
Proof.
  induction 1 as [|[k1 a] [k2 b] d ds [Hk Hab] _ IH]; simpl; [done|].
  simpl in Hk. subst k2. by destruct (decide (k = k1)).
Qed.

(** *** The tier of a gift *)

Lemma determine_effect_spec value :
  match determine_effect value with
  | Some e =>
      ∃ i, tiers !! i = Some e ∧ (min_value e <= value)%Q ∧
           ∀ j t, tiers !! j = Some t → (min_value t <= value)%Q →
                  (min_value t < min_value e)%Q
                  ∨ ((min_value t == min_value e)%Q ∧ (i ≤ j)%nat)
  | None => ∀ t, t ∈ tiers → (value < min_value t)%Q
  end.
Proof. apply (find_sorted_desc min_value value tiers). Qed.

Lemma update_donor_stats_get gift value now donors :
  ∃ st, ODict.get (donor_key (platform gift) (user_id gift))
                  (update_donor_stats gift value now donors) = Some st ∧
        total_value st
        = (match ODict.get (donor_key (platform gift) (user_id gift)) donors with
           | Some st0 => total_value st0 | None => 0 end + value)%Q ∧
        total_gifts st
        = match ODict.get (donor_key (platform gift) (user_id gift)) donors with
          | Some st0 => total_gifts st0 | None => 0 end + gift_count gift ∧
        last_gift_time st = Some now ∧
        d_username st = username gift.
Proof.
  unfold update_donor_stats.
  set (key := donor_key (platform gift) (user_id gift)).
  set (d2 := ODict.alter _ key _).
  pose proof (same_entry_get d2 (update_rankings d2) key
                (update_rankings_same_entry d2)) as Hget.
  assert (∃ st2, ODict.get key d2 = Some st2 ∧
     total_value st2
     = (match ODict.get key donors with
        | Some st0 => total_value st0 | None => 0 end + value)%Q ∧
     total_gifts st2
     = match ODict.get key donors with
       | Some st0 => total_gifts st0 | None => 0 end + gift_count gift ∧
     last_gift_time st2 = Some now ∧ d_username st2 = username gift)
    as (st2 & Hst2 & H1 & H2 & H3 & H4).
  { unfold d2. rewrite ODictFacts.get_alter_eq.
    destruct (ODict.get key donors) as [st0|] eqn:H0.
    - rewrite H0. simpl. by eexists.
    - rewrite ODictFacts.get_set_eq. simpl. by eexists. }
  rewrite Hst2 in Hget.
  destruct (ODict.get key (update_rankings d2)) as [st|]; [|done].
  destruct Hget as (_ & Hn & _ & Hv & Hg & Ht).
  exists st. split; [done|]. by rewrite <- Hv, <- Hg, <- Ht, <- Hn.
Qed.


(** *** The ranks *)

Lemma assign_get_other l ds k :
  k ∉ (λ ikd : nat * (str * DonorStats), ikd.2.1) <$> l →
  ODict.get k (assign l ds) = ODict.get k ds.
Proof.
  revert ds. induction l as [|[i [k0 x]] l IH]; intros ds; simpl; [done|].
  rewrite not_elem_of_cons. simpl. intros [Hne Hnin].
  rewrite IH by done. by apply ODictFacts.get_alter_ne.
Qed.

Lemma assign_get (srt : list (str * DonorStats)) n ds i k x :
  NoDup (ODict.keys srt) → srt !! i = Some (k, x) →
  ODict.get k (assign (imap (λ i kd, (n + i, kd)%nat) srt) ds)
  = set_rank (Z.of_nat (n + i) + 1) <$> ODict.get k ds.
Proof.
  unfold ODict.keys.
  revert n ds i. induction srt as [|[k0 x0] srt IH]; intros n ds i; [done|].
  rewrite fmap_cons, NoDup_cons. simpl. intros [Hk0 Hnd] Hi.
  rewrite (imap_ext _ (λ i kd, (S n + i, kd)%nat))
    by (intros; simpl; f_equal; lia).
  destruct i as [|i]; simpl in Hi.
  - injection Hi as -> ->. rewrite assign_get_other.
    + rewrite ODictFacts.get_alter_eq. simpl. by rewrite Nat.add_0_r.
    + intros ([i' kd] & Hj & Hin)%list_elem_of_fmap.
      simpl in Hj. subst k.
      apply list_elem_of_lookup in Hin as [j Heq].
      apply list_lookup_imap_Some in Heq as (kd' & Hkd' & [= _ ->]).
      apply Hk0. apply list_elem_of_fmap. exists kd'.
      split; [done | by eapply list_elem_of_lookup_2].
  - rewrite (IH (S n) _ i Hnd Hi).
    rewrite ODictFacts.get_alter_ne.
    + do 3 f_equal. lia.
    + intros <-. apply Hk0. apply list_elem_of_fmap. exists (k0, x).
      split; [done | by eapply list_elem_of_lookup_2].
Qed.

Lemma update_rankings_get d j k st :
  NoDup (ODict.keys d) → d !! j = Some (k, st) →
  ODict.get k (update_rankings d)
  = Some (set_rank (rank_at d j (total_value st)) st).
Proof.
  intros Hnd Hj. unfold update_rankings.
  pose proof (sorted_desc_lookup total d j (k, st) Hj) as Hpos.
  assert (NoDup (ODict.keys (PySort.sorted_desc total d))) as Hnd'.
  { unfold ODict.keys. by rewrite (sorted_desc_Permutation total d). }
  pose proof (assign_get _ 0 d _ k st Hnd' Hpos) as Hget.
  rewrite (ODictFacts.elem_get k st d Hnd) in Hget
    by by eapply list_elem_of_lookup_2.
  exact Hget.
Qed.

Lemma count_Forall2 {A B} (p : A → bool) (q : B → bool) l1 l2 :
  Forall2 (λ a b, p a = q b) l1 l2 → count p l1 = count q l2.
Proof. induction 1 as [|a b l1 l2 Hab _ IH]; simpl; [done|]. by rewrite Hab, IH. Qed.

Lemma rank_at_same_entry d d' j v :
  Forall2 same_entry d d' → rank_at d' j v = rank_at d j v.
Proof.
  intros H. unfold rank_at. do 3 f_equal.
  - apply count_Forall2. apply Forall2_flip.
    eapply Forall2_impl; [exact H|].
    intros a b (_ & _ & _ & _ & Hv & _). unfold total. by rewrite Hv.
  - apply count_Forall2. apply Forall2_flip. apply Forall2_take.
    eapply Forall2_impl; [exact H|].
    intros a b (_ & _ & _ & _ & Hv & _). unfold total. by rewrite Hv.
Qed.

(** After [_update_rankings] every donor carries its rank. *)
Lemma update_rankings_ranks d j k st :
  NoDup (ODict.keys d) → update_rankings d !! j = Some (k, st) →
  contribution_rank st = rank_at (update_rankings d) j (total_value st).
Proof.
  intros Hnd Hj.
  pose proof (update_rankings_same_entry d) as Hsame.
  destruct (Forall2_lookup_r _ _ _ _ _ Hsame Hj) as ([k0 st0] & H0 & Hk & Hst).
  simpl in Hk. subst k0.
  pose proof (update_rankings_get d j k st0 Hnd H0) as Hget.
  rewrite (ODictFacts.elem_get k st (update_rankings d)) in Hget.
  - injection Hget as ->. simpl.
    by rewrite (rank_at_same_entry d (update_rankings d)).
  - by rewrite (same_entry_keys d).
  - by eapply list_elem_of_lookup_2.
Qed.

Lemma NoDup_keys_set {V} k (v : V) d :
  NoDup (ODict.keys d) → NoDup (ODict.keys (ODict.set k v d)).
Proof.
  intros Hnd. destruct (decide (k ∈ ODict.keys d)) as [Hin|Hnin].
  - by rewrite ODictFacts.keys_set_in.
  - rewrite ODictFacts.keys_set_notin by done.
    apply NoDup_app. split; [done|]. split; [|apply NoDup_singleton].
    intros x Hx ->%list_elem_of_singleton. done.
Qed.

(** C6, as stated, fails: A and B have the same cumulative value and B was
    last seen earlier, yet A has rank 1 and B rank 2. *)
Lemma tie_not_broken_by_last_gift_time :
  (λ kd, (kd.1, total_value kd.2, last_gift_time kd.2, contribution_rank kd.2))
    <$> donor_stats three_gifts
  = [(PyStr.lit "mock_A", 10%Q, Some 3, 1); (PyStr.lit "mock_B", 10%Q, Some 2, 2)]
  ∧ ¬ ties_by_last_gift_time (donor_stats three_gifts).
Proof.
  split; [by vm_compute|]. intros H.
  specialize (H {| d_user_id := PyStr.lit "B"; d_username := PyStr.lit "B";
                   d_platform := PyStr.lit "mock"; total_value := 10;
                   total_gifts := 1; last_gift_time := Some 2;
                   contribution_rank := 2 |}
                {| d_user_id := PyStr.lit "A"; d_username := PyStr.lit "A";
                   d_platform := PyStr.lit "mock"; total_value := 10;
                   total_gifts := 2; last_gift_time := Some 3;
                   contribution_rank := 1 |} 2 3).
  simpl in H. assert (2 < 1) as Hbad; [|lia]. apply H; try done.
  - apply list_elem_of_lookup. exists 1%nat. by vm_compute.
  - apply list_elem_of_lookup. exists 0%nat. by vm_compute.
Qed.

(** C6, amended: whenever [_update_donor_stats] has changed a donor's
    cumulative value, every donor's rank is the 1-based position in a stable
    descending sort on cumulative value: one more than the number of donors of
    greater value plus the number of donors of equal value that come earlier
    in the dictionary, that is, that sent their first gift earlier. The time of
    the last gift plays no part. *)
Theorem update_donor_stats_ranks gift value now donors j k st :
  NoDup (ODict.keys donors) →
  update_donor_stats gift value now donors !! j = Some (k, st) →
  contribution_rank st
  = rank_at (update_donor_stats gift value now donors) j (total_value st).
Proof.
  intros Hnd. unfold update_donor_stats. apply update_rankings_ranks.
  rewrite ODictFacts.keys_alter.
  destruct (ODict.get _ donors); [done|]. by apply NoDup_keys_set.
Qed.

Lemma update_donor_stats_ranks_witness :
  NoDup (ODict.keys (donor_stats (process_gift (gift_of "B" 10) 2 2
            (process_gift (gift_of "A" 5) 1 1 new_processor).1).1)) ∧
  ∃ st, ODict.get (PyStr.lit "mock_B") (donor_stats three_gifts) = Some st ∧
        contribution_rank st = rank_at (donor_stats three_gifts) 1 (total_value st).
Proof.
  assert (NoDup (ODict.keys (donor_stats (process_gift (gift_of "B" 10) 2 2
            (process_gift (gift_of "A" 5) 1 1 new_processor).1).1))) as Hnd.
  { vm_compute. apply NoDup_cons. split.
    - intros H%list_elem_of_singleton. discriminate H.
    - apply NoDup_singleton. }
  split; [exact Hnd|].
  eexists. split; [by vm_compute|].
  apply (update_donor_stats_ranks (gift_of "A" 5)
           (gift_value (gift_of "A" 5) * inject_Z 1)%Q 3 _ 1 (PyStr.lit "mock_B") _ Hnd).
  by vm_compute.
Defined.

End GiftFacts.

(** ** The leaderboard *)

Module BoardFacts.
Import Board BoardSpec.

(** *** Saving and loading *)

Lemma LeaderboardEntry_of_asdict now e : LeaderboardEntry_of now (asdict e) = Some e.
Proof. destruct e. vm_compute. reflexivity. Qed.

Lemma load_entries_asdict now board :
  load_entries now ((λ kkvv, (kkvv.1, asdict kkvv.2)) <$> board) = Some board.
Proof.
  induction board as [|[k e] board IH]; [done|].
  rewrite fmap_cons. cbn [load_entries fst snd].
  by rewrite LeaderboardEntry_of_asdict, IH.
Qed.

Lemma load_saved_boards now now' lb :
  ODict.keys (boards lb) = board_keys →
  boards (new_leaderboard (file (save lb)) now') = boards lb
  ∧ boards (load now (save lb)) = boards lb.
Proof.
  intros Hkeys.
  destruct lb as [bs gs h f]. simpl in Hkeys.
  destruct bs as [|[k1 b1] [|[k2 b2] [|[k3 b3] [|? ?]]]]; try discriminate Hkeys.
  injection Hkeys as -> -> ->.
  assert (∀ t bs0,
    ODict.keys bs0 = board_keys →
    boards (load t {| boards := bs0; game_stats := GameStats_new t; history := [];
                      file := Some (save_data
                        {| boards := [(value CONTRIBUTION, b1);
                                      (value VOTE_PARTICIPATION, b2);
                                      (value LUCKY, b3)];
                           game_stats := gs; history := h; file := f |}) |})
    = [(value CONTRIBUTION, b1); (value VOTE_PARTICIPATION, b2); (value LUCKY, b3)]
    ∧ ∀ gs0 h0,
    boards (load t {| boards := bs0; game_stats := gs0; history := h0;
                      file := Some (save_data
                        {| boards := [(value CONTRIBUTION, b1);
                                      (value VOTE_PARTICIPATION, b2);
                                      (value LUCKY, b3)];
                           game_stats := gs; history := h; file := f |}) |})
    = [(value CONTRIBUTION, b1); (value VOTE_PARTICIPATION, b2); (value LUCKY, b3)])
    as Hload.
  { intros t bs0 Hk0.
    destruct bs0 as [|[k1 c1] [|[k2 c2] [|[k3 c3] [|? ?]]]]; try discriminate Hk0.
    injection Hk0 as -> -> ->.
    assert (∀ gs0 h0,
      boards (load t {| boards := [(value CONTRIBUTION, c1);
                                   (value VOTE_PARTICIPATION, c2);
                                   (value LUCKY, c3)];
                        game_stats := gs0; history := h0;
                        file := Some (save_data
                          {| boards := [(value CONTRIBUTION, b1);
                                        (value VOTE_PARTICIPATION, b2);
                                        (value LUCKY, b3)];
                             game_stats := gs; history := h; file := f |}) |})
      = [(value CONTRIBUTION, b1); (value VOTE_PARTICIPATION, b2); (value LUCKY, b3)])
      as Hgen; [|by split].
    intros gs0 h0. unfold load, save_data.
    cbn [file boards game_stats history fmap list_fmap fst snd].
    change (ODict.get (PyStr.lit "boards") _) with
      (Some (JObj [(value CONTRIBUTION, JObj ((λ kkvv, (kkvv.1, asdict kkvv.2)) <$> b1));
                   (value VOTE_PARTICIPATION, JObj ((λ kkvv, (kkvv.1, asdict kkvv.2)) <$> b2));
                   (value LUCKY, JObj ((λ kkvv, (kkvv.1, asdict kkvv.2)) <$> b3))])).
    cbn [load_boards].
    change (ODict.get (value CONTRIBUTION) _) with (Some c1).
    cbn iota. rewrite load_entries_asdict.
    change (ODict.set (value CONTRIBUTION) b1 _) with
      [(value CONTRIBUTION, b1); (value VOTE_PARTICIPATION, c2); (value LUCKY, c3)].
    change (ODict.get (value VOTE_PARTICIPATION) _) with (Some c2).
    cbn iota. rewrite load_entries_asdict.
    change (ODict.set (value VOTE_PARTICIPATION) b2 _) with
      [(value CONTRIBUTION, b1); (value VOTE_PARTICIPATION, b2); (value LUCKY, c3)].
    change (ODict.get (value LUCKY) _) with (Some c3).
    cbn iota. rewrite load_entries_asdict.
    change (ODict.set (value LUCKY) b3 _) with
      [(value CONTRIBUTION, b1); (value VOTE_PARTICIPATION, b2); (value LUCKY, b3)].
    cbn iota.
    by destruct (match ODict.get (PyStr.lit "game_stats") _ with
                 | Some (JObj kw) => GameStats_of t kw
                 | Some _ => None
                 | None => Some gs0
                 end). }
  split.
  - unfold new_leaderboard. apply (Hload now'). done.
  - unfold save. cbn [boards game_stats history file].
    apply (proj2 (Hload now [(value CONTRIBUTION, b1); (value VOTE_PARTICIPATION, b2);
                             (value LUCKY, b3)] eq_refl)).
Qed.



(** *** Vote participation *)

Lemma plus_one_ok x : counter_ok x → is_Some (plus_one (default (JNum 0) x)).
Proof. destruct x as [[]|]; simpl; by eauto. Qed.

Lemma vote_ne_lucky : value VOTE_PARTICIPATION ≠ value LUCKY.
Proof. intros H. vm_compute in H. discriminate H. Qed.

Lemma total_ne_correct : PyStr.lit "total_votes" ≠ PyStr.lit "correct_votes".
Proof. intros H. vm_compute in H. discriminate H. Qed.



End BoardFacts.

(** ** The option parser *)

Module StoryFacts.
Import Story.

Section parse.
Variable findall : pattern → str → list str.
Variable match_group1 : pattern → str → option str.
Variable sub_empty : pattern → str → str.

Lemma omap_nil {A B} (f : A → option B) l :
  (∀ x, x ∈ l → f x = None) → omap f l = [].
Proof.
  induction l as [|x l IH]; [done|]. intros H. simpl.
  rewrite (H x) by left. apply IH. intros y Hy. apply H. by right.
Qed.

(** The options returned are the tagged ones, else the numbered ones, else
    the defaults. *)
Lemma parse_story_response_cases response :
  (parse_story_response findall match_group1 sub_empty response).2
  = match tagged_options findall response with
    | _ :: _ => tagged_options findall response
    | [] =>
        match numbered_options match_group1 response with
        | _ :: _ => numbered_options match_group1 response
        | [] => default_options
        end
    end.
Proof.
  unfold parse_story_response. simpl.
  destruct (tagged_options findall response); [|done].
  by destruct (numbered_options match_group1 response).
Qed.

End parse.

(** C9: whatever the response and whatever the regular expressions find in
    it, the option list returned is not empty; when the tag pattern finds
    nothing and no line matches the numbered pattern, it is the fixed default
    set of three options. *)
Theorem parse_story_response_never_empty findall match_group1 sub_empty response :
  let options :=
    (parse_story_response findall match_group1 sub_empty response).2 in
  options ≠ [] ∧
  (findall option_pattern response = [] →
   (∀ line, line ∈ split_lines response →
            match_group1 option_pattern2 (PyStr.strip line) = None) →
   options = default_options).
Proof.
  cbv zeta. rewrite parse_story_response_cases. split.
  - destruct (tagged_options findall response); [|done].
    by destruct (numbered_options match_group1 response).
  - intros Hnone Hlines. unfold tagged_options. rewrite Hnone. simpl.
    unfold numbered_options. rewrite omap_nil; [done|].
    intros line Hline. by rewrite (Hlines line Hline).
Qed.

(** A response without tags and without numbered lines, read by a regular
    expression engine that, rightly, finds nothing in it. *)
Lemma parse_story_response_never_empty_witness :
  (parse_story_response (λ _ _, []) (λ _ _, None) (λ _ s, s)
     (PyStr.lit "The path ends at a cliff.")).2
  = default_options.
Proof.
  apply (proj2 (parse_story_response_never_empty (λ _ _, []) (λ _ _, None)
                  (λ _ s, s) (PyStr.lit "The path ends at a cliff."))).
  - reflexivity.
  - intros line _. reflexivity.
Defined.

End StoryFacts.

(** ** The combat counters *)

Module PlayerFacts.
Import Player PlayerSpec.

(** C10, as stated, fails: a negative amount takes the counters out of their
    bounds. *)
Lemma negative_amount_leaves_bounds :
  in_bounds spent ∧ in_bounds full ∧
  ¬ in_bounds (heal (-1) spent).1 ∧
  ¬ in_bounds (restore_mp (-1) spent).1 ∧
  ¬ in_bounds (take_damage (-1) full).1.
Proof.
  unfold in_bounds. simpl. repeat split; try lia.
  all: intros [? ?]; lia.
Qed.

(** C10, amended: for a player within bounds and an amount that is not
    negative, [heal] and [restore_mp] stop at the maximum and return what was
    restored, [take_damage] stops at 0 and tells whether [hp] reached 0, and
    each of the three leaves the player within bounds. *)
Theorem counters_stay_in_bounds p amount :
  in_bounds p → 0 ≤ amount →
  (let r := heal amount p in
   hp r.1 = Z.min (max_hp p) (hp p + amount) ∧
   r.2 = Z.min (max_hp p) (hp p + amount) - hp p ∧
   0 ≤ r.2 ≤ amount ∧ mp r.1 = mp p ∧ max_hp r.1 = max_hp p ∧ in_bounds r.1) ∧
  (let r := restore_mp amount p in
   mp r.1 = Z.min (max_mp p) (mp p + amount) ∧
   r.2 = Z.min (max_mp p) (mp p + amount) - mp p ∧
   0 ≤ r.2 ≤ amount ∧ hp r.1 = hp p ∧ max_mp r.1 = max_mp p ∧ in_bounds r.1) ∧
  (let r := take_damage amount p in
   hp r.1 = Z.max 0 (hp p - amount) ∧
   (r.2 = true ↔ hp r.1 = 0) ∧
   mp r.1 = mp p ∧ max_hp r.1 = max_hp p ∧ in_bounds r.1).
Proof.
  unfold in_bounds. intros [Hhp Hmp] Hamount. simpl.
  repeat split; lia.
Qed.

Lemma counters_stay_in_bounds_witness :
  in_bounds hurt ∧
  (heal 80 hurt).2 = 50 ∧ (restore_mp 10 hurt).2 = 10 ∧
  (take_damage 120 hurt).2 = true ∧ in_bounds (take_damage 120 hurt).1.
Proof.
  assert (in_bounds hurt) as Hb by (unfold in_bounds; simpl; lia).
  split; [exact Hb|].
  pose proof (counters_stay_in_bounds hurt 80 Hb ltac:(lia)) as (Hh & _ & _).
  pose proof (counters_stay_in_bounds hurt 10 Hb ltac:(lia)) as (_ & Hm & _).
  pose proof (counters_stay_in_bounds hurt 120 Hb ltac:(lia)) as (_ & _ & Hd).
  cbv zeta in Hh, Hm, Hd.
  destruct Hh as (_ & Hh & _). destruct Hm as (_ & Hm & _).
  destruct Hd as (Hd1 & Hd2 & _ & _ & Hd3).
  split; [by rewrite Hh|]. split; [by rewrite Hm|].
  split; [|exact Hd3]. apply Hd2. by rewrite Hd1.
Defined.

End PlayerFacts.

(** ** More of the vote manager *)

Module VoteMoreFacts.
Import Vote VoteSpec VoteMore VoteFacts.

(** *** The remaining time *)

Lemma py_int_nonneg x : (0 <= x)%Q → py_int x = Qfloor x.
Proof.
  intros Hx. unfold py_int, Qfloor. destruct x as [n d]. simpl.
  apply Z.quot_div_nonneg; [|done].
  unfold Qle in Hx. simpl in Hx. lia.
Qed.

Lemma py_int_neg x : (x <= 0)%Q → py_int x = Qceiling x.
Proof.
  intros Hx. unfold py_int, Qceiling, Qfloor. destruct x as [n d]. simpl.
  unfold Qle in Hx. simpl in Hx.
  assert (n ≤ 0) as Hn by lia.
  rewrite <- (Z.opp_involutive n) at 1. rewrite Z.quot_opp_l by done.
  f_equal. apply Z.quot_div_nonneg; lia.
Qed.

Lemma py_int_mono x y : (x <= y)%Q → py_int x ≤ py_int y.
Proof.
  intros Hxy.
  destruct (Qlt_le_dec x 0) as [Hx|Hx]; destruct (Qlt_le_dec y 0) as [Hy|Hy].
  - rewrite !py_int_neg by by apply Qlt_le_weak. by apply Qceiling_resp_le.
  - rewrite py_int_neg by by apply Qlt_le_weak.
    rewrite py_int_nonneg by done.
    assert (Qceiling x ≤ 0).
    { change 0 with (Qceiling 0). apply Qceiling_resp_le. by apply Qlt_le_weak. }
    assert (0 ≤ Qfloor y).
    { change 0 with (Qfloor 0). by apply Qfloor_resp_le. }
    lia.
  - exfalso. apply (Qlt_not_le y 0 Hy). by eapply Qle_trans.
  - rewrite !py_int_nonneg by done. by apply Qfloor_resp_le.
Qed.

Lemma py_int_inject z : py_int (inject_Z z) = z.
Proof. unfold py_int. simpl. apply Z.quot_1_r. Qed.

(** X1: The remaining time is never negative and is 0 for a closed session.
    While the clock has not gone back behind the start, it is at most the
    duration, it does not grow, and it is 0 once the duration has passed. *)
Theorem get_remaining_time_counts_down now now' m start :
  vote_start_time m = Some start → (start <= now)%Q → (now <= now')%Q →
  0 ≤ get_remaining_time now m ∧
  get_remaining_time now m ≤ Z.max 0 (vote_duration m) ∧
  get_remaining_time now' m ≤ get_remaining_time now m ∧
  (voting_active m = false → get_remaining_time now m = 0) ∧
  ((start + inject_Z (vote_duration m) <= now)%Q → get_remaining_time now m = 0).
Proof.
  intros Hstart Hnow Hlater. unfold get_remaining_time. rewrite Hstart.
  destruct (voting_active m); simpl; [|by repeat split; try lia].
  destruct (Qeq_bool start 0); [by repeat split; try lia|].
  assert (0 ≤ py_int (now - start)) as H0.
  { rewrite <- (py_int_inject 0). apply py_int_mono.
    change (inject_Z 0) with 0%Q. unfold Qminus. rewrite <- (Qplus_opp_r start).
    by apply Qplus_le_l. }
  assert (py_int (now - start) ≤ py_int (now' - start)) as Hmono.
  { apply py_int_mono. unfold Qminus. by apply Qplus_le_l. }
  repeat split; try lia.
  intros Hpast.
  assert (vote_duration m ≤ py_int (now - start)) as Hd; [|lia].
  rewrite <- (py_int_inject (vote_duration m)). apply py_int_mono.
  apply (Qplus_le_l _ _ start). unfold Qminus.
  rewrite <- Qplus_assoc, (Qplus_comm (- start)), Qplus_opp_r, Qplus_0_r.
  by rewrite Qplus_comm.
Qed.

Lemma get_remaining_time_counts_down_witness :
  get_remaining_time 104 timed_session = 11 ∧
  get_remaining_time (231 # 2) timed_session = 0.
Proof.
  destruct (get_remaining_time_counts_down 104 (231 # 2) timed_session 100
              eq_refl ltac:(done) ltac:(done)) as (_ & _ & _ & _ & _).
  destruct (get_remaining_time_counts_down (231 # 2) (231 # 2) timed_session 100
              eq_refl ltac:(done) ltac:(done)) as (_ & _ & _ & _ & Hz).
  split; [reflexivity|]. apply Hz. done.
Defined.

(** *** Counting the voters *)

Lemma voters_cons k b vs : voters ((k, b) :: vs) = dom b ∪ voters vs.
Proof. done. Qed.

Lemma elem_of_voters uid vs :
  uid ∈ voters vs ↔ ∃ kv, kv ∈ vs ∧ is_Some (kv.2 !! uid).
Proof.
  unfold voters. rewrite elem_of_union_list. split.
  - intros (X & HX & Huid). apply list_elem_of_fmap in HX as (kv & -> & Hkv).
    exists kv. split; [done|]. by apply elem_of_dom.
  - intros (kv & Hkv & Huid). exists (dom kv.2). split.
    + apply list_elem_of_fmap. by exists kv.
    + by apply elem_of_dom.
Qed.

Lemma at_most_one_tail kv vs : at_most_one (kv :: vs) → at_most_one vs.
Proof.
  intros H uid. specialize (H uid). unfold holders in *.
  destruct (decide (is_Some (kv.2 !! uid))).
  - rewrite filter_cons_True in H by done. simpl in H. lia.
  - by rewrite filter_cons_False in H.
Qed.

Lemma at_most_one_sum vs :
  at_most_one vs → sum_list (tally_of vs) = size (voters vs).
Proof.
  unfold tally_of. induction vs as [|[k b] vs IH]; [done|].
  intros Hone. rewrite fmap_cons, voters_cons. simpl.
  rewrite size_union, size_dom, IH; [done|by eapply at_most_one_tail|].
  intros uid Hb [kv [Hkv Hin]]%elem_of_voters.
  apply elem_of_dom in Hb.
  specialize (Hone uid). unfold holders in Hone.
  rewrite filter_cons_True in Hone by done. simpl in Hone.
  assert (kv ∈ filter (λ kv, is_Some (kv.2 !! uid)) vs) as Hf
    by by apply list_elem_of_filter.
  destruct (filter _ vs); [by apply elem_of_nil in Hf | simpl in Hone; lia].
Qed.

(** X2: Whatever is called on a new manager, in whatever order, nothing is
    raised and the counts of the options add up to the number of viewers who
    hold a ballot: nobody is counted twice. *)
Theorem counts_add_up_to_voters duration cs :
  ∃ w, run (world0 duration) cs = Ok w ∧
       sum_list (snd <$> get_vote_counts (mgr w)) = size (voters (votes (mgr w))).
Proof.
  destruct (run_session_ok duration cs) as (w & Hrun & _ & Hone).
  exists w. split; [done|].
  rewrite <- (at_most_one_sum _ Hone). f_equal.
  unfold get_vote_counts, tally_of. by rewrite <- list_fmap_compose.
Qed.

(** *** The first vote of a viewer *)

Lemma holders_nil_get uid vs k b :
  holders uid vs = [] → ODict.get k vs = Some b → b !! uid = None.
Proof.
  intros Hh Hget. apply ODictFacts.get_Some_elem in Hget.
  apply eq_None_not_Some. intros Hin.
  assert ((k, b) ∈ holders uid vs) as Hf by by apply list_elem_of_filter.
  rewrite Hh in Hf. by apply elem_of_nil in Hf.
Qed.

Lemma scan_patterns_new_voter vs uid uname content key ps b :
  ODict.get key vs = Some b → b !! uid = None →
  existsb (matches content) ps = true →
  scan_patterns vs uid uname content key ps
  = Ok (Some (record_ballot key uid uname vs)).
Proof.
  intros Hb Hnone. induction ps as [|p ps IH]; simpl; [done|].
  destruct (matches content p); simpl; [|exact IH].
  intros _. rewrite Hb. rewrite decide_False; [done|].
  rewrite Hnone. by intros [? ?].
Qed.

(** X3: For a viewer who holds no ballot, [process_danmaku] follows the rule of
    first match: the ballot goes to the first option, in their order, one of
    whose patterns the stripped text equals or begins with, and a text that
    fits no pattern leaves everything as it is. *)
Theorem new_voter_first_match msg m :
  voting_active m = true →
  ODict.keys (option_patterns m) ⊆ ODict.keys (votes m) →
  holders (user_id msg) (votes m) = [] →
  process_danmaku msg m
  = Ok match first_match (PyStr.strip (content msg)) (option_patterns m) with
       | Some key =>
           (set_votes m (record_ballot key (user_id msg) (username msg) (votes m)),
            Some key)
       | None => (m, None)
       end.
Proof.
  intros Hactive Hsub Hnone. unfold process_danmaku. rewrite Hactive. simpl.
  assert (scan_options (votes m) (user_id msg) (username msg)
            (PyStr.strip (content msg)) (option_patterns m)
          = Ok ((λ key, (key, record_ballot key (user_id msg) (username msg) (votes m)))
                  <$> first_match (PyStr.strip (content msg)) (option_patterns m)))
    as ->.
  { unfold first_match.
    induction (option_patterns m) as [|[k ps] opts IH]; [done|]. simpl.
    destruct (existsb (matches (PyStr.strip (content msg))) ps) eqn:Hex.
    - destruct (ODict.get k (votes m)) as [b|] eqn:Hb.
      + by rewrite (scan_patterns_new_voter _ _ _ _ _ _ b Hb
                      (holders_nil_get _ _ _ _ Hnone Hb) Hex).
      + apply ODictFacts.get_None in Hb. exfalso. apply Hb, Hsub. left.
    - rewrite scan_patterns_no_match by done. apply IH.
      intros x Hx. apply Hsub. by right. }
  by destruct (first_match _ _).
Qed.

Lemma new_voter_first_match_witness :
  process_danmaku (msg "b" "  12 for me ") (mgr ten_options)
  = Ok (set_votes (mgr ten_options)
          (record_ballot (PyStr.lit "1") (PyStr.lit "b") (PyStr.lit "b")
             (votes (mgr ten_options))),
        Some (PyStr.lit "1")).
Proof.
  rewrite (new_voter_first_match (msg "b" "  12 for me ") (mgr ten_options)).
  - reflexivity.
  - reflexivity.
  - by vm_compute.
  - by vm_compute.
Defined.

(** *** A closed session *)

(** X4: Once a session is closed, chat messages and timers that wake up change
    neither the ballots nor anything else of the manager, and call no
    callback, until the next [start_vote]. *)
Theorem closed_session_frozen w cs :
  voting_active (mgr w) = false → forallb passive cs = true →
  ∃ w', run w cs = Ok w' ∧ mgr w' = mgr w ∧ fired w' = fired w.
Proof.
  revert w. induction cs as [|c cs IH]; intros w Hclosed Hcs; [by exists w|].
  simpl in Hcs. apply andb_true_iff in Hcs as [Hc Hcs].
  destruct c as [| msg | |]; try discriminate Hc; simpl.
  - unfold process_danmaku. rewrite Hclosed. simpl.
    destruct (IH {| mgr := mgr w; timers := timers w; fired := fired w |}
                Hclosed Hcs) as (w' & Hrun & Hm & Hf).
    by exists w'.
  - destruct (timers w) eqn:Ht; [by apply IH|].
    unfold vote_timer. rewrite Hclosed.
    destruct (IH {| mgr := mgr w; timers := Init.Nat.pred (timers w);
                    fired := fired w |}
                Hclosed Hcs) as (w' & Hrun & Hm & Hf).
    by exists w'.
Qed.

Lemma closed_session_frozen_witness :
  ∃ w', run (end_vote open_session).1
          [Danmaku (msg "b" "2"); TimerExpiry; Danmaku (msg "a" "3")] = Ok w' ∧
        votes (mgr w') = votes (mgr open_session) ∧
        length (fired w') = 1%nat.
Proof.
  destruct (closed_session_frozen (end_vote open_session).1
              [Danmaku (msg "b" "2"); TimerExpiry; Danmaku (msg "a" "3")]
              eq_refl eq_refl) as (w' & Hrun & Hm & Hf).
  exists w'. split; [exact Hrun|]. by rewrite Hm, Hf.
Defined.

End VoteMoreFacts.

(** ** More of the gift processor *)

Module GiftMoreFacts.
Import PySort Gift GiftSpec GiftMore PySortFacts GiftFacts.

(** *** The tiers by value *)

Lemma sorted_tiers :
  Some <$> sorted_desc min_value (ODict.values GIFT_EFFECTS)
  = [tier "resurrection"; tier "breakthrough_chance"; tier "rename";
     tier "attribute_boost"; tier "cultivation_large"; tier "hp_boost";
     tier "mp_boost"; tier "cultivation_medium"; tier "cultivation_small"].
Proof. by vm_compute. Qed.

Ltac q_order :=
  repeat match goal with
         | H : qlt _ _ = true |- _ => apply qlt_spec in H
         | H : qlt _ _ = false |- _ => apply qlt_false in H
         end;
  lra.

(** [_determine_effect] as a table of thresholds. *)
Lemma determine_effect_table V :
  determine_effect V
  = if qlt V (1 # 10) then None
    else if qlt V 1 then tier "cultivation_small"
    else if qlt V 5 then tier "cultivation_medium"
    else if qlt V 10 then tier "hp_boost"
    else if qlt V 20 then tier "cultivation_large"
    else if qlt V 50 then tier "attribute_boost"
    else if qlt V 100 then tier "rename"
    else if qlt V 200 then tier "breakthrough_chance"
    else tier "resurrection".
Proof.
  unfold determine_effect.
  set (l := sorted_desc min_value (ODict.values GIFT_EFFECTS)).
  vm_compute in l. subst l. cbn [find min_value].
  repeat match goal with
         | |- context [qlt V ?c] => destruct (qlt V c) eqn:?; cbn [negb]
         end;
    first [ by vm_compute | exfalso; q_order ].
Qed.

(** X5: The tier of a gift, by its total value: nothing below 0.1, then the tiers
    in the order of their thresholds. Of the two tiers declared at 5 the
    earlier wins the whole range up to 10. *)
Theorem determine_effect_by_value (V : Q) :
  ((V < 1 # 10)%Q → determine_effect V = None) ∧
  ((1 # 10 <= V)%Q → (V < 1)%Q → determine_effect V = tier "cultivation_small") ∧
  ((1 <= V)%Q → (V < 5)%Q → determine_effect V = tier "cultivation_medium") ∧
  ((5 <= V)%Q → (V < 10)%Q → determine_effect V = tier "hp_boost") ∧
  ((10 <= V)%Q → (V < 20)%Q → determine_effect V = tier "cultivation_large") ∧
  ((20 <= V)%Q → (V < 50)%Q → determine_effect V = tier "attribute_boost") ∧
  ((50 <= V)%Q → (V < 100)%Q → determine_effect V = tier "rename") ∧
  ((100 <= V)%Q → (V < 200)%Q → determine_effect V = tier "breakthrough_chance") ∧
  ((200 <= V)%Q → determine_effect V = tier "resurrection").
Proof.
  rewrite determine_effect_table.
  repeat split; intros;
    repeat match goal with
           | |- context [qlt V ?c] => destruct (qlt V c) eqn:?
           end;
    first [ done | exfalso; q_order ].
Qed.

Lemma determine_effect_by_value_witness :
  determine_effect 7 = tier "hp_boost" ∧ determine_effect 250 = tier "resurrection".
Proof.
  pose proof (determine_effect_by_value 7) as (_ & _ & _ & H7 & _).
  pose proof (determine_effect_by_value 250) as (_ & _ & _ & _ & _ & _ & _ & _ & H250).
  split; [apply H7; lra|apply H250; lra].
Defined.

(** X6: No gift, whatever its value, triggers the tier [mp_boost]. *)
Theorem mp_boost_never_triggered V : determine_effect V ≠ tier "mp_boost".
Proof.
  rewrite determine_effect_table.
  repeat match goal with
         | |- context [qlt V ?c] => destruct (qlt V c)
         end;
    intros H; vm_compute in H; discriminate H.
Qed.

(** *** The rename privilege *)

Lemma grants_rename_by_value V :
  grants_rename (determine_effect V) = negb (qlt V 50) && qlt V 100.
Proof.
  rewrite determine_effect_table.
  repeat match goal with
         | |- context [qlt V ?c] => destruct (qlt V c) eqn:?; cbn [negb andb]
         end;
    first [ by vm_compute | exfalso; q_order ].
Qed.


(** *** The queue of pending effects *)

Lemma process_gifts_snoc gifts g p :
  process_gifts (gifts ++ [g]) p
  = (process_gift g.1.1 g.1.2 g.2 (process_gifts gifts p)).1.
Proof. unfold process_gifts. by rewrite foldl_snoc. Qed.

Lemma pending_effects_process_gift gift now now' p :
  pending_effects (process_gift gift now now' p).1
  = pending_effects p ++ option_list (queued gift).
Proof.
  unfold process_gift, queued, total_of.
  destruct (determine_effect _); simpl; by rewrite ?app_nil_r.
Qed.


(** *** The recent gifts *)

(** X9: For a positive limit [get_recent_gifts] returns the newest records, at
    most [limit] of them, the newest first. A limit of 0 returns all records,
    and a negative limit all but the oldest [-limit]. *)
Theorem get_recent_gifts_newest_first limit p :
  get_recent_gifts limit p
  = if (0 <? limit)%Z then take (Z.to_nat limit) (reverse (records p))
    else reverse (drop (Z.to_nat (- limit)) (records p)).
Proof.
  unfold get_recent_gifts, slice_from.
  destruct (Z.ltb_spec 0 limit) as [Hpos|Hneg].
  - rewrite (proj2 (Z.leb_gt 0 (- limit))) by lia.
    rewrite Z.opp_involutive. by rewrite take_reverse.
  - by rewrite (proj2 (Z.leb_le 0 (- limit))) by lia.
Qed.

(** *** The donors over many gifts *)

Lemma donor_stats_process_gift gift now now' p :
  donor_stats (process_gift gift now now' p).1
  = update_donor_stats gift (total_of gift) now (donor_stats p).
Proof. unfold process_gift, total_of. by destruct (determine_effect _). Qed.

Lemma update_donor_stats_keys gift value now donors :
  NoDup (ODict.keys donors) →
  NoDup (ODict.keys (update_donor_stats gift value now donors)).
Proof.
  intros Hnd. unfold update_donor_stats.
  rewrite (same_entry_keys _ _ (update_rankings_same_entry _)).
  rewrite ODictFacts.keys_alter.
  destruct (ODict.get _ donors); [done|]. by apply NoDup_keys_set.
Qed.

Lemma update_donor_stats_get_other gift value now donors key :
  key ≠ donor_key (platform gift) (user_id gift) →
  match ODict.get key donors,
        ODict.get key (update_donor_stats gift value now donors) with
  | Some a, Some b => same_donor a b
  | None, None => True
  | _, _ => False
  end.
Proof.
  intros Hne. unfold update_donor_stats.
  set (d2 := ODict.alter _ _ _).
  pose proof (same_entry_get d2 (update_rankings d2) key
                (update_rankings_same_entry d2)) as Hget.
  assert (ODict.get key d2 = ODict.get key donors) as Hd2.
  { unfold d2. rewrite ODictFacts.get_alter_ne by done.
    destruct (ODict.get _ donors); [done|].
    by rewrite ODictFacts.get_set_ne. }
  by rewrite Hd2 in Hget.
Qed.

Lemma gifts_of_snoc key gifts g :
  gifts_of key (gifts ++ [g])
  = gifts_of key gifts
    ++ if decide (donor_key (platform g.1.1) (user_id g.1.1) = key) then [g] else [].
Proof.
  unfold gifts_of. rewrite filter_app. f_equal.
Qed.


(** *** Ranks and the top donors *)

Lemma ranked_nil : ranked [].
Proof. split; [constructor|]. by intros j k st. Qed.

Lemma ranked_update_donor_stats gift value now donors :
  NoDup (ODict.keys donors) → ranked (update_donor_stats gift value now donors).
Proof.
  intros Hnd. split; [by apply update_donor_stats_keys|].
  intros j k st. unfold update_donor_stats. apply update_rankings_ranks.
  rewrite ODictFacts.keys_alter.
  destruct (ODict.get _ donors); [done|]. by apply NoDup_keys_set.
Qed.

Lemma ranked_process_gifts gifts :
  ranked (donor_stats (process_gifts gifts new_processor)).
Proof.
  induction gifts as [|g gifts IH] using rev_ind; [apply ranked_nil|].
  rewrite process_gifts_snoc, donor_stats_process_gift.
  apply ranked_update_donor_stats, IH.
Qed.

(** In the sorted list a ranked donor stands at the place of its rank. *)
Lemma ranked_sorted_lookup d i k st :
  ranked d → sorted_desc total d !! i = Some (k, st) →
  contribution_rank st = Z.of_nat i + 1.
Proof.
  intros [Hnd Hrank] Hi.
  assert ((k, st) ∈ d) as Hin.
  { rewrite <- (sorted_desc_Permutation total d). by eapply list_elem_of_lookup_2. }
  apply list_elem_of_lookup in Hin as [j Hj].
  pose proof (sorted_desc_lookup total d j (k, st) Hj) as Hpos.
  assert (NoDup (sorted_desc total d)) as Hnd'.
  { rewrite (sorted_desc_Permutation total d). by eapply NoDup_fmap_1. }
  rewrite (Hrank j k st Hj). unfold rank_at. do 2 f_equal.
  symmetry. by eapply NoDup_lookup.
Qed.

Lemma insert_desc_fmap {A B} (f : B → Q) (g : A → B) x l :
  insert_desc f (g x) (g <$> l) = g <$> insert_desc (f ∘ g) x l.
Proof.
  induction l as [|y l IH]; [done|]. simpl.
  destruct (qlt (f (g x)) (f (g y))); [|done]. simpl. f_equal. apply IH.
Qed.

Lemma sorted_desc_fmap {A B} (f : B → Q) (g : A → B) l :
  sorted_desc f (g <$> l) = g <$> sorted_desc (f ∘ g) l.
Proof.
  induction l as [|x l IH]; [done|]. rewrite fmap_cons. simpl.
  by rewrite IH, insert_desc_fmap.
Qed.

(** X11: After any gifts received by a new processor, the ranks of the donors are
    the numbers from 1 to the number of donors, each once. *)
Theorem ranks_are_1_to_n gifts :
  (λ kd, contribution_rank kd.2) <$> donor_stats (process_gifts gifts new_processor)
  ≡ₚ (λ i, Z.of_nat i + 1) <$> seq 0 (length (donor_stats (process_gifts gifts new_processor))).
Proof.
  pose proof (ranked_process_gifts gifts) as Hr.
  set (d := donor_stats (process_gifts gifts new_processor)) in *.
  rewrite <- (sorted_desc_Permutation total d) at 1.
  assert ((λ kd, contribution_rank kd.2) <$> sorted_desc total d
          = (λ i, Z.of_nat i + 1) <$> seq 0 (length d)) as ->; [|done].
  apply list_eq. intros i. rewrite !list_lookup_fmap.
  destruct (sorted_desc total d !! i) as [[k st]|] eqn:Hi; simpl.
  - rewrite (ranked_sorted_lookup d i k st Hr Hi).
    apply lookup_lt_Some in Hi.
    rewrite (Permutation_length (sorted_desc_Permutation total d)) in Hi.
    by rewrite lookup_seq_lt.
  - apply lookup_ge_None in Hi.
    rewrite (Permutation_length (sorted_desc_Permutation total d)) in Hi.
    by rewrite lookup_seq_ge.
Qed.

(** X12: After any gifts received by a new processor, [get_top_donors] lists the
    donors by their ranks: the donor it returns at position [i], counted from
    0, has the rank [i + 1]. *)
Theorem get_top_donors_by_rank gifts limit i st :
  get_top_donors limit (process_gifts gifts new_processor) !! i = Some st →
  contribution_rank st = Z.of_nat i + 1.
Proof.
  unfold get_top_donors, Board.slice_to, ODict.values.
  rewrite (sorted_desc_fmap total_value snd). intros Hi.
  assert ((snd <$> sorted_desc total
             (donor_stats (process_gifts gifts new_processor))) !! i = Some st)
    as Hs.
  { destruct (0 <=? limit); by apply lookup_take_Some in Hi as [? _]. }
  rewrite list_lookup_fmap in Hs.
  destruct (sorted_desc total _ !! i) as [[k st']|] eqn:Hk; [|done].
  injection Hs as <-.
  by apply (ranked_sorted_lookup _ i k st' (ranked_process_gifts gifts)).
Qed.

Lemma get_top_donors_by_rank_witness :
  ∃ st, get_top_donors 10 three_gifts !! 1%nat = Some st ∧
        d_user_id st = PyStr.lit "B" ∧ contribution_rank st = 2.
Proof.
  eexists. split; [by vm_compute|]. split; [reflexivity|].
  apply (get_top_donors_by_rank
           [(gift_of "A" 5, 1, 1); (gift_of "B" 10, 2, 2); (gift_of "A" 5, 3, 3)]
           10 1).
  by vm_compute.
Defined.

End GiftMoreFacts.

(** ** More of the leaderboard *)

Module BoardMoreFacts.
Import PySort Board BoardSpec BoardMore PySortFacts BoardFacts.

(** *** Loading any file *)

Lemma load_boards_keys now items bs :
  ODict.keys (load_boards now items bs).1 = ODict.keys bs.
Proof.
  revert bs. induction items as [|[board_type entries] items IH]; intros bs; [done|].
  simpl. destruct (ODict.get board_type bs) as [b|] eqn:Hb; [|apply IH].
  destruct entries; try done.
  destruct (load_entries now members); [|done].
  rewrite IH. apply ODictFacts.keys_set_in.
  destruct (decide (board_type ∈ ODict.keys bs)) as [|Hn]; [done|].
  apply ODictFacts.get_None in Hn. congruence.
Qed.

(** X13: Whatever the file holds, loading adds no board and removes none: a
    leaderboard built over any file has the three boards of [__init__]. *)
Theorem load_keeps_the_boards f now :
  ODict.keys (boards (new_leaderboard f now)) = board_keys.
Proof.
  unfold new_leaderboard, load. cbn [file boards].
  destruct f as [[| | | | |data]|]; try done.
  destruct (ODict.get (PyStr.lit "boards") data) as [[| | | | |items]|]; try done.
  - destruct (load_boards now items _) as [bs ok] eqn:Hl.
    assert (ODict.keys bs = board_keys) as Hk.
    { change bs with (bs, ok).1. rewrite <- Hl. by rewrite load_boards_keys. }
    destruct ok; [|done].
    by destruct (match ODict.get (PyStr.lit "game_stats") data with
                 | Some (JObj kw) => GameStats_of now kw
                 | Some _ => None
                 | None => _
                 end).
  - cbn [load_boards].
    by destruct (match ODict.get (PyStr.lit "game_stats") data with
                 | Some (JObj kw) => GameStats_of now kw
                 | Some _ => None
                 | None => _
                 end).
Qed.

(** *** The top of a board *)

(** X14: [get_leaderboard] returns entries of the board in descending order of
    score, as many as the limit allows (all but the last [-limit] for a
    negative limit), and leaves out no entry that scores more than one it
    returns. *)
Theorem get_leaderboard_is_the_top board_type limit lb :
  let board := default [] (ODict.get (value board_type) (boards lb)) in
  let top := get_leaderboard board_type limit lb in
  by_score top ∧
  (∀ e, e ∈ top → e ∈ ODict.values board) ∧
  length top = (if (0 <=? limit)%Z then Z.to_nat limit `min` length board
                else length board - Z.to_nat (- limit))%nat ∧
  (∀ e e', e ∈ top → e' ∈ ODict.values board → e' ∉ top →
           (score e' <= score e)%Q).
Proof.
  cbv zeta. unfold get_leaderboard, slice_to, by_score.
  set (board := default [] (ODict.get (value board_type) (boards lb))).
  set (sorted := sorted_desc score (ODict.values board)).
  set (n := if (0 <=? limit)%Z then Z.to_nat limit
            else (length sorted - Z.to_nat (- limit))%nat).
  assert ((if (0 <=? limit)%Z then take (Z.to_nat limit) sorted
           else take (length sorted - Z.to_nat (- limit)) sorted) = take n sorted)
    as -> by (unfold n; by destruct (0 <=? limit)%Z).
  pose proof (sorted_desc_descending score (ODict.values board)) as Hsorted.
  fold sorted in Hsorted. unfold descending in Hsorted.
  rewrite <- (take_drop n sorted) in Hsorted.
  assert (length sorted = length board) as Hlen.
  { unfold sorted. rewrite (Permutation_length (sorted_desc_Permutation _ _)).
    unfold ODict.values. by rewrite length_fmap. }
  split; [by eapply StronglySorted_app_1_l|].
  split.
  { intros e He. rewrite <- (sorted_desc_Permutation score (ODict.values board)).
    apply elem_of_take in He as (i & Hi & _). by eapply list_elem_of_lookup_2. }
  split.
  { rewrite length_take, Hlen. unfold n. rewrite Hlen.
    destruct (0 <=? limit)%Z; lia. }
  intros e e' He He' Hnot.
  eapply (StronglySorted_app_1_elem_of _ _ _ e e' Hsorted He).
  rewrite <- (sorted_desc_Permutation score (ODict.values board)) in He'.
  fold sorted in He'. rewrite <- (take_drop n sorted) in He'.
  apply elem_of_app in He' as [?|?]; done.
Qed.

Lemma get_leaderboard_is_the_top_witness :
  user_id <$> get_leaderboard CONTRIBUTION 1 sample_board = [PyStr.lit "b"] ∧
  ∀ e', e' ∈ ODict.values (default [] (ODict.get (value CONTRIBUTION)
                                          (boards sample_board))) →
        e' ∉ get_leaderboard CONTRIBUTION 1 sample_board →
        (score e' <= 12)%Q.
Proof.
  split; [by vm_compute|]. intros e' He' Hnot.
  destruct (get_leaderboard_is_the_top CONTRIBUTION 1 sample_board)
    as (_ & _ & _ & Htop).
  apply (Htop (entry_of "b" 12).2 e'); [|done|done].
  vm_compute. left.
Defined.

(** *** The rank of a user *)

(** X15: On a board whose entries stand under their own keys, [get_user_rank]
    gives a user who has an entry the place of that entry in the sorted
    board, counted from 1: the place at which [get_leaderboard] shows it. A
    user without entry has no rank. *)
Theorem get_user_rank_is_the_place board_type uid pf lb board :
  ODict.get (value board_type) (boards lb) = Some board →
  NoDup (ODict.keys board) → well_keyed board →
  match ODict.get (entry_key pf uid) board with
  | Some e =>
      ∃ i, get_user_rank board_type uid pf lb = Some (Z.of_nat i + 1) ∧
           ∀ limit, Z.of_nat i < limit →
                    get_leaderboard board_type limit lb !! i = Some e
  | None => get_user_rank board_type uid pf lb = None
  end.
Proof.
  intros Hboard Hnd Hkeyed. unfold get_user_rank, get_leaderboard.
  rewrite Hboard. simpl.
  set (key := entry_key pf uid).
  destruct (ODict.get key board) as [e|] eqn:He; [|done].
  pose proof (ODictFacts.get_Some_elem _ _ _ He) as Hin.
  apply list_elem_of_lookup in Hin as [j Hj].
  set (f := λ kd : str * LeaderboardEntry, score kd.2).
  pose proof (sorted_desc_lookup f board j (key, e) Hj) as Hpos.
  set (i := (count (λ y, qlt (f (key, e)) (f y)) board
             + count (λ y, Qeq_bool (f y) (f (key, e))) (take j board))%nat) in Hpos.
  assert (sorted_desc score (ODict.values board) = snd <$> sorted_desc f board)
    as Hvals by apply (GiftMoreFacts.sorted_desc_fmap score snd).
  rewrite Hvals.
  assert (NoDup (sorted_desc f board)) as Hnd'.
  { rewrite (sorted_desc_Permutation f board). by eapply NoDup_fmap_1. }
  exists i. split.
  - assert (list_find (λ entry, entry_key (platform entry) (user_id entry) = key)
              (snd <$> sorted_desc f board) = Some (i, e)) as ->; [|done].
    apply list_find_Some. split; [by rewrite list_lookup_fmap, Hpos|].
    split.
    { symmetry. apply (Hkeyed key e). by eapply list_elem_of_lookup_2. }
    intros i' y Hy Hlt Hkey. rewrite list_lookup_fmap in Hy.
    destruct (sorted_desc f board !! i') as [[k' y']|] eqn:Hi'; [|done].
    injection Hy as ->.
    assert ((k', y) ∈ board) as Hin'.
    { rewrite <- (sorted_desc_Permutation f board).
      by eapply list_elem_of_lookup_2. }
    pose proof (Hkeyed k' y Hin') as Hk'. rewrite Hkey in Hk'. subst k'.
    pose proof (ODictFacts.elem_get key y board Hnd Hin') as Hget.
    rewrite He in Hget. injection Hget as ->.
    pose proof (NoDup_lookup _ _ _ _ Hnd' Hi' Hpos). lia.
  - intros limit Hlimit. unfold slice_to.
    rewrite (proj2 (Z.leb_le 0 limit)) by lia.
    rewrite lookup_take_lt by lia. by rewrite list_lookup_fmap, Hpos.
Qed.

Lemma get_user_rank_is_the_place_witness :
  get_user_rank CONTRIBUTION (PyStr.lit "a") (PyStr.lit "mock") sample_board
  = Some 2.
Proof.
  pose proof (get_user_rank_is_the_place CONTRIBUTION (PyStr.lit "a")
                (PyStr.lit "mock") sample_board
                [entry_of "a" (5 # 2); entry_of "b" 12] eq_refl) as H.
  assert (NoDup (ODict.keys [entry_of "a" (5 # 2); entry_of "b" 12])) as Hnd.
  { apply NoDup_cons. split; [|apply NoDup_singleton].
    intros Hin%list_elem_of_singleton. vm_compute in Hin. discriminate Hin. }
  assert (well_keyed [entry_of "a" (5 # 2); entry_of "b" 12]) as Hk.
  { intros k e [Heq|[Heq|Hnil]%elem_of_cons]%elem_of_cons.
    - by injection Heq as -> ->.
    - by injection Heq as -> ->.
    - by apply elem_of_nil in Hnil. }
  specialize (H Hnd Hk).
  change (ODict.get _ [entry_of "a" (5 # 2); entry_of "b" 12])
    with (Some (entry_of "a" (5 # 2)).2) in H.
  destruct H as (i & Hrank & Hshow).
  assert (i = 1%nat) as ->; [|exact Hrank].
  assert (Some (Z.of_nat i + 1) = Some 2) as Hi; [|injection Hi; lia].
  rewrite <- Hrank. by vm_compute.
Defined.

(** *** The history *)

Lemma last_n_snoc {A} n (l : list A) x :
  (0 < n)%nat → last_n n (last_n n l ++ [x]) = last_n n (l ++ [x]).
Proof.
  intros Hn. unfold last_n. rewrite !length_app, length_drop. simpl.
  destruct (decide (length l ≤ n)%nat) as [Hle|Hgt].
  - replace (length l - n)%nat with 0%nat by lia. by rewrite Nat.sub_0_r.
  - rewrite drop_app_le by (rewrite length_drop; lia).
    rewrite drop_drop. rewrite (drop_app_le l) by lia.
    do 2 f_equal. lia.
Qed.

Lemma history_add_history_event ty d data now lb :
  history (add_history_event ty d data now lb)
  = last_n 500 (history lb ++ [history_event ty d data now]).
Proof.
  unfold add_history_event. simpl. destruct (decide _) as [|Hle]; [done|].
  unfold last_n. by replace (_ - 500)%nat with 0%nat by lia.
Qed.

(** X16: Over any events added to a history of at most 500, the history is the
    newest 500 of all events in their order: it never grows beyond 500, and
    nothing but the oldest events is dropped. *)
Theorem history_keeps_newest_500 es lb :
  (length (history lb) ≤ 500)%nat →
  history (add_history_events es lb)
  = last_n 500 (history lb ++ (event_json <$> es)) ∧
  (length (history (add_history_events es lb)) ≤ 500)%nat.
Proof.
  intros Hlen.
  assert (history (add_history_events es lb)
          = last_n 500 (history lb ++ (event_json <$> es))) as ->.
  { induction es as [|e es IH] using rev_ind.
    - simpl. rewrite app_nil_r. unfold last_n.
      by replace (_ - 500)%nat with 0%nat by lia.
    - unfold add_history_events in *. rewrite foldl_snoc, fmap_app, app_assoc.
      rewrite history_add_history_event, IH.
      apply (last_n_snoc 500). lia. }
  split; [done|]. unfold last_n. rewrite length_drop. lia.
Qed.

Lemma history_keeps_newest_500_witness :
  history (add_history_events
             [{| ev_type := PyStr.lit "vote_end"; ev_description := PyStr.lit "2 wins";
                 ev_data := None; ev_now := PyStr.lit "2024-01-02T09:00:00" |}]
             sample_board)
  = [history_event (PyStr.lit "vote_end") (PyStr.lit "2 wins") None
       (PyStr.lit "2024-01-02T09:00:00")].
Proof.
  rewrite (proj1 (history_keeps_newest_500 _ sample_board ltac:(simpl; lia))).
  reflexivity.
Defined.

Lemma load_boards_saved now b1 b2 b3 c1 c2 c3 :
  load_boards now
    ((λ kv : str * list (str * LeaderboardEntry),
        (kv.1, JObj ((λ kkvv, (kkvv.1, asdict kkvv.2)) <$> kv.2)))
       <$> [(value CONTRIBUTION, b1); (value VOTE_PARTICIPATION, b2);
            (value LUCKY, b3)])
    [(value CONTRIBUTION, c1); (value VOTE_PARTICIPATION, c2); (value LUCKY, c3)]
  = ([(value CONTRIBUTION, b1); (value VOTE_PARTICIPATION, b2); (value LUCKY, b3)],
     true).
Proof.
  cbn [fmap list_fmap fst snd load_boards].
  change (ODict.get (value CONTRIBUTION) _) with (Some c1).
  cbn iota. rewrite load_entries_asdict.
  change (ODict.set (value CONTRIBUTION) b1 _) with
    [(value CONTRIBUTION, b1); (value VOTE_PARTICIPATION, c2); (value LUCKY, c3)].
  change (ODict.get (value VOTE_PARTICIPATION) _) with (Some c2).
  cbn iota. rewrite load_entries_asdict.
  change (ODict.set (value VOTE_PARTICIPATION) b2 _) with
    [(value CONTRIBUTION, b1); (value VOTE_PARTICIPATION, b2); (value LUCKY, c3)].
  change (ODict.get (value LUCKY) _) with (Some c3).
  cbn iota. rewrite load_entries_asdict.
  done.
Qed.



(** *** The books of the vote boards *)

Lemma counter_get name e q :
  counter name e = Some q →
  ODict.get (PyStr.lit name) (extra_data e) = Some (JNum q).
Proof.
  unfold counter. destruct (ODict.get _ _) as [[]|]; try done. by intros [= ->].
Qed.

Lemma lucky_ne_vote : value LUCKY ≠ value VOTE_PARTICIPATION.
Proof. intros H. vm_compute in H. discriminate H. Qed.

Lemma correct_ne_total : PyStr.lit "correct_votes" ≠ PyStr.lit "total_votes".
Proof. intros H. vm_compute in H. discriminate H. Qed.

(** What one call does to the entries of the two boards, when the counters
    of the voter's entry are the numbers [t] and [c]. *)
Lemma update_vote_participation_entries
    uid uname pf voted winning now lb vboard lboard t c :
  ODict.get (value VOTE_PARTICIPATION) (boards lb) = Some vboard →
  ODict.get (value LUCKY) (boards lb) = Some lboard →
  match ODict.get (entry_key pf uid) vboard with
  | Some e => counter "total_votes" e = Some t ∧ counter "correct_votes" e = Some c
  | None => t = 0%Q ∧ c = 0%Q
  end →
  ∃ lb' e',
    update_vote_participation uid uname pf voted winning now lb = Done lb' ∧
    has_vote_boards lb' ∧
    (∀ k, entry_at VOTE_PARTICIPATION k lb'
          = if decide (k = entry_key pf uid) then Some e'
            else entry_at VOTE_PARTICIPATION k lb) ∧
    counter "total_votes" e' = Some (t + 1)%Q ∧
    (if decide (voted = winning)
     then counter "correct_votes" e' = Some (c + 1)%Q ∧
          score e' = (from_option score 0%Q
                        (entry_at VOTE_PARTICIPATION (entry_key pf uid) lb) + 1 + 2)%Q ∧
          ∃ l', (∀ k, entry_at LUCKY k lb'
                      = if decide (k = entry_key pf uid) then Some l'
                        else entry_at LUCKY k lb) ∧
                score l' = (from_option score 0%Q
                              (entry_at LUCKY (entry_key pf uid) lb) + 1)%Q
     else counter "correct_votes" e' = Some c ∧
          score e' = (from_option score 0%Q
                        (entry_at VOTE_PARTICIPATION (entry_key pf uid) lb) + 1)%Q ∧
          ∀ k, entry_at LUCKY k lb' = entry_at LUCKY k lb).
Proof.
  intros Hv Hl Hcounters.
  unfold update_vote_participation. rewrite Hv.
  set (key := entry_key pf uid) in *.
  set (entry := match ODict.get key vboard with Some e => e | None => _ end).
  assert (ODict.get (PyStr.lit "total_votes") (extra_data entry) = Some (JNum t) ∧
          ODict.get (PyStr.lit "correct_votes") (extra_data entry) = Some (JNum c))
    as [Ht Hc].
  { unfold entry. destruct (ODict.get key vboard).
    - destruct Hcounters. split; by apply counter_get.
    - by destruct Hcounters as [-> ->]. }
  assert (score entry
          = from_option score 0%Q (entry_at VOTE_PARTICIPATION key lb)) as Hscore.
  { unfold entry_at, entry. rewrite Hv. simpl. by destruct (ODict.get key vboard). }
  rewrite Ht. cbn [default from_option id plus_one].
  destruct (decide (voted = winning)) as [Heq|Hne].
  - cbn [extra_data]. rewrite ODictFacts.get_set_ne by apply total_ne_correct.
    rewrite Hc. cbn [default from_option id plus_one].
    unfold update_lucky_board, set_board. cbn [boards].
    rewrite ODictFacts.get_set_ne by apply vote_ne_lucky. rewrite Hl.
    eexists _, _. split; [reflexivity|].
    split.
    { unfold has_vote_boards, save. cbn [boards].
      rewrite ODictFacts.get_set_ne by apply lucky_ne_vote.
      rewrite !ODictFacts.get_set_eq. by split. }
    split.
    { intros k. unfold entry_at, save. cbn [boards].
      rewrite ODictFacts.get_set_ne by apply lucky_ne_vote.
      rewrite ODictFacts.get_set_eq, Hv. cbn [mbind option_bind].
      destruct (decide (k = key)) as [->|Hk].
      - by rewrite ODictFacts.get_set_eq.
      - by rewrite ODictFacts.get_set_ne. }
    split.
    { unfold counter. cbn [extra_data].
      rewrite ODictFacts.get_set_ne by apply correct_ne_total.
      by rewrite ODictFacts.get_set_eq. }
    split.
    { unfold counter. cbn [extra_data]. by rewrite ODictFacts.get_set_eq. }
    split; [cbn [score]; by rewrite Hscore|].
    eexists. split.
    + intros k. unfold entry_at, save. cbn [boards].
      rewrite ODictFacts.get_set_eq, Hl. cbn [mbind option_bind].
      destruct (decide (k = key)) as [->|Hk].
      * by rewrite ODictFacts.get_set_eq.
      * by rewrite ODictFacts.get_set_ne.
    + unfold entry_at. rewrite Hl. cbn [mbind option_bind score].
      subst key. by destruct (ODict.get (entry_key pf uid) lboard).
  - eexists _, _. split; [reflexivity|].
    split.
    { unfold has_vote_boards, save, set_board. cbn [boards].
      rewrite ODictFacts.get_set_eq.
      rewrite ODictFacts.get_set_ne by apply vote_ne_lucky. rewrite Hl. by split. }
    split.
    { intros k. unfold entry_at, save, set_board. cbn [boards].
      rewrite ODictFacts.get_set_eq, Hv. cbn [mbind option_bind].
      destruct (decide (k = key)) as [->|Hk].
      - by rewrite ODictFacts.get_set_eq.
      - by rewrite ODictFacts.get_set_ne. }
    split.
    { unfold counter. cbn [extra_data]. by rewrite ODictFacts.get_set_eq. }
    split.
    { unfold counter. cbn [extra_data].
      rewrite ODictFacts.get_set_ne by apply total_ne_correct. by rewrite Hc. }
    split; [cbn [score]; by rewrite Hscore|].
    intros k. unfold entry_at, save, set_board. cbn [boards].
    by rewrite ODictFacts.get_set_ne by apply vote_ne_lucky.
Qed.

Lemma update_vote_participation_consistent uid uname pf voted winning now lb :
  has_vote_boards lb → votes_consistent lb →
  ∃ lb', update_vote_participation uid uname pf voted winning now lb = Done lb' ∧
         has_vote_boards lb' ∧ votes_consistent lb'.
Proof.
  intros [[vboard Hv] [lboard Hl]] Hcons.
  pose proof (Hcons (entry_key pf uid)) as Hkey.
  assert (∃ t c,
    match ODict.get (entry_key pf uid) vboard with
    | Some e => counter "total_votes" e = Some t ∧ counter "correct_votes" e = Some c
    | None => t = 0%Q ∧ c = 0%Q
    end ∧
    (from_option score 0%Q (entry_at VOTE_PARTICIPATION (entry_key pf uid) lb)
     == t + 2 * c)%Q ∧
    (from_option score 0%Q (entry_at LUCKY (entry_key pf uid) lb) == c)%Q)
    as (t & c & Hcounters & Hs & Hlk).
  { unfold entry_at in Hkey |- *. rewrite Hv in Hkey |- *. simpl in Hkey |- *.
    destruct (ODict.get (entry_key pf uid) vboard) as [e|].
    - destruct Hkey as (t & c & Ht & Hc & Hs & Hlk). by exists t, c.
    - exists 0%Q, 0%Q. rewrite Hkey. simpl. by repeat split. }
  destruct (update_vote_participation_entries uid uname pf voted winning now lb
              vboard lboard t c Hv Hl Hcounters)
    as (lb' & e' & Hrun & Hboards & Hvote & Ht' & Hrest).
  exists lb'. split; [done|]. split; [done|].
  intros k. rewrite Hvote.
  destruct (decide (voted = winning)) as [Heq|Hne].
  - destruct Hrest as (Hc' & Hscore & l' & Hlucky & Hlscore).
    rewrite Hlucky. destruct (decide (k = entry_key pf uid)) as [->|Hk].
    + exists (t + 1)%Q, (c + 1)%Q. split; [done|]. split; [done|].
      rewrite Hscore. simpl. rewrite Hlscore. split; lra.
    + apply Hcons.
  - destruct Hrest as (Hc' & Hscore & Hlucky).
    rewrite Hlucky. destruct (decide (k = entry_key pf uid)) as [->|Hk].
    + exists (t + 1)%Q, c. split; [done|]. split; [done|].
      rewrite Hscore. split; lra.
    + apply Hcons.
Qed.


(** *** Reset *)

(** X19: a reset is lasting: whatever the leaderboard held, the file
    [reset] writes gives, on the next start, the three boards empty, no
    history, and the statistics as the reset made them, so that every
    ranking is empty. *)
Theorem reset_survives_restart lb now now' board_type limit :
  let lb' := new_leaderboard (file (reset now lb)) now' in
  boards lb' = [ (value CONTRIBUTION, []); (value VOTE_PARTICIPATION, []);
                 (value LUCKY, []) ] ∧
  game_stats lb' = GameStats_new now ∧ history lb' = [] ∧
  get_leaderboard board_type limit lb' = [] ∧
  file lb' = file (reset now lb).
Proof.
  cbv zeta.
  assert (new_leaderboard (file (reset now lb)) now'
          = {| boards := [ (value CONTRIBUTION, []); (value VOTE_PARTICIPATION, []);
                           (value LUCKY, []) ];
               game_stats := GameStats_new now; history := [];
               file := file (reset now lb) |}) as ->.
  { by vm_compute. }
  cbn [boards game_stats history file]. repeat split.
  unfold get_leaderboard. cbn [boards].
  assert (default [] (ODict.get (value board_type)
            [ (value CONTRIBUTION, []); (value VOTE_PARTICIPATION, []);
              (value LUCKY, @nil (str * LeaderboardEntry)) ]) = []) as ->.
  { destruct board_type; reflexivity. }
  unfold slice_to. simpl. destruct (0 <=? limit); first [done | apply take_nil].
Qed.

End BoardMoreFacts.

(** ** More of the player *)

Module PlayerMoreFacts.
Import Player PlayerSpec PlayerMore PlayerFacts.

Lemma realms_count : length CULTIVATION_REALMS = 10%nat.
Proof. reflexivity. Qed.

(** *** A new player *)

Lemma bonus_keeps_attribute (a : str) (bs : list (str * Z)) attrs :
  (∀ k b, (k, b) ∈ bs → 0 ≤ b) →
  default 10 (ODict.get a attrs)
  ≤ default 10 (ODict.get a
      (foldl (λ attrs ab, ODict.set ab.1 (default 10 (ODict.get ab.1 attrs) + ab.2) attrs)
             attrs bs)).
Proof.
  revert attrs. induction bs as [|[k b] bs IH]; intros attrs Hpos; [done|].
  simpl. etrans; [|apply IH; intros k' b' Hin; apply (Hpos k' b'); by right].
  assert (0 ≤ b) as Hb by (apply (Hpos k b); left).
  destruct (decide (k = a)) as [->|Hne].
  - rewrite ODictFacts.get_set_eq. simpl. lia.
  - by rewrite ODictFacts.get_set_ne.
Qed.

(** X20: A player created with a spiritual root whose bonuses are not negative, as
    those of all configured roots, starts in the first realm without
    progress, with full counters of at least 150 life points and 80 spirit
    points, and in good order. *)
Theorem new_player_starts_full name gender root pick :
  (∀ k b, (k, b) ∈ bonus root → 0 ≤ b) →
  let c := new_player name gender (Some root) pick in
  sound c ∧ realm_index c = 0 ∧ cultivation_progress c = 0 ∧
  hp (counters c) = max_hp (counters c) ∧ mp (counters c) = max_mp (counters c) ∧
  150 ≤ max_hp (counters c) ∧ 80 ≤ max_mp (counters c) ∧
  inventory c = [] ∧ story_history c = [].
Proof.
  intros Hpos. cbv zeta. unfold new_player, sound, level_ok, attrs_ok, in_bounds.
  cbn [realm_index cultivation_progress attributes counters hp max_hp mp max_mp
       inventory story_history].
  pose proof (bonus_keeps_attribute physique (bonus root) BASE_ATTRIBUTES Hpos) as Hp.
  pose proof (bonus_keeps_attribute spirit (bonus root) BASE_ATTRIBUTES Hpos) as Hs.
  change (default 10 (ODict.get physique BASE_ATTRIBUTES)) with 10 in Hp.
  change (default 10 (ODict.get spirit BASE_ATTRIBUTES)) with 10 in Hs.
  unfold calculate_max_hp, calculate_max_mp. cbv zeta.
  repeat split; lia.
Qed.

Lemma configured_roots_bonus root :
  root ∈ SPIRITUAL_ROOTS → ∀ k b, (k, b) ∈ bonus root → 0 ≤ b.
Proof.
  intros Hroot k b Hin.
  assert (Forall (λ r, Forall (λ kb, 0 ≤ kb.2) (bonus r)) SPIRITUAL_ROOTS) as Hall.
  { repeat (constructor; [repeat (constructor; [simpl; lia|]); constructor|]).
    constructor. }
  rewrite Forall_forall in Hall. specialize (Hall root Hroot).
  rewrite Forall_forall in Hall. by apply (Hall (k, b)).
Qed.

Lemma new_player_starts_full_witness :
  ∃ root, SPIRITUAL_ROOTS !! 0%nat = Some root ∧
          sound (new_player (PyStr.lit "Lin") (PyStr.lit "he") (Some root) 0).
Proof.
  eexists. split; [reflexivity|].
  exact (proj1 (new_player_starts_full (PyStr.lit "Lin") (PyStr.lit "he") _ 0
                  (configured_roots_bonus _ ltac:(left)))).
Defined.

(** *** Cultivation *)

Lemma py_index_realm (i : Z) :
  0 ≤ i ≤ 9 →
  ∃ r, py_index CULTIVATION_REALMS i = Some r ∧
       CULTIVATION_REALMS !! Z.to_nat i = Some r.
Proof.
  intros Hi. unfold py_index.
  destruct (Z.leb_spec 0 i) as [_|]; [|lia].
  destruct (lookup_lt_is_Some_2 CULTIVATION_REALMS (Z.to_nat i)) as [r Hr].
  { rewrite realms_count. lia. }
  by exists r.
Qed.

(** The loop of [add_cultivation], from a realm index within the realms and a
    progress that is not negative: it returns, one realm up for every full
    hundred of the progress as long as there is a realm above. *)
Lemma breakthroughs_spec (rounds : nat) (result : CultivationResult) (c : Character) :
  0 ≤ realm_index c → Z.of_nat rounds = 9 - realm_index c →
  0 ≤ cultivation_progress c →
  ∃ result' c',
    breakthroughs rounds result c = Returned result' c' ∧
    realm_index c' = Z.min 9 (realm_index c + cultivation_progress c / 100) ∧
    cultivation_progress c'
    = cultivation_progress c - 100 * (realm_index c' - realm_index c) ∧
    attributes c' = attributes c ∧ inventory c' = inventory c ∧
    story_history c' = story_history c ∧
    cultivation_gained result' = cultivation_gained result ∧
    (realm_index c' = realm_index c → result' = result ∧ counters c' = counters c) ∧
    (realm_index c < realm_index c' →
     breakthrough result' = true ∧
     new_realm result'
     = realm_name <$> CULTIVATION_REALMS !! Z.to_nat (realm_index c') ∧
     counters c' = full_at (realm_index c') (attributes c)).
Proof.
  revert result c. induction rounds as [|rounds IH]; intros result c Hlo Hfuel Hp.
  - exists result, c. simpl. split; [done|].
    assert (0 ≤ cultivation_progress c / 100) by (apply Z.div_pos; lia).
    repeat split; try done; lia.
  - cbn [breakthroughs]. rewrite realms_count.
    destruct (Z.leb_spec 100 (cultivation_progress c)) as [Hge|Hlt]; cbn [andb].
    + destruct (Z.ltb_spec (realm_index c) (Z.of_nat 10 - 1)) as [_|?]; [|lia].
      cbn [set_level realm_index attributes].
      destruct (py_index_realm (realm_index c + 1)) as (r & -> & Hr); [lia|].
      match goal with |- context [breakthroughs rounds ?res ?c1] =>
        destruct (IH res c1) as (result' & c' & -> & Hrealm & Hprog & Hattr & Hinv
                                 & Hstory & Hgain & Hsame & Hup)
      end; cbn [set_counters set_level realm_index cultivation_progress attributes
                inventory story_history counters] in *; try lia.
      assert ((cultivation_progress c - 100) / 100 = cultivation_progress c / 100 - 1)
        as Hdiv.
      { replace (cultivation_progress c - 100)
          with (cultivation_progress c + (-1) * 100) by lia.
        rewrite Z.div_add by lia. lia. }
      rewrite Hdiv in Hrealm.
      assert (1 ≤ cultivation_progress c / 100) by (apply Z.div_le_lower_bound; lia).
      exists result', c'. split; [done|].
      split; [lia|]. split; [lia|]. do 4 (split; [done|]).
      split; [lia|]. intros _.
      destruct (decide (realm_index c' = realm_index c + 1)) as [Heq|Hne].
      * destruct (Hsame Heq) as [-> ->]. cbn [breakthrough new_realm].
        rewrite Heq, Hr. done.
      * apply Hup. lia.
    + exists result, c. split; [done|].
      assert (cultivation_progress c / 100 = 0) as -> by (apply Z.div_small; lia).
      repeat split; try done; lia.
Qed.

(** X21: [add_cultivation] on a player whose level is in order, with an
    amount that is not negative, returns (no realm index leaves the table):
    with T the hundreds of the realm plus the progress plus the amount, the
    new realm is T div 100, at most the last one, the progress is the rest
    below the last realm and at most 100 in it. The answer reports a
    breakthrough exactly when the realm rose, with the name of the new realm,
    and then all counters are full at the new realm's maxima; otherwise the
    counters are untouched. The level stays in order. *)
Theorem add_cultivation_levels (amount : Z) (c : Character) :
  level_ok c → 0 ≤ amount →
  let T := 100 * realm_index c + cultivation_progress c + amount in
  ∃ result c',
    add_cultivation amount c = Returned result c' ∧
    realm_index c' = Z.min 9 (T / 100) ∧
    cultivation_progress c'
    = (if realm_index c' <? 9 then T mod 100 else Z.min 100 (T - 900)) ∧
    cultivation_gained result = amount ∧
    breakthrough result = (realm_index c <? realm_index c') ∧
    new_realm result
    = (if realm_index c <? realm_index c'
       then realm_name <$> CULTIVATION_REALMS !! Z.to_nat (realm_index c')
       else None) ∧
    counters c'
    = (if realm_index c <? realm_index c'
       then full_at (realm_index c') (attributes c) else counters c) ∧
    attributes c' = attributes c ∧ inventory c' = inventory c ∧
    story_history c' = story_history c ∧
    level_ok c'.
Proof.
  intros (Hrealm & Hprog & Hbelow) Hamount T. unfold add_cultivation.
  cbn [set_level realm_index].
  match goal with |- context [breakthroughs ?n ?res ?c1] =>
    destruct (breakthroughs_spec n res c1)
      as (result' & c2 & -> & Hr2 & Hp2 & Hattr & Hinv & Hstory & Hgain & Hsame & Hup)
  end; cbn [set_level realm_index cultivation_progress attributes inventory
            story_history counters cultivation_gained] in *;
    try (unfold realms_above; rewrite ?realms_count); try lia.
  assert (realm_index c + (cultivation_progress c + amount) / 100 = T / 100) as HT.
  { unfold T. replace (100 * realm_index c + cultivation_progress c + amount)
      with (cultivation_progress c + amount + realm_index c * 100) by lia.
    rewrite Z.div_add by lia. lia. }
  rewrite HT in Hr2.
  assert (T mod 100 = T - 100 * (T / 100)) as Hmod by (rewrite Z.mod_eq; lia).
  assert (0 ≤ T mod 100 < 100) as Hrange by (apply Z.mod_pos_bound; lia).
  assert (realm_index c ≤ T / 100) as Hle.
  { rewrite <- HT. assert (0 ≤ (cultivation_progress c + amount) / 100)
      by (apply Z.div_pos; lia). lia. }
  assert (cultivation_progress c2 = T - 100 * realm_index c2) as Hp2' by (unfold T; lia).
  assert (breakthrough result' = (realm_index c <? realm_index c2) ∧
          new_realm result'
          = (if realm_index c <? realm_index c2
             then realm_name <$> CULTIVATION_REALMS !! Z.to_nat (realm_index c2)
             else None) ∧
          counters c2
          = (if realm_index c <? realm_index c2
             then full_at (realm_index c2) (attributes c) else counters c))
    as (Hb & Hn & Hc).
  { destruct (Z.ltb_spec (realm_index c) (realm_index c2)) as [Hlt|Hge].
    - destruct (Hup Hlt) as (? & ? & ?). done.
    - destruct Hsame as [-> ->]; [lia|]. done. }
  destruct (Z.leb_spec (Z.of_nat 10 - 1) (realm_index c2)) as [Hlast|Hnot].
  - eexists _, _. split; [done|].
    cbn [set_level realm_index cultivation_progress attributes inventory
         story_history counters].
    assert (realm_index c2 = 9) as H9 by lia.
    assert (9 ≤ T / 100) as H9' by lia.
    assert (900 ≤ T) by lia.
    rewrite H9 in *. change (9 <? 9) with false. cbv iota.
    split; [lia|]. split; [lia|]. do 7 (split; [done|]).
    unfold level_ok. cbn [set_level realm_index cultivation_progress]. lia.
  - exists result', c2. split; [done|].
    assert (realm_index c2 = T / 100) as Hq by lia.
    destruct (Z.ltb_spec (realm_index c2) 9) as [_|?]; [|lia].
    split; [lia|]. split; [lia|]. do 7 (split; [done|]).
    unfold level_ok. lia.
Qed.

Lemma adept_level_ok : level_ok adept.
Proof. unfold level_ok. simpl. lia. Qed.

Lemma add_cultivation_levels_witness :
  ∃ result c',
    add_cultivation 270 adept = Returned result c' ∧
    realm_index c' = Z.min 9 ((100 * 2 + 50 + 270) / 100).
Proof.
  destruct (add_cultivation_levels 270 adept adept_level_ok ltac:(lia))
    as (result & c' & H1 & H2 & _).
  exists result, c'. split; [exact H1|exact H2].
Defined.

(** *** Spirit points *)

(** X22: [use_mp] spends all or nothing. With an amount that is not
    negative and a player within bounds: when the spirit points cover the
    amount it is taken off and the answer is [True]; otherwise the answer is
    [False] and nothing changes, so the points are never spent in part. The
    player stays within bounds either way. *)
Theorem use_mp_all_or_nothing (amount : Z) (p : Player) :
  in_bounds p → 0 ≤ amount →
  let r := use_mp amount p in
  (r.2 = true ↔ amount ≤ mp p) ∧
  (r.2 = true → mp r.1 = mp p - amount) ∧
  (r.2 = false → r.1 = p) ∧
  hp r.1 = hp p ∧ max_hp r.1 = max_hp p ∧ max_mp r.1 = max_mp p ∧
  in_bounds r.1.
Proof.
  unfold in_bounds, use_mp. intros [Hhp Hmp] Hamount. cbv zeta.
  destruct (Z.leb_spec amount (mp p)); simpl; repeat split; try done; try lia.
Qed.

Lemma use_mp_all_or_nothing_witness :
  in_bounds hurt ∧ (use_mp 60 hurt).1 = hurt ∧ mp (use_mp 50 hurt).1 = 0.
Proof.
  assert (in_bounds hurt) as Hb by (unfold in_bounds; simpl; lia).
  pose proof (use_mp_all_or_nothing 60 hurt Hb ltac:(lia)) as (_ & _ & H60 & _).
  pose proof (use_mp_all_or_nothing 50 hurt Hb ltac:(lia)) as (_ & H50 & _).
  split; [exact Hb|]. split; [by apply H60|]. by rewrite H50.
Defined.

(** *** The inventory *)

Lemma remove_first_Some item_name inv inv' :
  remove_first item_name inv = Some inv' ↔
  ∃ pre it post,
    inv = pre ++ it :: post ∧ inv' = pre ++ post ∧
    named item_name it = true ∧ Forall (λ x, named item_name x = false) pre.
Proof.
  revert inv'. induction inv as [|x inv IH]; intros inv'; simpl.
  - split; [done|]. intros (pre & it & post & Heq & _). by destruct pre.
  - destruct (named item_name x) eqn:Hx.
    + split.
      * intros [= <-]. exists [], x, inv. by repeat split.
      * intros (pre & it & post & Heq & -> & Hit & Hpre).
        destruct pre as [|y pre]; simplify_eq/=; [done|].
        apply Forall_cons in Hpre as [Hy _]. congruence.
    + rewrite fmap_Some. split.
      * intros (rest & Hrest & ->).
        apply IH in Hrest as (pre & it & post & -> & -> & Hit & Hpre).
        exists (x :: pre), it, post. repeat split; try done.
        by constructor.
      * intros (pre & it & post & Heq & -> & Hit & Hpre).
        destruct pre as [|y pre]; simplify_eq/=; [congruence|].
        apply Forall_cons in Hpre as [_ Hpre].
        exists (pre ++ post). split; [|done].
        apply IH. by exists pre, it, post.
Qed.

Lemma remove_first_None item_name inv :
  remove_first item_name inv = None ↔ Forall (λ x, named item_name x = false) inv.
Proof.
  induction inv as [|x inv IH]; simpl; [by split|].
  destruct (named item_name x) eqn:Hx.
  - split; [done|]. intros [? _]%Forall_cons. congruence.
  - destruct (remove_first item_name inv); simpl.
    + split; [done|]. intros [_ H]%Forall_cons. by apply IH in H.
    + split; [|done]. intros _. constructor; [done|]. by apply IH.
Qed.

(** X23: [remove_item] answers [True] exactly when the inventory has an
    item of the name, and then takes out the first such item and no other: the
    items before and after it keep their order. When it answers [False] the
    player is unchanged. An item without a name, or whose name is not a
    string, is never removed. *)
Theorem remove_item_takes_first_of_name (item_name : str) (c : Character) :
  let r := remove_item item_name c in
  (r.2 = true ↔ ∃ it, it ∈ inventory c ∧ named item_name it = true) ∧
  (r.2 = true →
   ∃ pre it post,
     inventory c = pre ++ it :: post ∧ inventory r.1 = pre ++ post ∧
     ODict.get (PyStr.lit "name") it = Some (Board.JStr item_name) ∧
     Forall (λ x, ODict.get (PyStr.lit "name") x ≠ Some (Board.JStr item_name)) pre) ∧
  (r.2 = false → r.1 = c) ∧
  counters r.1 = counters c ∧ story_history r.1 = story_history c.
Proof.
  assert (∀ x, named item_name x = true ↔
               ODict.get (PyStr.lit "name") x = Some (Board.JStr item_name)) as Hnamed.
  { intros x. unfold named.
    destruct (ODict.get (PyStr.lit "name") x) as [[| | |s| |]|]; try (split; done).
    rewrite bool_decide_eq_true. split; [by intros ->|by intros [= ->]]. }
  cbv zeta. unfold remove_item.
  destruct (remove_first item_name (inventory c)) as [inv|] eqn:Hrm; simpl.
  - apply remove_first_Some in Hrm as (pre & it & post & Hinv & -> & Hit & Hpre).
    split; [|split; [|split]]; try done.
    + split; [|done]. intros _. exists it. split; [|done].
      rewrite Hinv. apply elem_of_app. right. by left.
    + intros _. exists pre, it, post. repeat split; try done; [by apply Hnamed|].
      eapply Forall_impl; [exact Hpre|]. intros x Hx Hget.
      apply Hnamed in Hget. congruence.
  - apply remove_first_None in Hrm.
    split; [|split; [|split]]; try done.
    split; [done|]. intros (it & Hin & Hit).
    rewrite Forall_forall in Hrm. specialize (Hrm it Hin). congruence.
Qed.

(** *** The story so far *)

Lemma slice_from_minus_one {A} (l : list A) (x : A) :
  GiftMore.slice_from (Z.opp 1) (l ++ [x]) = [x].
Proof.
  unfold GiftMore.slice_from. change (0 <=? Z.opp 1) with false. cbv iota.
  rewrite length_app. cbn [length]. rewrite drop_app_le by lia.
  by rewrite drop_ge by lia.
Qed.

(** X24: [add_story] keeps the newest 20 stories: after it the history
    is the old history with the story at its end, cut to its last 20 entries,
    and [get_recent_story(1)] is the story just added. *)
Theorem add_story_keeps_newest_20 (story : str) (c : Character) :
  let c' := add_story story c in
  story_history c'
  = drop (S (length (story_history c)) - 20) (story_history c ++ [story]) ∧
  length (story_history c') = Nat.min 20 (S (length (story_history c))) ∧
  last (story_history c') = Some story ∧
  get_recent_story 1 c' = story ∧
  counters c' = counters c ∧ inventory c' = inventory c.
Proof.
  cbv zeta.
  assert (story_history (add_story story c)
          = drop (S (length (story_history c)) - 20) (story_history c ++ [story]))
    as Hh.
  { unfold add_story. cbn [set_story_history story_history].
    rewrite length_app. cbn [length]. rewrite Nat.add_1_r.
    destruct (decide _) as [Hlong|Hshort].
    - unfold GiftMore.slice_from. cbn [Z.leb Z.opp]. simpl (0 <=? -20).
      cbv iota. rewrite length_app. cbn [length]. rewrite Nat.add_1_r.
      f_equal.
    - replace (S (length (story_history c)) - 20)%nat with 0%nat by lia. done. }
  assert (length (story_history (add_story story c))
          = Nat.min 20 (S (length (story_history c)))) as Hlen.
  { rewrite Hh, length_drop, length_app. cbn [length]. lia. }
  assert (last (story_history (add_story story c)) = Some story) as Hlast.
  { rewrite Hh. rewrite drop_app_le by lia. by rewrite last_snoc. }
  split; [done|]. split; [done|]. split; [done|]. split; [|done].
  assert (∃ h', story_history (add_story story c) = h' ++ [story]) as [h' Hh'].
  { eexists. rewrite Hh. by rewrite drop_app_le by lia. }
  unfold get_recent_story. rewrite Hh'.
  transitivity (join [10; 10]%N [story]); [f_equal|done].
  rewrite slice_from_minus_one. by destruct h'.
Qed.

(** *** The effects of a story *)

Lemma full_at_in_bounds realm_index attributes :
  0 ≤ realm_index →
  0 ≤ default 10 (ODict.get physique attributes) →
  0 ≤ default 10 (ODict.get spirit attributes) →
  in_bounds (full_at realm_index attributes).
Proof.
  intros Hr Hp Hs. unfold in_bounds, full_at, calculate_max_hp, calculate_max_mp.
  cbn [hp max_hp mp max_mp]. cbv zeta. lia.
Qed.

Lemma add_cultivation_sound (amount : Z) (c : Character) :
  sound c → 0 ≤ amount →
  ∃ result c',
    add_cultivation amount c = Returned result c' ∧ sound c' ∧
    realm_index c ≤ realm_index c' ∧ attributes c' = attributes c ∧
    inventory c' = inventory c ∧ story_history c' = story_history c.
Proof.
  intros ((Hrealm & Hprog & Hbelow) & (Hphys & Hspirit) & Hbounds) Hamount.
  unfold add_cultivation. cbn [set_level realm_index].
  match goal with |- context [breakthroughs ?n ?res ?c1] =>
    destruct (breakthroughs_spec n res c1)
      as (result' & c2 & -> & Hr2 & Hp2 & Hattr & Hinv & Hstory & _ & Hsame & Hup)
  end; cbn [set_level realm_index cultivation_progress attributes inventory
            story_history counters] in *;
    try (unfold realms_above; rewrite ?realms_count); try lia.
  set (p := cultivation_progress c + amount) in *.
  assert (0 ≤ p / 100) as Hdiv by (apply Z.div_pos; lia).
  assert (p mod 100 = p - 100 * (p / 100)) as Hmod by (rewrite Z.mod_eq; lia).
  assert (0 ≤ p mod 100 < 100) as Hrange by (apply Z.mod_pos_bound; lia).
  assert (in_bounds (counters c2)) as Hb2.
  { destruct (decide (realm_index c2 = realm_index c)) as [Heq|Hne].
    - destruct (Hsame Heq) as [_ ->]. done.
    - destruct Hup as (_ & _ & ->); [lia|]. apply full_at_in_bounds; lia. }
  assert (attrs_ok c2) as Ha2 by (unfold attrs_ok; by rewrite Hattr).
  pose proof Hb2 as [[? ?] [? ?]].
  destruct (Z.leb_spec (Z.of_nat 10 - 1) (realm_index c2)) as [Hlast|Hnot].
  - eexists _, _. split; [done|].
    unfold sound, level_ok, attrs_ok in *.
    cbn [set_level realm_index cultivation_progress attributes inventory
         story_history counters].
    repeat split; try done; lia.
  - exists result', c2. split; [done|].
    unfold sound, level_ok, attrs_ok in *. repeat split; try done; lia.
Qed.

Lemma sound_on_counters (f : Player → Player) (c : Character) :
  sound c → in_bounds (f (counters c)) → sound (on_counters f c).
Proof.
  intros (Hl & Ha & _) Hb. split; [exact Hl|]. split; [exact Ha|exact Hb].
Qed.

Lemma heal_in_bounds amount p : in_bounds p → 0 ≤ amount → in_bounds (heal amount p).1.
Proof. unfold in_bounds. simpl. lia. Qed.

Lemma take_damage_in_bounds amount p :
  in_bounds p → 0 ≤ amount → in_bounds (take_damage amount p).1.
Proof. unfold in_bounds. simpl. lia. Qed.

Lemma restore_mp_in_bounds amount p :
  in_bounds p → 0 ≤ amount → in_bounds (restore_mp amount p).1.
Proof. unfold in_bounds. simpl. lia. Qed.

Lemma use_mp_in_bounds amount p :
  in_bounds p → 0 ≤ amount → in_bounds (use_mp amount p).1.
Proof.
  unfold in_bounds, use_mp. intros ? ?.
  destruct (Z.leb_spec amount (mp p)); simpl; lia.
Qed.

Lemma add_items_spec (mk : str → item) (names : list str) (c : Character) :
  let c' := foldl (λ c item_name, add_item (mk item_name) c) c names in
  realm_index c' = realm_index c ∧ cultivation_progress c' = cultivation_progress c ∧
  attributes c' = attributes c ∧ counters c' = counters c ∧
  story_history c' = story_history c ∧
  inventory c' = inventory c ++ (mk <$> names).
Proof.
  revert c. induction names as [|n names IH]; intros c; simpl.
  - by rewrite app_nil_r.
  - destruct (IH (add_item (mk n) c)) as (-> & -> & -> & -> & -> & ->).
    cbn [add_item set_inventory realm_index cultivation_progress attributes counters
         story_history inventory].
    by rewrite <- app_assoc.
Qed.

(** X25: whatever effects a story carries, [_apply_effects] leaves a
    player in good order in good order, and no realm index leaves the table:
    the level stays within the realms, life and spirit points within their
    bounds, since the sign of each change picks the method and the method gets
    the size of the change. The realm never falls, and every named item is put
    at the end of the inventory, in the order given. *)
Theorem apply_effects_keeps_player_sound (effects : Effects) (c : Character) :
  sound c →
  ∃ c',
    apply_effects effects c = Returned tt c' ∧ sound c' ∧
    realm_index c ≤ realm_index c' ∧ attributes c' = attributes c ∧
    story_history c' = story_history c ∧
    inventory c'
    = inventory c
      ++ ((λ item_name, [ (PyStr.lit "name", Board.JStr item_name);
                          (PyStr.lit "type", Board.JStr (PyStr.lit "misc")) ])
            <$> items effects).
Proof.
  intros Hsound. unfold apply_effects.
  set (first := if negb (cultivation_change effects =? 0) then _ else _).
  assert (∃ c1,
    first = Returned tt c1 ∧
    sound c1 ∧ realm_index c ≤ realm_index c1 ∧ attributes c1 = attributes c ∧
    inventory c1 = inventory c ∧ story_history c1 = story_history c)
    as (c1 & -> & Hs1 & Hr1 & Ha1 & Hi1 & Hh1).
  { subst first.
    destruct (Z.eqb_spec (cultivation_change effects) 0) as [_|Hne]; cbn [negb].
    - exists c. split_and!; try done; lia.
    - cbv zeta. destruct (Z.ltb_spec 0 (cultivation_change effects)) as [Hpos|Hneg].
      + destruct (add_cultivation_sound (cultivation_change effects) c Hsound
                    ltac:(lia)) as (result & c1 & -> & H).
        by exists c1.
      + eexists. split; [done|].
        unfold lose_cultivation, sound, level_ok, attrs_ok, in_bounds in *.
        cbn [set_level realm_index cultivation_progress attributes inventory
             story_history counters].
        repeat split; try done; lia. }
  cbv zeta.
  match goal with |- context [foldl _ ?c3 _] => set (c3' := c3) end.
  assert (sound c3' ∧ realm_index c3' = realm_index c1 ∧
          attributes c3' = attributes c1 ∧ inventory c3' = inventory c1 ∧
          story_history c3' = story_history c1) as (Hs3 & Hr3 & Ha3 & Hi3 & Hh3).
  { subst c3'.
    match goal with |- context [if negb (mp_change effects =? 0) then _ else ?c2] =>
      set (c2' := c2) end.
    assert (sound c2' ∧ realm_index c2' = realm_index c1 ∧
            attributes c2' = attributes c1 ∧ inventory c2' = inventory c1 ∧
            story_history c2' = story_history c1) as (Hs2 & Hr2 & Ha2 & Hi2 & Hh2).
    { subst c2'.
      destruct (Z.eqb_spec (hp_change effects) 0) as [_|Hne]; cbn [negb]; [done|].
      destruct (Z.ltb_spec 0 (hp_change effects)).
      - split; [|done]. apply sound_on_counters; [done|].
        apply heal_in_bounds; [apply Hs1|lia].
      - split; [|done]. apply sound_on_counters; [done|].
        apply take_damage_in_bounds; [apply Hs1|lia]. }
    destruct (Z.eqb_spec (mp_change effects) 0) as [_|Hne]; cbn [negb]; [done|].
    destruct (Z.ltb_spec 0 (mp_change effects)).
    - split; [|done]. apply sound_on_counters; [done|].
      apply restore_mp_in_bounds; [apply Hs2|lia].
    - split; [|done]. apply sound_on_counters; [done|].
      apply use_mp_in_bounds; [apply Hs2|lia]. }
  eexists. split; [done|].
  destruct (add_items_spec
              (λ item_name, [ (PyStr.lit "name", Board.JStr item_name);
                              (PyStr.lit "type", Board.JStr (PyStr.lit "misc")) ])
              (items effects) c3') as (Hr & Hp & Ha & Hc & Hh & Hi).
  cbv zeta in *. unfold sound, level_ok, attrs_ok in *.
  rewrite Hr, Hp, Ha, Hc, Hh, Hi, Hr3, Ha3, Hi3, Hh3, Hi1.
  repeat split; try apply Hs3; try done; try lia.
  all: try (rewrite <- Hr3; apply Hs3).
  all: try (rewrite <- Ha3; apply Hs3).
Qed.

Lemma adept_sound : sound adept.
Proof.
  unfold sound, level_ok, attrs_ok, in_bounds. simpl. lia.
Qed.

Lemma apply_effects_keeps_player_sound_witness :
  ∃ c', apply_effects {| cultivation_change := 270; hp_change := -500;
                         mp_change := -30; items := [PyStr.lit "pill"];
                         breakthrough_flag := false |} adept
        = Returned tt c' ∧ sound c'.
Proof.
  destruct (apply_effects_keeps_player_sound
              {| cultivation_change := 270; hp_change := -500;
                 mp_change := -30; items := [PyStr.lit "pill"];
                 breakthrough_flag := false |} adept adept_sound)
    as (c' & H1 & H2 & _).
  exists c'. split; [exact H1|exact H2].
Defined.

End PlayerMoreFacts.


(** ** Gifts applied to the player *)

Module GiftPlayerFacts.
Import Player PlayerSpec PlayerMore GiftPlayer.
Import PlayerMoreFacts.

Ltac key_case :=
  unfold apply_key;
  repeat first [ rewrite decide_True by reflexivity
               | rewrite decide_False by (vm_compute; discriminate) ].

Lemma determine_effect_gives (V : Q) (e : Gift.GiftEffect) :
  Gift.determine_effect V = Some e → gives e.
Proof.
  rewrite GiftMoreFacts.determine_effect_table.
  repeat match goal with
         | |- context [PySort.qlt V ?c] => destruct (PySort.qlt V c)
         end;
    intros H; vm_compute in H; try discriminate H;
    injection H as <-; unfold gives; cbn [Gift.effects];
    repeat (constructor; [simpl; lia|]); constructor.
Qed.

Lemma pending_effects_process_gifts gifts p :
  Gift.pending_effects (GiftMore.process_gifts gifts p)
  = Gift.pending_effects p ++ omap (λ g, GiftMore.queued g.1.1) gifts.
Proof.
  induction gifts as [|g gifts IH] using rev_ind; [by rewrite app_nil_r|].
  rewrite GiftMoreFacts.process_gifts_snoc, GiftMoreFacts.pending_effects_process_gift, IH.
  rewrite omap_app, <- app_assoc. f_equal.
Qed.

Lemma queued_gives gift pe : GiftMore.queued gift = Some pe → gives (Gift.pe_effect pe).
Proof.
  unfold GiftMore.queued. intros (e & He & ->)%fmap_Some.
  by apply determine_effect_gives in He.
Qed.

Lemma kept_refl c : sound c → kept c c.
Proof. intros ?. unfold kept. split_and!; done || lia. Qed.

Lemma kept_trans c1 c2 c3 : kept c1 c2 → kept c2 c3 → kept c1 c3.
Proof.
  intros (_ & Hr & Hk & Hi & Hs) (? & Hr' & Hk' & Hi' & Hs').
  split; [done|]. split; [lia|]. split; [congruence|]. split; congruence.
Qed.

Lemma raised_attribute_ok (a attr : str) (v : Z) (attrs : list (str * Z)) :
  attr ∈ ODict.keys attrs → 0 ≤ v →
  0 ≤ default 10 (ODict.get a attrs) →
  0 ≤ default 10 (ODict.get a
        (ODict.set attr (default 0 (ODict.get attr attrs) + v) attrs)).
Proof.
  intros Hin Hv Ha. destruct (decide (attr = a)) as [->|Hne].
  - rewrite ODictFacts.get_set_eq.
    destruct (ODict.get a attrs) as [old|] eqn:Hget.
    + simpl in *. lia.
    + apply ODictFacts.get_None in Hget. done.
  - by rewrite ODictFacts.get_set_ne.
Qed.

Lemma choice_some {A} (seq : list A) (draws : list nat) :
  seq ≠ [] → ∃ x, (choice seq draws).1 = Some x ∧ x ∈ seq.
Proof.
  intros Hne. unfold choice. destruct seq as [|y seq]; [done|].
  cbn [fst].
  destruct (lookup_lt_is_Some_2 (y :: seq) (hd 0%nat draws mod length (y :: seq)))
    as [x Hx].
  { apply Nat.mod_upper_bound. simpl. lia. }
  exists x. split; [done|]. by eapply list_elem_of_lookup_2.
Qed.

Lemma apply_key_kept donor effect key value messages draws c :
  sound c → ODict.keys (attributes c) ≠ [] → 0 ≤ as_int value →
  ∃ messages' draws' c',
    apply_key donor effect key value messages draws c
    = Returned (messages', draws') c' ∧ kept c c'.
Proof.
  intros Hsound Hattrs Hvalue. unfold apply_key.
  destruct Hsound as (Hlevel & Hattr & Hbounds).
  assert (sound c) as Hsound by done.
  repeat case_decide.
  - destruct (add_cultivation_sound (as_int value) c Hsound Hvalue)
      as (result & c' & -> & Hs' & Hr' & Ha' & Hi' & Hh').
    eexists _, _, _. split; [done|]. repeat split; try apply Hs'; try done.
    by rewrite Ha'.
  - eexists _, _, _. split; [done|]. split; [|done].
    split; [done|]. split; [done|].
    unfold in_bounds in *. simpl. lia.
  - eexists _, _, _. split; [done|]. split; [|done].
    split; [done|]. split; [done|]. by apply heal_in_bounds.
  - eexists _, _, _. split; [done|]. split; [|done].
    split; [done|]. split; [done|].
    unfold in_bounds in *. simpl. lia.
  - eexists _, _, _. split; [done|]. split; [|done].
    split; [done|]. split; [done|]. by apply restore_mp_in_bounds.
  - destruct (choice_some (ODict.keys (attributes c)) draws Hattrs)
      as (attr & Hattr_eq & Hin).
    destruct (choice (ODict.keys (attributes c)) draws) as [o draws'].
    simpl in Hattr_eq. subst o.
    eexists _, _, _. split; [done|].
    split; [|split; [done|split; [|done]]].
    + split; [done|]. split; [|done].
      destruct Hattr as [Hp Hs].
      split; cbn [set_attributes attributes]; by apply raised_attribute_ok.
    + cbn [set_attributes attributes]. by apply ODictFacts.keys_set_in.
  - eexists _, _, _. split; [done|]. by apply kept_refl.
Qed.

Lemma apply_keys_kept donor effect items messages draws c :
  sound c → ODict.keys (attributes c) ≠ [] →
  Forall (λ kv, 0 ≤ as_int kv.2) items →
  ∃ messages' draws' c',
    apply_keys donor effect items messages draws c
    = Returned (messages', draws') c' ∧ kept c c'.
Proof.
  revert messages draws c.
  induction items as [|[key value] items IH]; intros messages draws c Hs Ha Hall.
  - eexists _, _, _. split; [done|]. by apply kept_refl.
  - apply Forall_cons in Hall as [Hv Hall]. cbn [apply_keys].
    destruct (apply_key_kept donor effect key value messages draws c Hs Ha Hv)
      as (m1 & d1 & c1 & -> & Hk1).
    destruct (IH m1 d1 c1) as (m2 & d2 & c2 & -> & Hk2); [apply Hk1| |done|].
    { destruct Hk1 as (_ & _ & -> & _). done. }
    eexists _, _, _. split; [done|]. by eapply kept_trans.
Qed.

Lemma apply_all_kept effects messages draws c :
  sound c → ODict.keys (attributes c) ≠ [] →
  Forall (λ pe, gives (Gift.pe_effect pe)) effects →
  ∃ messages' draws' c',
    apply_all effects messages draws c = Returned (messages', draws') c' ∧
    kept c c'.
Proof.
  revert messages draws c.
  induction effects as [|pe effects IH]; intros messages draws c Hs Ha Hall.
  - eexists _, _, _. split; [done|]. by apply kept_refl.
  - apply Forall_cons in Hall as [Hv Hall]. cbn [apply_all]. cbv zeta.
    destruct (apply_keys_kept (Gift.pe_donor pe) (Gift.pe_effect pe)
                (Gift.effects (Gift.pe_effect pe)) messages draws c Hs Ha Hv)
      as (m1 & d1 & c1 & -> & Hk1).
    destruct (IH m1 d1 c1) as (m2 & d2 & c2 & -> & Hk2); [apply Hk1| |done|].
    { destruct Hk1 as (_ & _ & -> & _). done. }
    eexists _, _, _. split; [done|]. by eapply kept_trans.
Qed.

(** X26: the effects pending after any gifts, handed over by
    [get_pending_effects] and applied by [apply_effects_to_player] to a player
    in good order who has attributes: the call returns (no realm index leaves
    the table, and the random choice has something to choose from), and the
    player is in good order after it: level within the realms, life and
    spirit points within their bounds. The realm does not fall, and the names
    of the attributes, the inventory and the story are as before. *)
Theorem gifts_keep_player_sound gifts (c : Character) (draws : list nat) :
  sound c → attributes c ≠ [] →
  let effects :=
    (GiftMore.get_pending_effects
       (GiftMore.process_gifts gifts Gift.new_processor)).2 in
  ∃ messages draws' c',
    apply_effects_to_player c effects draws = Returned (messages, draws') c' ∧
    sound c' ∧ realm_index c ≤ realm_index c' ∧
    ODict.keys (attributes c') = ODict.keys (attributes c) ∧
    inventory c' = inventory c ∧ story_history c' = story_history c.
Proof.
  intros Hsound Hattrs. cbv zeta. unfold apply_effects_to_player.
  apply apply_all_kept; [done| |].
  - unfold ODict.keys. by destruct (attributes c).
  - unfold GiftMore.get_pending_effects. cbn [snd].
    rewrite pending_effects_process_gifts. cbn [Gift.pending_effects app].
    apply Forall_forall. intros pe (g & _ & Hq)%list_elem_of_omap.
    by eapply queued_gives.
Qed.

Lemma gifts_keep_player_sound_witness :
  ∃ messages draws' c',
    apply_effects_to_player adept
      (GiftMore.get_pending_effects
         (GiftMore.process_gifts
            [(GiftSpec.gift_of "A" 25, 1, 1); (GiftSpec.gift_of "B" 10, 2, 2)]
            Gift.new_processor)).2 [3%nat]
    = Returned (messages, draws') c' ∧ sound c'.
Proof.
  destruct (gifts_keep_player_sound
              [(GiftSpec.gift_of "A" 25, 1, 1); (GiftSpec.gift_of "B" 10, 2, 2)]
              adept [3%nat] adept_sound ltac:(discriminate))
    as (messages & draws' & c' & H1 & H2 & _).
  exists messages, draws', c'. split; [exact H1|exact H2].
Defined.

(** X27: a gift worth 50 or more reaches one of the three highest
    tiers, and the effect of each of them has no key that
    [apply_effects_to_player] knows: applied to any player it returns no
    message, draws nothing and leaves the player as it was. *)
Theorem highest_tiers_leave_player_unchanged (V : Q) :
  (50 <= V)%Q →
  ∃ effect,
    Gift.determine_effect V = Some effect ∧
    ∀ donor c draws,
      apply_effects_to_player c [pending effect donor V] draws
      = Returned ([], draws) c.
Proof.
  intros HV. rewrite GiftMoreFacts.determine_effect_table.
  repeat match goal with
         | |- context [PySort.qlt V ?c] => destruct (PySort.qlt V c) eqn:?
         end;
    try (exfalso; GiftMoreFacts.q_order);
    (eexists; split; [by vm_compute|]); intros donor c draws;
    unfold apply_effects_to_player, pending;
    cbn [apply_all apply_keys Gift.pe_effect Gift.pe_donor Gift.effects];
    cbv zeta; key_case; done.
Qed.

Lemma highest_tiers_leave_player_unchanged_witness :
  ∃ effect,
    Gift.determine_effect 120 = Some effect ∧
    apply_effects_to_player adept [pending effect (PyStr.lit "A") 120] []
    = Returned ([], []) adept.
Proof.
  destruct (highest_tiers_leave_player_unchanged 120 ltac:(lra)) as (effect & H1 & H2).
  exists effect. split; [exact H1|apply H2].
Defined.

(** X28: a gift worth 5 or more and less than 10 reaches the tier of
    the life blessing, whose first key raises the maximum of the life points
    by 50 before its second key heals 50: so a player whose life points are
    within the maximum always gains the full 50 on both, and the two messages
    say so. *)
Theorem life_blessing_heals_in_full (V : Q) (donor : str) (c : Character)
    (draws : list nat) :
  (5 <= V)%Q → (V < 10)%Q → hp (counters c) ≤ max_hp (counters c) →
  ∃ effect,
    Gift.determine_effect V = Some effect ∧
    apply_effects_to_player c [pending effect donor V] draws
    = Returned ([RaisedMaxHp donor (Gift.name effect) (Gift.VInt 50); Healed 50],
                draws)
        (set_counters {| hp := hp (counters c) + 50;
                         max_hp := max_hp (counters c) + 50;
                         mp := mp (counters c);
                         max_mp := max_mp (counters c) |} c).
Proof.
  intros Hlo Hhi Hhp. rewrite GiftMoreFacts.determine_effect_table.
  repeat match goal with
         | |- context [PySort.qlt V ?c] => destruct (PySort.qlt V c) eqn:?
         end;
    try (exfalso; GiftMoreFacts.q_order).
  eexists. split; [by vm_compute|].
  unfold apply_effects_to_player, pending.
  cbn [apply_all apply_keys Gift.pe_effect Gift.pe_donor Gift.effects Gift.name].
  cbv zeta. key_case.
  cbn [as_int on_counters set_counters counters heal set_max_hp set_hp
       hp max_hp mp max_mp fst snd app].
  replace (Z.min (max_hp (counters c) + 50) (hp (counters c) + 50))
    with (hp (counters c) + 50) by lia.
  replace (hp (counters c) + 50 - hp (counters c)) with 50 by lia.
  done.
Qed.

Lemma life_blessing_heals_in_full_witness :
  ∃ effect,
    Gift.determine_effect 7 = Some effect ∧
    apply_effects_to_player adept [pending effect (PyStr.lit "A") 7] []
    = Returned ([RaisedMaxHp (PyStr.lit "A") (Gift.name effect) (Gift.VInt 50);
                 Healed 50], [])
        (set_counters {| hp := 170; max_hp := 350; mp := 20; max_mp := 170 |}
           adept).
Proof.
  destruct (life_blessing_heals_in_full 7 (PyStr.lit "A") adept []
              ltac:(lra) ltac:(lra) ltac:(simpl; lia)) as (effect & H1 & H2).
  exists effect. split; [exact H1|exact H2].
Defined.

End GiftPlayerFacts.


(** ** Gifts in the live game *)

Module LiveGameFacts.
Import Board LiveGame.

Lemma emit_gifts_snoc evs ev g :
  emit_gifts (evs ++ [ev]) g
  = let st := emit_gifts evs g in
    let r := on_gift ev st.1 in (r.1, st.2 ++ option_list r.2).
Proof. unfold emit_gifts. by rewrite foldl_snoc. Qed.

Lemma events_of_snoc key evs ev :
  events_of key (evs ++ [ev])
  = events_of key evs
    ++ if decide (entry_key (Gift.platform (ge_gift ev)) (Gift.user_id (ge_gift ev)) = key)
       then [ev] else [].
Proof. unfold events_of. rewrite filter_app. f_equal. Qed.

Lemma gifts_of_processed key evs :
  GiftMore.gifts_of key (processed <$> evs) = processed <$> events_of key evs.
Proof.
  unfold GiftMore.gifts_of, events_of, Gift.donor_key, entry_key.
  induction evs as [|ev evs IH]; [done|].
  rewrite fmap_cons, !filter_cons. cbn [processed fst snd].
  destruct (decide _); by rewrite IH, ?fmap_cons.
Qed.

Lemma value_sum_snoc gifts g :
  GiftMore.value_sum (gifts ++ [g])
  = (GiftMore.value_sum gifts + GiftMore.total_of g.1.1)%Q.
Proof. unfold GiftMore.value_sum. by rewrite foldl_snoc. Qed.

(** The callbacks of a gift leave the boards and the statistics alone. *)
Lemma on_gift_effects_boards effect gift now (cbs : list Gift.Callback) g :
  let g' := foldl (λ g _, on_gift_effect effect gift now g) g cbs in
  boards (leaderboard g') = boards (leaderboard g) ∧
  game_stats (leaderboard g') = game_stats (leaderboard g) ∧
  gift_processor g' = gift_processor g.
Proof.
  revert g. induction cbs as [|cb cbs IH]; intros g; [done|].
  simpl. destruct (IH (on_gift_effect effect gift now g)) as (-> & -> & ->). done.
Qed.

(** The donors of a processor that started without any. *)
Lemma donor_total_of_gifts gifts p key :
  Gift.donor_stats p = [] →
  match ODict.get key (Gift.donor_stats (GiftMore.process_gifts gifts p)) with
  | Some st =>
      GiftMore.gifts_of key gifts ≠ [] ∧
      Gift.total_value st = GiftMore.value_sum (GiftMore.gifts_of key gifts)
  | None => GiftMore.gifts_of key gifts = []
  end.
Proof.
  intros Hp. induction gifts as [|g gifts IH] using rev_ind.
  { unfold GiftMore.process_gifts. simpl. by rewrite Hp. }
  rewrite GiftMoreFacts.process_gifts_snoc, GiftMoreFacts.donor_stats_process_gift,
    GiftMoreFacts.gifts_of_snoc.
  set (donors := Gift.donor_stats (GiftMore.process_gifts gifts p)) in *.
  destruct (decide (Gift.donor_key (Gift.platform g.1.1) (Gift.user_id g.1.1) = key))
    as [<-|Hne].
  - destruct (GiftFacts.update_donor_stats_get g.1.1 (GiftMore.total_of g.1.1)
                g.1.2 donors) as (st & -> & Hv & _).
    split; [by destruct (GiftMore.gifts_of _ gifts)|].
    rewrite value_sum_snoc, Hv.
    destruct (ODict.get _ donors) as [st0|].
    + destruct IH as (_ & ->). done.
    + by rewrite IH.
  - rewrite app_nil_r.
    pose proof (GiftMoreFacts.update_donor_stats_get_other g.1.1
                  (GiftMore.total_of g.1.1) g.1.2 donors key ltac:(done)) as Hother.
    destruct (ODict.get key donors) as [st0|],
             (ODict.get key (Gift.update_donor_stats _ _ _ donors)) as [st|];
      try done.
    destruct IH as (Hne0 & Hv), Hother as (_ & _ & _ & Hv' & _).
    by rewrite <- Hv'.
Qed.

Lemma plus_count (n : nat) :
  (inject_Z (Z.of_nat n) + 1)%Q = inject_Z (Z.of_nat (S n)).
Proof.
  unfold Qplus, inject_Z. cbn [Qnum Qden]. f_equal. lia.
Qed.

Lemma contribution_ne_stats_keys :
  PyStr.lit "total_gifts_value" ≠ PyStr.lit "total_gifts_count".
Proof. intros H. vm_compute in H. discriminate H. Qed.

(** What the leaderboard holds of the gifts handled so far. *)
Lemma update_contribution_books evs ev lb board :
  ODict.get (Board.value CONTRIBUTION) (boards lb) = Some board →
  (∀ key,
     match ODict.get key board with
     | Some e =>
         events_of key evs ≠ [] ∧
         score e = GiftMore.value_sum (processed <$> events_of key evs) ∧
         ODict.get (PyStr.lit "gifts") (extra_data e)
         = Some (JArr (take 100 (recorded <$> events_of key evs)))
     | None => events_of key evs = []
     end) →
  ODict.get (PyStr.lit "total_gifts_value") (game_stats lb)
  = Some (JNum (GiftMore.value_sum (processed <$> evs))) →
  ODict.get (PyStr.lit "total_gifts_count") (game_stats lb)
  = Some (JNum (inject_Z (Z.of_nat (length evs)))) →
  ∃ lb' board',
    update_contribution (Gift.user_id (ge_gift ev)) (Gift.username (ge_gift ev))
      (Gift.platform (ge_gift ev)) (GiftMore.total_of (ge_gift ev))
      (Gift.gift_name (ge_gift ev)) (t_update ev) (t_gift ev) lb = Ended lb' ∧
    ODict.get (Board.value CONTRIBUTION) (boards lb') = Some board' ∧
    (∀ key,
       match ODict.get key board' with
       | Some e =>
           events_of key (evs ++ [ev]) ≠ [] ∧
           score e = GiftMore.value_sum (processed <$> events_of key (evs ++ [ev])) ∧
           ODict.get (PyStr.lit "gifts") (extra_data e)
           = Some (JArr (take 100 (recorded <$> events_of key (evs ++ [ev]))))
       | None => events_of key (evs ++ [ev]) = []
       end) ∧
    ODict.get (PyStr.lit "total_gifts_value") (game_stats lb')
    = Some (JNum (GiftMore.value_sum (processed <$> (evs ++ [ev])))) ∧
    ODict.get (PyStr.lit "total_gifts_count") (game_stats lb')
    = Some (JNum (inject_Z (Z.of_nat (length (evs ++ [ev]))))).
Proof.
  intros Hboard Hentries Hvalue Hcount.
  set (key := entry_key (Gift.platform (ge_gift ev)) (Gift.user_id (ge_gift ev))).
  set (gift := gift_json (Gift.gift_name (ge_gift ev)) (GiftMore.total_of (ge_gift ev))
                 (t_gift ev)).
  assert (∃ e2,
    update_contribution (Gift.user_id (ge_gift ev)) (Gift.username (ge_gift ev))
      (Gift.platform (ge_gift ev)) (GiftMore.total_of (ge_gift ev))
      (Gift.gift_name (ge_gift ev)) (t_update ev) (t_gift ev) lb
    = Ended (save (set_game_stats
               (ODict.set (PyStr.lit "total_gifts_count")
                  (JNum (inject_Z (Z.of_nat (length evs)) + 1))
                  (ODict.set (PyStr.lit "total_gifts_value")
                     (JNum (GiftMore.value_sum (processed <$> evs)
                            + GiftMore.total_of (ge_gift ev)))
                     (game_stats lb)))
               (set_board (Board.value CONTRIBUTION) (ODict.set key e2 board) lb))) ∧
    score e2 = (GiftMore.value_sum (processed <$> events_of key evs)
                + GiftMore.total_of (ge_gift ev))%Q ∧
    ODict.get (PyStr.lit "gifts") (extra_data e2)
    = Some (JArr (take 100 (recorded <$> (events_of key evs ++ [ev])))))
    as (e2 & Hcall & Hscore & Hgifts).
  { unfold update_contribution. rewrite Hboard. cbv zeta. fold key. fold gift.
    specialize (Hentries key).
    destruct (ODict.get key board) as [e|] eqn:He.
    - destruct Hentries as (_ & Hs & Hg).
      cbn [extra_data]. rewrite Hg. cbn [len].
      rewrite length_take, length_fmap.
      destruct (decide _) as [Hlt|Hge].
      + eexists. split.
        * cbn [set_board game_stats set_game_stats]. rewrite Hvalue. cbn [plus].
          rewrite ODictFacts.get_set_ne by apply contribution_ne_stats_keys.
          rewrite Hcount. cbn [plus_one]. reflexivity.
        * cbn [score extra_data]. split; [by rewrite Hs|].
          rewrite ODictFacts.get_set_eq. do 2 f_equal.
          rewrite (take_ge (recorded <$> events_of key evs))
            by (rewrite length_fmap; lia).
          rewrite (take_ge (recorded <$> (events_of key evs ++ [ev])))
            by (rewrite length_fmap, length_app; simpl; lia).
          by rewrite fmap_app.
      + eexists. split.
        * cbn [set_board game_stats set_game_stats]. rewrite Hvalue. cbn [plus].
          rewrite ODictFacts.get_set_ne by apply contribution_ne_stats_keys.
          rewrite Hcount. cbn [plus_one]. reflexivity.
        * cbn [score extra_data]. split; [by rewrite Hs|].
          rewrite Hg. do 2 f_equal.
          rewrite fmap_app, take_app_le by (rewrite length_fmap; lia). done.
    - rewrite Hentries. cbn [extra_data ODict.get].
      rewrite decide_True by done. cbn [len length].
      rewrite decide_True by lia.
      eexists. split.
      * cbn [set_board game_stats set_game_stats]. rewrite Hvalue. cbn [plus].
        rewrite ODictFacts.get_set_ne by apply contribution_ne_stats_keys.
        rewrite Hcount. cbn [plus_one]. reflexivity.
      * cbn [score extra_data]. split; [done|].
        by rewrite ODictFacts.get_set_eq. }
  rewrite Hcall. eexists _, _. split; [done|].
  cbn [save set_game_stats set_board boards game_stats].
  rewrite ODictFacts.get_set_eq. split; [done|].
  split; [|split].
  - intros key'. rewrite events_of_snoc. fold key.
    destruct (decide (key = key')) as [<-|Hne].
    + rewrite ODictFacts.get_set_eq.
      split; [by destruct (events_of key evs)|].
      split; [|done].
      rewrite Hscore, fmap_app. change (processed <$> [ev]) with [processed ev].
      by rewrite value_sum_snoc.
    + rewrite ODictFacts.get_set_ne by done. rewrite app_nil_r. apply Hentries.
  - rewrite ODictFacts.get_set_ne
      by (intros H; symmetry in H; by apply contribution_ne_stats_keys in H).
    rewrite ODictFacts.get_set_eq. rewrite fmap_app.
    change (processed <$> [ev]) with [processed ev]. by rewrite value_sum_snoc.
  - rewrite ODictFacts.get_set_eq, length_app. cbn [length].
    rewrite Nat.add_1_r. by rewrite plus_count.
Qed.

Lemma on_gift_books evs ev g board :
  ODict.get (Board.value CONTRIBUTION) (boards (leaderboard g)) = Some board →
  (∀ key,
     match ODict.get key board with
     | Some e =>
         events_of key evs ≠ [] ∧
         score e = GiftMore.value_sum (processed <$> events_of key evs) ∧
         ODict.get (PyStr.lit "gifts") (extra_data e)
         = Some (JArr (take 100 (recorded <$> events_of key evs)))
     | None => events_of key evs = []
     end) →
  ODict.get (PyStr.lit "total_gifts_value") (game_stats (leaderboard g))
  = Some (JNum (GiftMore.value_sum (processed <$> evs))) →
  ODict.get (PyStr.lit "total_gifts_count") (game_stats (leaderboard g))
  = Some (JNum (inject_Z (Z.of_nat (length evs)))) →
  ∃ g' board',
    on_gift ev g = (g', None) ∧
    gift_processor g'
    = (Gift.process_gift (ge_gift ev) (t_stats ev) (t_record ev) (gift_processor g)).1 ∧
    ODict.get (Board.value CONTRIBUTION) (boards (leaderboard g')) = Some board' ∧
    (∀ key,
       match ODict.get key board' with
       | Some e =>
           events_of key (evs ++ [ev]) ≠ [] ∧
           score e = GiftMore.value_sum (processed <$> events_of key (evs ++ [ev])) ∧
           ODict.get (PyStr.lit "gifts") (extra_data e)
           = Some (JArr (take 100 (recorded <$> events_of key (evs ++ [ev]))))
       | None => events_of key (evs ++ [ev]) = []
       end) ∧
    ODict.get (PyStr.lit "total_gifts_value") (game_stats (leaderboard g'))
    = Some (JNum (GiftMore.value_sum (processed <$> (evs ++ [ev])))) ∧
    ODict.get (PyStr.lit "total_gifts_count") (game_stats (leaderboard g'))
    = Some (JNum (inject_Z (Z.of_nat (length (evs ++ [ev]))))).
Proof.
  intros Hboard Hentries Hvalue Hcount. unfold on_gift. cbv zeta.
  destruct (Gift.process_gift (ge_gift ev) (t_stats ev) (t_record ev)
              (gift_processor g)) as [p effect].
  match goal with
  | |- context [update_contribution _ _ _ _ _ _ _ (leaderboard ?g2)] =>
      set (g2' := g2);
      assert (boards (leaderboard g2') = boards (leaderboard g) ∧
              game_stats (leaderboard g2') = game_stats (leaderboard g) ∧
              gift_processor g2' = p) as (Hb2 & Hs2 & Hp2)
  end.
  { subst g2'. destruct effect as [e|]; [|done].
    match goal with
    | |- context [foldl _ ?g1 ?cbs] =>
        destruct (on_gift_effects_boards e (ge_gift ev) (t_history ev) cbs g1)
          as (-> & -> & ->)
    end. done. }
  destruct (update_contribution_books evs ev (leaderboard g2') board)
    as (lb' & board' & Hcall & H1 & H2 & H3 & H4);
    [by rewrite Hb2|done|by rewrite Hs2|by rewrite Hs2|].
  change (Gift.gift_value (ge_gift ev) * inject_Z (Gift.gift_count (ge_gift ev)))%Q
    with (GiftMore.total_of (ge_gift ev)).
  rewrite Hcall. eexists _, board'. split; [done|].
  cbn [gift_processor leaderboard fst]. by repeat split.
Qed.

(** From a new game on, no gift raises, and the books are kept. *)
Lemma emit_gifts_books evs now :
  let st := emit_gifts evs (new_game now) in
  st.2 = [] ∧
  gift_processor st.1
  = GiftMore.process_gifts (processed <$> evs) (gift_processor (new_game now)) ∧
  ∃ board,
    ODict.get (Board.value CONTRIBUTION) (boards (leaderboard st.1)) = Some board ∧
    (∀ key,
       match ODict.get key board with
       | Some e =>
           events_of key evs ≠ [] ∧
           score e = GiftMore.value_sum (processed <$> events_of key evs) ∧
           ODict.get (PyStr.lit "gifts") (extra_data e)
           = Some (JArr (take 100 (recorded <$> events_of key evs)))
       | None => events_of key evs = []
       end) ∧
    ODict.get (PyStr.lit "total_gifts_value") (game_stats (leaderboard st.1))
    = Some (JNum (GiftMore.value_sum (processed <$> evs))) ∧
    ODict.get (PyStr.lit "total_gifts_count") (game_stats (leaderboard st.1))
    = Some (JNum (inject_Z (Z.of_nat (length evs)))).
Proof.
  cbv zeta. induction evs as [|ev evs IH] using rev_ind.
  - split; [done|]. split; [done|]. exists []. by repeat split.
  - destruct IH as (Herrs & Hproc & board & Hboard & Hentries & Hvalue & Hcount).
    rewrite emit_gifts_snoc. cbv zeta.
    destruct (on_gift_books evs ev (emit_gifts evs (new_game now)).1 board
                Hboard Hentries Hvalue Hcount)
      as (g' & board' & -> & Hp' & Hb' & He' & Hv' & Hc').
    cbn [fst snd option_list]. rewrite Herrs.
    split; [done|]. split.
    + rewrite Hp', Hproc, fmap_app.
      change (processed <$> [ev]) with [processed ev].
      by rewrite GiftMoreFacts.process_gifts_snoc.
    + by exists board'.
Qed.



End LiveGameFacts.
